(** * get_snotel_shef.py: the snapshot/delta pipeline, embedded and verified

    The script pulls SNOTEL observations, encodes them as SHEF (or csv)
    lines into a "new" snapshot file, publishes the lines that the "last"
    snapshot does not hold, removes duplicate lines from the published file
    and promotes "new" to "last".

    The embedding follows the script function by function.  Python
    exceptions are values of [exn]; code that touches the file system, the
    log or the network runs in a state-and-exception monad over [world]. *)

From Stdlib Require Import ZArith Lia Ascii.
From stdpp Require Import base strings list gmap pretty.

#[local] Set Warnings "-clear-no-such-hyp".

(** ** Exceptions and results *)

Inductive exn : Type :=
  | ValueError (msg : string)          (* range() step 0, pd.concat([]) *)
  | TypeError (msg : string)           (* str.join over a non-str item *)
  | UnboundLocalError (var : string)   (* a local read before assignment *)
  | KeyError (key : string)            (* a column the frame does not have *)
  | FileNotFoundError (path : string)
  | OverflowError (msg : string)       (* int64 datetime arithmetic *)
  | TransportError (msg : string).     (* requests / response.json() / KeyError on the reply *)

Inductive result (A : Type) : Type :=
  | Ok (a : A)
  | Err (e : exn).
Arguments Ok {A} a.
Arguments Err {A} e.

(** ** Global constants (lines 40-45, 59-64) *)

Definition code_dict : gmap string string :=
  <["PREC" := "PC"]> (<["TOBS" := "TA"]> (<["WTEQ" := "SW"]> (<["SNWD" := "SD"]> ∅))).
Definition type_source : string := "RB".
Definition product_id : string := "snotelWeb".

Definition out_fn_pre : string := "snotel_scraped_".
Definition new_fn_pre : string := "new_snotel_".
Definition last_fn_pre : string := "last_snotel_".

(** The posix branch of lines 48-57; [os.path.join] of these directories
    with a relative file name. *)
Definition out_dir : string := "/data/Incoming/".
Definition log_dir : string := "/data/ldad/logs/".

(** ** Python sequences *)

Section sequences.
Context {A : Type}.

(** [range(start, stop, step)]: [ValueError] for step 0, else the
    arithmetic progression, whose length CPython computes as
    ceil((stop - start) / step) when that is positive. *)
Definition py_range (start stop step : Z) : result (list Z) :=
  if decide (step = 0)%Z then Err (ValueError "range() arg 3 must not be zero")
  else
    let n := (if decide (0 < step)%Z
              then (stop - start + step - 1) / step
              else (start - stop - step - 1) / (- step))%Z in
    Ok ((λ k : nat, start + Z.of_nat k * step)%Z <$> seq 0 (Z.to_nat n)).

(** [l[i:j]] for 0 <= i <= j (positional slice, clamped to the length). *)
Definition slice (l : list A) (i j : Z) : list A :=
  take (Z.to_nat j - Z.to_nat i) (drop (Z.to_nat i) l).

(** The loop header and slice of lines 230-231:
    [for i in range(0, len(df), max_call_ids): df.iloc[i:(i + max_call_ids)]]. *)
Definition batches (df : list A) (max_call_ids : Z) : result (list (list A)) :=
  match py_range 0 (Z.of_nat (length df)) max_call_ids with
  | Err e => Err e
  | Ok idx => Ok ((λ i, slice df i (i + max_call_ids)) <$> idx)
  end.
End sequences.

(** ** Text files as Python reads and writes them

    A file holds the characters that were written to it.  The script opens
    every file in text mode with the default [newline=None] (lines 164, 167,
    211): on reading, a carriage return followed by a line feed, and a
    carriage return alone, are handed over as one line feed; on writing
    (posix, lines 48-57) a line feed stays a line feed. *)

Definition newline : ascii := "010"%char.
Definition cr : ascii := "013"%char.
Definition lf : string := String newline EmptyString.

(** The translation of line ends that reading in text mode performs. *)
Fixpoint universal_newlines (s : string) : string :=
  match s with
  | EmptyString => EmptyString
  | String c rest =>
      if decide (c = cr) then
        match rest with
        | String c' rest' =>
            if decide (c' = newline) then String newline (universal_newlines rest')
            else String newline (universal_newlines rest)
        | EmptyString => String newline EmptyString
        end
      else String c (universal_newlines rest)
  end.

(** A text cut after every line feed, terminators kept; a last line without
    one is kept as it is. *)
Fixpoint split_lines (s : string) : list string :=
  match s with
  | EmptyString => []
  | String c rest =>
      if decide (c = newline) then String c EmptyString :: split_lines rest
      else match split_lines rest with
           | [] => [String c EmptyString]
           | l :: ls => String c l :: ls
           end
  end.

(** [f.readlines()] (and iteration over a file) on a file that holds [s]. *)
Definition readlines (s : string) : list string :=
  split_lines (universal_newlines s).

(** Consecutive [f.write(line)] calls. *)
Definition write_all (lines : list string) : string :=
  foldr String.append "" lines.

(** ["\n".join(lines)] over strings. *)
Fixpoint join_lines (lines : list string) : string :=
  match lines with
  | [] => ""
  | [l] => l
  | l :: ls => l +:+ lf +:+ join_lines ls
  end.

(** ** SnapshotDiffer, the pure part of [write_new_lines] (lines 158-171) *)

Definition start_row (out_fmt : string) : option nat :=
  if decide (out_fmt = "csv") then Some 1
  else if decide (out_fmt = "shef") then Some 2
  else None.

(** [set_last = set(last_lines); diff = [x for x in new_lines if x not in set_last]] *)
Definition diff_lines (new_lines last_lines : list string) : list string :=
  let set_last : gset string := list_to_set last_lines in
  filter (λ x, x ∉ set_last) new_lines.

(** ** Deduplicator, the loop of [remove_dup_lines] (lines 210-215) *)

Fixpoint dedup_loop (lines_seen : gset string) (lines : list string) : list string :=
  match lines with
  | [] => []
  | line :: rest =>
      if decide (line ∉ lines_seen)
      then line :: dedup_loop ({[line]} ∪ lines_seen) rest
      else dedup_loop lines_seen rest
  end.

Definition dedup_lines (lines : list string) : list string := dedup_loop ∅ lines.

(** ** TimeNormalizer: pandas datetime64[ns] values

    A timestamp is a signed 64-bit count of nanoseconds since 1970-01-01;
    pandas raises instead of wrapping when an operation leaves that range.
    The least 64-bit value is its marker for a missing time (NaT): a
    difference that lands exactly on it is handed on as a missing time
    instead of raising.  A record of this model always carries a time
    ([f_utcTime]), so that one value is outside the model: [int64_ok]
    excludes it and the properties below speak of rows inside the range
    ([representable]). *)

Definition ns_per_second : Z := 1000000000.
Definition ns_per_hour : Z := 3600 * ns_per_second.

Definition int64_ok (x : Z) : bool := ((- 2 ^ 63 <? x) && (x <? 2 ^ 63))%Z.

(** [pd.to_datetime] of a value already read as nanoseconds. *)
Definition to_datetime (t : Z) : result Z :=
  if int64_ok t then Ok t else Err (ValueError "Out of bounds nanosecond timestamp").

(** [pd.to_timedelta(x, 'h')] for a whole number of hours. *)
Definition to_timedelta_h (hours : Z) : result Z :=
  if int64_ok (hours * ns_per_hour) then Ok (hours * ns_per_hour)%Z
  else Err (OverflowError "timedelta out of bounds").

(** Timestamp minus timedelta, overflow checked, for a difference that is
    a timestamp (see above for the one value that is not). *)
Definition sub_timedelta (t td : Z) : result Z :=
  if int64_ok (t - td) then Ok (t - td)%Z
  else Err (OverflowError "Overflow in int64 addition").

(** One cell of line 255:
    [pd.to_datetime(date) - pd.to_timedelta(dataTimeZone, 'h')]. *)
Definition toUtc (date dataTimeZone : Z) : result Z :=
  match to_datetime date with
  | Err e => Err e
  | Ok t =>
      match to_timedelta_h dataTimeZone with
      | Err e => Err e
      | Ok td => sub_timedelta t td
      end
  end.

(** Calendar fields of a day count since the epoch (proleptic Gregorian). *)
Definition civil_from_days (days : Z) : Z * Z * Z :=
  (let z := days + 719468 in
   let era := z / 146097 in
   let doe := z - era * 146097 in
   let yoe := (doe - doe / 1460 + doe / 36524 - doe / 146096) / 365 in
   let doy := doe - (365 * yoe + yoe / 4 - yoe / 100) in
   let mp := (5 * doy + 2) / 153 in
   let d := doy - (153 * mp + 2) / 5 + 1 in
   let m := if decide (mp < 10) then mp + 3 else mp - 9 in
   let y := yoe + era * 400 in
   (if decide (m <= 2) then y + 1 else y, m, d))%Z.

(** Day count of a calendar date, the inverse direction; used to write
    timestamps down as dates. *)
Definition days_from_civil (y m d : Z) : Z :=
  (let y' := if decide (m <= 2) then y - 1 else y in
   let era := y' / 400 in
   let yoe := y' - era * 400 in
   let mp := if decide (m <= 2) then m + 9 else m - 3 in
   let doy := (153 * mp + 2) / 5 + d - 1 in
   let doe := yoe * 365 + yoe / 4 - yoe / 100 + doy in
   era * 146097 + doe - 719468)%Z.

Definition timestamp (y m d H M S : Z) : Z :=
  ((days_from_civil y m d * 86400 + H * 3600 + M * 60 + S) * ns_per_second)%Z.

Record calendar := {
  cal_year : Z; cal_month : Z; cal_day : Z;
  cal_hour : Z; cal_minute : Z; cal_second : Z
}.

Definition calendar_of (t : Z) : calendar :=
  (let secs := t / ns_per_second in
   let sod := secs mod 86400 in
   let '(y, m, d) := civil_from_days (secs / 86400) in
   {| cal_year := y; cal_month := m; cal_day := d;
      cal_hour := sod / 3600; cal_minute := (sod mod 3600) / 60;
      cal_second := sod mod 60 |})%Z.

(** Two-digit, zero-padded field of [strftime] (%m %d %H %M %S). *)
Definition pad2 (n : Z) : string :=
  if decide (n < 10)%Z then "0" +:+ pretty n else pretty n.

(** [strftime('%Y%m%d')], [strftime('%H%M')], [strftime('%d%H%M')],
    [strftime('%Y%m%d_%H%M%S')] and the ISO text [to_csv] prints. *)
Definition strftime_Ymd (t : Z) : string :=
  let c := calendar_of t in
  pretty (cal_year c) +:+ pad2 (cal_month c) +:+ pad2 (cal_day c).
Definition strftime_HM (t : Z) : string :=
  let c := calendar_of t in pad2 (cal_hour c) +:+ pad2 (cal_minute c).
Definition strftime_dHM (t : Z) : string :=
  let c := calendar_of t in
  pad2 (cal_day c) +:+ pad2 (cal_hour c) +:+ pad2 (cal_minute c).
Definition strftime_Ymd_HMS (t : Z) : string :=
  let c := calendar_of t in
  strftime_Ymd t +:+ "_" +:+ pad2 (cal_hour c) +:+ pad2 (cal_minute c)
    +:+ pad2 (cal_second c).
Definition isoformat (t : Z) : string :=
  let c := calendar_of t in
  pretty (cal_year c) +:+ "-" +:+ pad2 (cal_month c) +:+ "-" +:+ pad2 (cal_day c)
    +:+ " " +:+ pad2 (cal_hour c) +:+ ":" +:+ pad2 (cal_minute c)
    +:+ ":" +:+ pad2 (cal_second c).

(** ** Data frames as lists of rows *)

(** A row of the station reference table ([SNOTEL_metadata_2024.csv]). *)
Record station_row := {
  StationId : Z;
  StateCode : string;
  ShefId : string
}.

(** The reply of the data endpoint: one object per station, holding per
    element a list of (date, value) entries.  [v_date] is the instant the
    date text denotes, in nanoseconds; [v_value] is the reading as
    [astype(str)] prints it (floating point is not modelled). *)
Record value_json := { v_date : Z; v_value : string }.
Record element_json := { elementCode : string; values : list value_json }.
Record station_json := { sj_stationTriplet : string; sj_data : list element_json }.

(** A row of [gages_df]. *)
Record gage_row := {
  g_date : Z;
  g_value : string;
  g_elementCode : string;
  g_stationTriplet : string;
  g_PE : option string
}.

(** A row of [meta_df]. *)
Record meta_row := {
  m_stationTriplet : string;
  dataTimeZone : Z;
  shefId : string
}.

(** A row of [final_df]: the normalized record. *)
Record final_row := {
  f_shefId : string;
  f_utcTime : Z;
  f_PE : option string;
  f_value : string
}.

(** [pd.concat(frames)]: refuses an empty list of frames. *)
Definition pd_concat {A} (frames : list (list A)) : result (list A) :=
  match frames with
  | [] => Err (ValueError "No objects to concatenate")
  | _ => Ok (concat frames)
  end.

(** [pd.json_normalize(json_str['data'], record_path='values', meta=...)]
    with the [stationTriplet] column of line 134; the PE column is added
    after the concat (line 138). *)
Definition normalize_station (js : station_json) : list gage_row :=
  el ← sj_data js;
  v ← values el;
  [ {| g_date := v_date v; g_value := v_value v;
       g_elementCode := elementCode el;
       g_stationTriplet := sj_stationTriplet js;
       g_PE := None |} ].

(** Line 138: [code_dict.get(nrcs_code)], [None] for a code not in the table. *)
Definition add_PE (r : gage_row) : gage_row :=
  {| g_date := g_date r; g_value := g_value r;
     g_elementCode := g_elementCode r;
     g_stationTriplet := g_stationTriplet r;
     g_PE := code_dict !! g_elementCode r |}.

(** Lines 232 and 242: [StationId.astype(str) + ':' + StateCode + ':SNTL']. *)
Definition triplet_of (r : station_row) : string :=
  pretty (StationId r) +:+ ":" +:+ StateCode r +:+ ":SNTL".

(** [','.join(triplet_str)]. *)
Fixpoint join_comma (l : list string) : string :=
  match l with
  | [] => ""
  | [x] => x
  | x :: rest => x +:+ "," +:+ join_comma rest
  end.

(** Line 253: [all_data_df.merge(all_meta_df)], an inner join on the one
    shared column, [stationTriplet], in the order of the left frame. *)
Definition merge (data : list gage_row) (meta : list meta_row)
  : list (gage_row * meta_row) :=
  d ← data;
  m ← filter (λ m, m_stationTriplet m = g_stationTriplet d) meta;
  [ (d, m) ].

(** A monadic map in [result], for column-wise operations that may raise. *)
Fixpoint mapR {A B} (f : A → result B) (l : list A) : result (list B) :=
  match l with
  | [] => Ok []
  | x :: rest =>
      match f x with
      | Err e => Err e
      | Ok y => match mapR f rest with
                | Err e => Err e
                | Ok ys => Ok (y :: ys)
                end
      end
  end.

(** Lines 255-257: the three column operations of line 255, one after
    the other over the whole column, then the projection of line 257. *)
Definition add_utcTime (combined : list (gage_row * meta_row)) : result (list final_row) :=
  match mapR (λ r, to_datetime (g_date r.1)) combined with
  | Err e => Err e
  | Ok _ =>
      match mapR (λ r, to_timedelta_h (dataTimeZone r.2)) combined with
      | Err e => Err e
      | Ok _ =>
          mapR (λ r,
                  match toUtc (g_date r.1) (dataTimeZone r.2) with
                  | Err e => Err e
                  | Ok u => Ok {| f_shefId := shefId r.2; f_utcTime := u;
                                  f_PE := g_PE r.1; f_value := g_value r.1 |}
                  end) combined
      end
  end.

(** ** MessageEncoder *)

(** Lines 272-275. *)
Definition shef_dur (duration : string) : string :=
  if decide (duration = "HOURLY") then "I" else "D".

(** pandas' [+] on string columns: a missing cell ([None], as line 138
    leaves it) makes the sum a missing value instead of a string. *)
Definition str_add (a b : option string) : option string :=
  match a, b with
  | Some x, Some y => Some (x +:+ y)
  | _, _ => None
  end.
Infix "+?" := str_add (at level 50, left associativity).

(** One cell of [out_lines], lines 287-289, in the order the sum is written. *)
Definition out_line (duration : string) (r : final_row) : option string :=
  Some ".AR " +? Some (f_shefId r) +? Some " "
    +? Some (strftime_Ymd (f_utcTime r)) +? Some " Z DH"
    +? Some (strftime_HM (f_utcTime r))
    +? Some "/DUE /" +? f_PE r +? Some (shef_dur duration)
    +? Some type_source +? Some "ZZ " +? Some (f_value r).

(** ["\n".join(out_lines)]: [TypeError] when an item is not a string. *)
Definition join_out_lines (out_lines : list (option string)) : result string :=
  match mapR (λ o, match o with
                   | Some s => Ok s
                   | None => Err (TypeError "sequence item: expected str instance, float found")
                   end) out_lines with
  | Err e => Err e
  | Ok ls => Ok (join_lines ls)
  end.

(** The two-line header of [write_header] for shef (lines 193-194). *)
Definition shef_header (utc_now : Z) : string :=
  "TTAA00 KPTR " +:+ strftime_dHM utc_now +:+ lf
    +:+ product_id +:+ lf.

(** [csv_df.columns] and [','.join(header) + '\n'] (lines 196, 281). *)
Definition csv_headers : list string := ["shefId"; "utcTime"; "PE"; "value"; "duration"].
Definition csv_header : string := join_comma csv_headers +:+ lf.

(** [csv_df.to_csv(new_fullfn, index=False)], for fields that need no
    quoting and times printed as date and time to the second: the header
    row, then one row per record, a missing PE printed as the empty
    field.  (pandas prints the date alone when every time of the frame is
    at midnight, and fractions of a second when there are any.) *)
Definition csv_row (duration : string) (r : final_row) : string :=
  join_comma [f_shefId r; isoformat (f_utcTime r); default "" (f_PE r);
              f_value r; duration] +:+ lf.
Definition to_csv (duration : string) (df : list final_row) : string :=
  csv_header +:+ write_all (csv_row duration <$> df).

(** ** The world a run acts on *)

Inductive event : Type :=
  | Log (msg : string)                                          (* logging.info *)
  | GetData (stationTriplets elements duration beginDate : string)  (* requests.get(data_url ...) *)
  | GetMeta (stationTriplets : string).                         (* requests.get(meta_url ...) *)

Record world := {
  files : gmap string string;   (* path to text *)
  trace : list event            (* log entries and network calls, oldest first *)
}.

(** Code that may raise and that acts on the world; an exception leaves
    the world as it was when it was raised. *)
Definition M (A : Type) : Type := world → result A * world.

#[export] Instance M_ret : MRet M := λ A a w, (Ok a, w).
#[export] Instance M_bind : MBind M := λ A B f m w,
  match m w with
  | (Ok a, w') => f a w'
  | (Err e, w') => (Err e, w')
  end.

Definition raise {A} (e : exn) : M A := λ w, (Err e, w).
Definition lift {A} (r : result A) : M A := λ w, (r, w).
Definition emit (ev : event) : M unit :=
  λ w, (Ok (), {| files := files w; trace := trace w ++ [ev] |}).
Definition logging_info (msg : string) : M unit := emit (Log msg).

(** [os.path.isfile]. *)
Definition isfile (path : string) : M bool :=
  λ w, (Ok (bool_decide (is_Some (files w !! path))), w).

(** [open(path, 'r')] followed by reading the whole text. *)
Definition read_text (path : string) : M string :=
  λ w, match files w !! path with
       | Some s => (Ok s, w)
       | None => (Err (FileNotFoundError path), w)
       end.

(** [open(path, 'w')], writes, close: the file holds exactly [text]. *)
Definition write_text (path text : string) : M unit :=
  λ w, (Ok (), {| files := <[path := text]> (files w); trace := trace w |}).

(** [open(path, 'a')], writes, close: [text] after what the file held. *)
Definition append_text (path text : string) : M unit :=
  λ w, (Ok (), {| files := <[path := default "" (files w !! path) +:+ text]> (files w);
                  trace := trace w |}).

(** [os.remove]. *)
Definition os_remove (path : string) : M unit :=
  λ w, match files w !! path with
       | Some _ => (Ok (), {| files := delete path (files w); trace := trace w |})
       | None => (Err (FileNotFoundError path), w)
       end.

(** [shutil.copyfile(src, dst)] for two different paths. *)
Definition copyfile (src dst : string) : M unit :=
  text ← read_text src; write_text dst text.

(** ** The run's inputs *)

Record args := {
  locid : string;
  params : string;
  duration : string;
  back : string      (* str(back) *)
}.

Record env := {
  arg_vals : args;                    (* parse_args() *)
  out_fmt : string;                   (* global, line 40 *)
  max_call_ids : Z;                   (* global, line 42 *)
  snotel_meta_df : list station_row;  (* pd.read_csv of the reference table *)
  (** [requests.get(data_url + urlencode(...)).json()], as a function of
      the request parameters; [Err] for a failed call or a reply that is
      not a list of station objects. *)
  service_data : string → string → string → string → result (list station_json);
  (** the same for the metadata endpoint *)
  service_meta : string → result (list meta_row);
  utc_now : Z                         (* datetime.now(timezone.utc) *)
}.

(** ** get_data and get_meta (lines 116-152) *)

Definition get_data (e : env) (triplet_str : list string)
    (params_str duration back : string) : M (list gage_row) :=
  let stationTriplets := join_comma triplet_str in
  let beginDate := "-" +:+ back in
  emit (GetData stationTriplets params_str duration beginDate);;
  json_strings ← lift (service_data e stationTriplets params_str duration beginDate);
  let all_gages_li := normalize_station <$> json_strings in
  gages_df ← lift (pd_concat all_gages_li);
  (* a frame built from an empty 'data' list has no elementCode column *)
  if forallb (λ js, bool_decide (sj_data js = [])) json_strings
  then raise (KeyError "stationElement.elementCode")
  else mret (add_PE <$> gages_df).

Definition get_meta (e : env) (triplet_str : list string) : M (list meta_row) :=
  let stationTriplets := join_comma triplet_str in
  emit (GetMeta stationTriplets);;
  json_strings ← lift (service_meta e stationTriplets);
  (* selecting the three columns of a frame built from an empty list *)
  match json_strings with
  | [] => raise (KeyError "stationTriplet, dataTimeZone, shefId")
  | _ => mret json_strings
  end.

(** ** write_header (lines 182-200) *)

Definition write_header (utc_now : Z) (out_fullfn out_fmt : string)
    (header : list string) : M unit :=
  write_text out_fullfn
    (if decide (out_fmt = "shef") then shef_header utc_now
     else if decide (out_fmt = "csv")
          then join_comma header +:+ lf
          else "").

(** ** write_new_lines (lines 154-180) *)

Definition write_new_lines (last_fullfn new_fullfn out_fullfn out_fmt : string) : M unit :=
  new_text ← read_text new_fullfn;
  match start_row out_fmt with
  | None => raise (UnboundLocalError "start_row")
  | Some start_row =>
      let new_lines := drop start_row (readlines new_text) in
      last_text ← read_text last_fullfn;
      let last_lines := drop start_row (readlines last_text) in
      let diff := diff_lines new_lines last_lines in
      if decide (1 < length diff)
      then append_text out_fullfn (write_all diff)
      else
        logging_info ("no new lines of data observed, deleting " +:+ out_fullfn);;
        os_remove out_fullfn
  end.

(** ** remove_dup_lines (lines 202-218) *)

Definition remove_dup_lines (out_fullfn : string) : M unit :=
  copyfile out_fullfn (out_fullfn +:+ ".tmp");;
  write_text out_fullfn "";;
  tmp_text ← read_text (out_fullfn +:+ ".tmp");
  write_text out_fullfn (write_all (dedup_lines (readlines tmp_text)));;
  os_remove (out_fullfn +:+ ".tmp").

(** ** main (lines 220-308) *)

(** A [for] loop whose body may raise. *)
Fixpoint forM {A B} (f : A → M B) (l : list A) : M (list B) :=
  match l with
  | [] => mret []
  | x :: rest => y ← f x; ys ← forM f rest; mret (y :: ys)
  end.

(** One statement inside a [try] with a bare [except]: [None] when it
    raised; what it did to the world before raising stays done. *)
Definition try_step {A} (m : M A) : M (option A) :=
  λ w, match m w with
       | (Ok a, w') => (Ok (Some a), w')
       | (Err _, w') => (Ok None, w')
       end.

(** Lines 262-270. *)
Definition out_fn (e : env) : string :=
  out_fn_pre +:+ duration (arg_vals e) +:+ "." +:+ strftime_Ymd_HMS (utc_now e)
    +:+ "." +:+ out_fmt e.
Definition new_fn (e : env) : string :=
  new_fn_pre +:+ duration (arg_vals e) +:+ "." +:+ out_fmt e.
Definition last_fn (e : env) : string :=
  last_fn_pre +:+ duration (arg_vals e) +:+ "." +:+ out_fmt e.
Definition new_fullfn (e : env) : string := log_dir +:+ new_fn e.
Definition last_fullfn (e : env) : string := log_dir +:+ last_fn e.
Definition final_out_fullfn (e : env) : string := out_dir +:+ out_fn e.

(** Lines 228-238, the branch for [--locid all]. *)
Definition fetch_all (e : env) : M (list gage_row * list meta_row) :=
  let a := arg_vals e in
  subsets ← lift (batches (snotel_meta_df e) (max_call_ids e));
  calls ← forM (λ subset_df,
                  let triplet_str := triplet_of <$> subset_df in
                  call_data_df ← get_data e triplet_str (params a) (duration a) (back a);
                  call_meta_df ← get_meta e triplet_str;
                  mret (call_data_df, call_meta_df)) subsets;
  all_data_df ← lift (pd_concat (fst <$> calls));
  all_meta_df ← lift (pd_concat (snd <$> calls));
  mret (all_data_df, all_meta_df).

(** Lines 240-246, the branch for a single station.  The two frames are
    locals of [main]: after the [except] they are bound only as far as the
    [try] body got. *)
Definition fetch_one (e : env)
  : M (option (list gage_row) * option (list meta_row)) :=
  let a := arg_vals e in
  let row_info := filter (λ r, ShefId r = locid a) (snotel_meta_df e) in
  let triplet_str := triplet_of <$> row_info in
  all_data_df ← try_step (get_data e triplet_str (params a) (duration a) (back a));
  match all_data_df with
  | None =>
      logging_info "improper character length for LID";;
      mret (None, None)
  | Some d =>
      all_meta_df ← try_step (get_meta e triplet_str);
      match all_meta_df with
      | None =>
          logging_info "improper character length for LID";;
          mret (Some d, None)
      | Some m => mret (Some d, Some m)
      end
  end.

(** Lines 224-248. *)
Definition main_fetch (e : env)
  : M (option (list gage_row) * option (list meta_row)) :=
  logging_info "scraping started";;
  r ← (if decide (locid (arg_vals e) = "all")
       then dm ← fetch_all e; mret (Some dm.1, Some dm.2)
       else fetch_one e);
  logging_info "scraping completed";;
  mret r.

(** Lines 253-257: the join and the time normalization.  Reading a local
    that the [except] path left unbound raises. *)
Definition main_join (all_data_df : option (list gage_row))
    (all_meta_df : option (list meta_row)) : M (list final_row) :=
  match all_data_df with
  | None => raise (UnboundLocalError "all_data_df")
  | Some data =>
      match all_meta_df with
      | None => raise (UnboundLocalError "all_meta_df")
      | Some meta =>
          let combined_df := merge data meta in
          (* without a single value row the data frame has no 'date' column *)
          match data with
          | [] => raise (KeyError "date")
          | _ => lift (add_utcTime combined_df)
          end
      end
  end.

(** Lines 277-291: the new snapshot.  Every format but csv takes the
    bulletin branch; the file opened for appending is the one
    [write_header] has just created. *)
Definition main_encode (e : env) (final_df : list final_row) : M unit :=
  let dur := duration (arg_vals e) in
  if decide (out_fmt e = "csv")
  then write_text (new_fullfn e) (to_csv dur final_df)
  else
    write_header (utc_now e) (new_fullfn e) (out_fmt e) [];;
    let out_lines := out_line dur <$> final_df in
    text ← lift (join_out_lines out_lines);
    append_text (new_fullfn e) text.

(** Lines 293-308: differ, deduplicator, promotion of the new snapshot. *)
Definition main_publish (e : env) : M unit :=
  has_last ← isfile (last_fullfn e);
  (if has_last : bool
   then
     (if decide (out_fmt e = "csv")
      then write_header (utc_now e) (final_out_fullfn e) (out_fmt e) csv_headers
      else mret ());;
     (if decide (out_fmt e = "shef")
      then write_header (utc_now e) (final_out_fullfn e) (out_fmt e) []
      else mret ());;
     write_new_lines (last_fullfn e) (new_fullfn e) (final_out_fullfn e) (out_fmt e)
   else copyfile (new_fullfn e) (final_out_fullfn e));;
  has_out ← isfile (final_out_fullfn e);
  (if has_out : bool then remove_dup_lines (final_out_fullfn e) else mret ());;
  copyfile (new_fullfn e) (last_fullfn e);;
  logging_info ("nrcs scraping complete with output to: " +:+ final_out_fullfn e);;
  logging_info ("equivalent final output found in last file: " +:+ last_fullfn e).

Definition main (e : env) : M unit :=
  fetched ← main_fetch e;
  final_df ← main_join fetched.1 fetched.2;
  main_encode e final_df;;
  main_publish e.

(** ** The Deduplicator as the specification words it

    "Each line appears at most once, first occurrence kept, order
    preserved": the line at position [i] stays exactly when it does not
    occur among the [i] lines before it. *)
Definition first_occurrences (lines : list string) : list string :=
  concat (imap (λ i x, if decide (x ∈ take i lines) then [] else [x]) lines).

(** A joined row whose local time, offset and difference all fit the
    64-bit nanosecond range. *)
Definition representable (r : gage_row * meta_row) : bool :=
  int64_ok (g_date r.1)
  && int64_ok (dataTimeZone r.2 * ns_per_hour)
  && int64_ok (g_date r.1 - dataTimeZone r.2 * ns_per_hour).

(** ** Sample inputs *)

Definition sample_station : station_row :=
  {| StationId := 1107; StateCode := "WA"; ShefId := "CLJW1" |}.

Definition sample_gage (elem value : string) (date : Z) : gage_row :=
  add_PE {| g_date := date; g_value := value; g_elementCode := elem;
            g_stationTriplet := "1107:WA:SNTL"; g_PE := None |}.

Definition sample_meta : meta_row :=
  {| m_stationTriplet := "1107:WA:SNTL"; dataTimeZone := -8; shefId := "CLJW1" |}.

Definition sample_record : final_row :=
  {| f_shefId := "CLJW1"; f_utcTime := timestamp 2024 11 1 13 0 0;
     f_PE := Some "SW"; f_value := "12.3" |}.

Definition sample_values : list value_json :=
  [ {| v_date := timestamp 2024 11 1 5 0 0; v_value := "12.3" |} ].

Definition sample_reply (elem : string) (vals : list value_json) : list station_json :=
  [ {| sj_stationTriplet := "1107:WA:SNTL";
       sj_data := [ {| elementCode := elem; values := vals |} ] |} ].

(** A one-station deployment; the service answers a request that names
    no station with an empty list. *)
Definition sample_env (fmt loc elem : string) (vals : list value_json) (now : Z) : env :=
  {| arg_vals := {| locid := loc; params := elem; duration := "HOURLY"; back := "3" |};
     out_fmt := fmt;
     max_call_ids := 95;
     snotel_meta_df := [sample_station];
     service_data := λ triplets _ _ _,
       if decide (triplets = "") then Ok [] else Ok (sample_reply elem vals);
     service_meta := λ triplets,
       if decide (triplets = "") then Ok [] else Ok [sample_meta];
     utc_now := now |}.

Definition empty_world : world := {| files := ∅; trace := [] |}.

(** A bulletin snapshot with header rows [h1], [h2] and the given body. *)
Definition sample_snapshot (body : list string) : string :=
  "TTAA00 KPTR 011305" +:+ lf +:+ product_id +:+ lf +:+ write_all body.

Definition sample_hourly_env : env :=
  sample_env "shef" "all" "WTEQ" sample_values (timestamp 2024 11 1 14 5 9).

(** A world that holds a new and a last snapshot for [sample_hourly_env]. *)
Definition sample_world (new_body last_body : list string) : world :=
  {| files := <[new_fullfn sample_hourly_env := sample_snapshot new_body]>
                (<[last_fullfn sample_hourly_env := sample_snapshot last_body]> ∅);
     trace := [] |}.

(** The same run configured with another output format. *)
Definition set_out_fmt (e : env) (fmt : string) : env :=
  {| arg_vals := arg_vals e; out_fmt := fmt; max_call_ids := max_call_ids e;
     snotel_meta_df := snotel_meta_df e; service_data := service_data e;
     service_meta := service_meta e; utc_now := utc_now e |}.

Definition is_network_call (ev : event) : bool :=
  match ev with
  | Log _ => false
  | GetData _ _ _ _ | GetMeta _ => true
  end.

(** Four hourly readings and the bulletin lines they encode to. *)
Definition reading (hour : Z) (value : string) : value_json :=
  {| v_date := timestamp 2024 11 1 hour 0 0; v_value := value |}.
Definition line_1300 : string := ".AR CLJW1 20241101 Z DH1300/DUE /SWIRBZZ 12.3".
Definition line_1400 : string := ".AR CLJW1 20241101 Z DH1400/DUE /SWIRBZZ 12.4".
Definition line_1500 : string := ".AR CLJW1 20241101 Z DH1500/DUE /SWIRBZZ 12.5".
Definition line_1600 : string := ".AR CLJW1 20241101 Z DH1600/DUE /SWIRBZZ 12.6".

(** Four consecutive runs over one station; the reading of 14:00 UTC is
    in the reply of the second run, missing from the third and back in
    the fourth. *)
Definition run_env (vals : list value_json) (minute : Z) : env :=
  sample_env "shef" "all" "WTEQ" vals (timestamp 2024 11 1 17 minute 0).
Definition env_run1 : env := run_env [reading 5 "12.3"; reading 7 "12.5"] 0.
Definition env_run2 : env := run_env [reading 5 "12.3"; reading 6 "12.4"] 10.
Definition env_run3 : env := run_env [reading 5 "12.3"; reading 7 "12.5"] 20.
Definition env_run4 : env := run_env [reading 8 "12.6"; reading 6 "12.4"] 30.
Definition world_after1 : world := (main env_run1 empty_world).2.
Definition world_after2 : world := (main env_run2 world_after1).2.
Definition world_after3 : world := (main env_run3 world_after2).2.
Definition world_after4 : world := (main env_run4 world_after3).2.

(** A first run configured with a format the script does not name. *)
Definition env_xml : env :=
  sample_env "xml" "all" "WTEQ" [reading 5 "12.3"; reading 6 "12.4"]
    (timestamp 2024 11 1 17 0 0).

(** ** Well-formed line sequences

    What [readlines] returns: every line ends with its only line feed,
    except that the last one may have none (and is then not empty); no
    line holds a carriage return. *)
Fixpoint has_cr (s : string) : bool :=
  match s with
  | EmptyString => false
  | String c rest => bool_decide (c = cr) || has_cr rest
  end.

Fixpoint has_eol (s : string) : bool :=
  match s with
  | EmptyString => false
  | String c rest => bool_decide (c = newline) || bool_decide (c = cr) || has_eol rest
  end.

Definition terminated (s : string) : Prop :=
  ∃ body, s = body +:+ lf ∧ has_eol body = false.

Definition open_line (s : string) : Prop :=
  s ≠ "" ∧ has_eol s = false.

Fixpoint lines_ok (lines : list string) : Prop :=
  match lines with
  | [] => True
  | x :: rest =>
      match rest with
      | [] => terminated x ∨ open_line x
      | _ :: _ => terminated x ∧ lines_ok rest
      end
  end.

(** A published file with a repeated line. *)
Definition sample_delta_text : string :=
  "a" +:+ lf +:+ "b" +:+ lf +:+ "a" +:+ lf +:+ "b".
Definition sample_delta_world : world :=
  {| files := {["delta.shef" := sample_delta_text]}; trace := [] |}.

(** ** Vocabulary for the further properties *)

(** Code that leaves every file as it is (it may log and call the network). *)
Definition trace_only {A} (m : M A) : Prop :=
  ∀ w, files (m w).2 = files w.

(** The two requests the loop body of lines 231-234 sends for one batch. *)
Definition batch_calls (e : env) (subset_df : list station_row) : list event :=
  let a := arg_vals e in
  let stationTriplets := join_comma (triplet_of <$> subset_df) in
  [GetData stationTriplets (params a) (duration a) ("-" +:+ back a);
   GetMeta stationTriplets].

(** A deployment whose two services always give the same answers. *)
Definition outage : exn := TransportError "connection refused".
Definition env_with (loc : string) (table : list station_row)
    (data : result (list station_json)) (meta : result (list meta_row)) : env :=
  {| arg_vals := {| locid := loc; params := "WTEQ"; duration := "HOURLY"; back := "3" |};
     out_fmt := "shef";
     max_call_ids := 95;
     snotel_meta_df := table;
     service_data := λ _ _ _ _, data;
     service_meta := λ _, meta;
     utc_now := timestamp 2024 11 1 14 5 9 |}.

(** The body of the loop of lines 230-234 for one batch. *)
Definition fetch_batch (e : env) (subset_df : list station_row)
  : M (list gage_row * list meta_row) :=
  let a := arg_vals e in
  let triplet_str := triplet_of <$> subset_df in
  call_data_df ← get_data e triplet_str (params a) (duration a) (back a);
  call_meta_df ← get_meta e triplet_str;
  mret (call_data_df, call_meta_df).

(** A batch whose two requests are answered with usable replies. *)
Definition batch_answered (e : env) (subset_df : list station_row) : Prop :=
  ∀ w, ∃ frames, (fetch_batch e subset_df w).1 = Ok frames.

(** Two stations fetched one per request; the data service is down for
    the second. *)
Definition second_station : station_row :=
  {| StationId := 515; StateCode := "ID"; ShefId := "GLNI1" |}.
Definition env_second_down : env :=
  {| arg_vals := {| locid := "all"; params := "WTEQ"; duration := "HOURLY"; back := "3" |};
     out_fmt := "shef";
     max_call_ids := 1;
     snotel_meta_df := [sample_station; second_station];
     service_data := λ triplets _ _ _,
       if decide (triplets = "1107:WA:SNTL") then Ok (sample_reply "WTEQ" sample_values)
       else Err outage;
     service_meta := λ _, Ok [sample_meta];
     utc_now := timestamp 2024 11 1 14 5 9 |}.

(** The normalized record of station CLJW1 at an hour (UTC) of 2024-11-01. *)
Definition record_at (hour : Z) (value : string) : final_row :=
  {| f_shefId := "CLJW1"; f_utcTime := timestamp 2024 11 1 hour 0 0;
     f_PE := Some "SW"; f_value := value |}.

(** Two consecutive runs: readings A, B and then A, B, C, D. *)
Definition env_ab : env := run_env [reading 5 "12.3"; reading 6 "12.4"] 0.
Definition env_abcd : env :=
  run_env [reading 5 "12.3"; reading 6 "12.4"; reading 7 "12.5"; reading 8 "12.6"] 10.
Definition world_ab : world := (main env_ab empty_world).2.

(** A first run whose reply holds the same reading twice. *)
Definition env_twice : env := run_env [reading 5 "12.3"; reading 5 "12.3"] 0.

(** Three consecutive runs: the second has one new reading, as its last
    line; the third has one more after it. *)
Definition env_next1 : env := run_env [reading 5 "12.3"; reading 7 "12.5"] 10.
Definition env_next2 : env :=
  run_env [reading 5 "12.3"; reading 7 "12.5"; reading 8 "12.6"] 20.
Definition world_next1 : world := (main env_next1 world_ab).2.
Definition world_next2 : world := (main env_next2 world_next1).2.

(** The lines a, b, a, c, b in a file whose lines all end with a line
    feed. *)
Definition sample_terminated_text : string :=
  "a" +:+ lf +:+ "b" +:+ lf +:+ "a" +:+ lf +:+ "c" +:+ lf +:+ "b" +:+ lf.
Definition sample_terminated_world : world :=
  {| files := {["delta.csv" := sample_terminated_text]}; trace := [] |}.

(** The lines a, b, a, c, b in a file whose last line has no line feed. *)
Definition sample_repeat_world : world :=
  {| files := {["delta.shef" := "a" +:+ lf +:+ "b" +:+ lf +:+ "a" +:+ lf
                                  +:+ "c" +:+ lf +:+ "b"]};
     trace := [] |}.

(** A published file with a carriage return as a line end. *)
Definition sample_cr_world : world :=
  {| files := {["delta.shef" := "x" +:+ String cr "y" +:+ lf +:+ "x" +:+ lf]};
     trace := [] |}.

(** A line of the encoder starts with a dot. *)
Definition dotted (s : string) : Prop := ∃ rest, s = String "." rest.

(** * Properties *)

(** ** StationBatcher *)

Section batching.
Context {A : Type}.
Implicit Types (df : list A) (L k : nat).

Lemma concat_chunks df L k :
  concat ((λ i : nat, take L (drop (i * L) df)) <$> seq 0 k) = take (k * L) df.
Proof.
  induction k as [|k IH]; [done|].
  rewrite seq_S, fmap_app, concat_app, IH. simpl.
  rewrite app_nil_r, take_take_drop. f_equal. lia.
Qed.

Lemma slice_chunk df (limit : Z) k :
  (0 < limit)%Z →
  slice df (0 + Z.of_nat k * limit) (0 + Z.of_nat k * limit + limit)
  = take (Z.to_nat limit) (drop (k * Z.to_nat limit) df).
Proof.
  intros Hpos. unfold slice.
  replace (Z.to_nat (0 + Z.of_nat k * limit)) with (k * Z.to_nat limit) by nia.
  f_equal. nia.
Qed.

Lemma batches_positive df (limit : Z) :
  (0 < limit)%Z →
  batches df limit
  = Ok ((λ i : nat, take (Z.to_nat limit) (drop (i * Z.to_nat limit) df))
          <$> seq 0 (Z.to_nat ((Z.of_nat (length df) - 0 + limit - 1) / limit))).
Proof.
  intros Hpos. unfold batches, py_range.
  destruct (decide (limit = 0)%Z) as [->|_]; [lia|].
  destruct (decide (0 < limit)%Z); [|lia].
  f_equal. rewrite <- list_fmap_compose.
  apply list_fmap_ext. intros _ k _. simpl. by apply slice_chunk.
Qed.

(** C3. For a positive limit [batches] returns groups of at most
    [limit] stations each, whose concatenation in order is the input
    list; the empty list gives no group at all. *)
Theorem batches_partition df (limit : Z) :
  (0 < limit)%Z →
  ∃ groups,
    batches df limit = Ok groups
    ∧ concat groups = df
    ∧ Forall (λ g, (Z.of_nat (length g) ≤ limit)%Z) groups
    ∧ (df = [] → groups = []).
Proof.
  intros Hpos. eexists. split; [by apply batches_positive|].
  set (L := Z.to_nat limit). set (n := Z.of_nat (length df)).
  assert (HL : 0 < L) by (unfold L; lia).
  split; [|split].
  - rewrite concat_chunks. apply take_ge.
    assert (n ≤ (n - 0 + limit - 1) / limit * limit)%Z.
    { assert (H := Z.div_mod (n - 0 + limit - 1) limit ltac:(lia)).
      assert (H' := Z.mod_pos_bound (n - 0 + limit - 1) limit Hpos). nia. }
    assert (0 ≤ (n - 0 + limit - 1) / limit)%Z
      by (apply Z.div_pos; unfold n; lia).
    unfold n, L in *. nia.
  - apply Forall_fmap, Forall_forall. intros k _. simpl.
    rewrite length_take. unfold L. lia.
  - intros ->. simpl. unfold n. simpl.
    rewrite Z.div_small by lia. done.
Qed.
End batching.

Lemma batches_partition_witness :
  ∃ groups,
    batches ["a"; "b"; "c"; "d"; "e"] 2 = Ok groups
    ∧ concat groups = ["a"; "b"; "c"; "d"; "e"]
    ∧ Forall (λ g, (Z.of_nat (length g) ≤ 2)%Z) groups
    ∧ (["a"; "b"; "c"; "d"; "e"] = [] → groups = []).
Proof. apply (batches_partition ["a"; "b"; "c"; "d"; "e"] 2). lia. Defined.

(** ** SnapshotDiffer: the kept lines *)

Lemma diff_lines_filter (new_lines last_lines : list string) :
  diff_lines new_lines last_lines = filter (λ x, x ∉ last_lines) new_lines.
Proof.
  unfold diff_lines. apply list_filter_iff. intros x.
  by rewrite elem_of_list_to_set.
Qed.

Lemma elem_of_diff_lines (new_lines last_lines : list string) x :
  x ∈ diff_lines new_lines last_lines ↔ x ∈ new_lines ∧ x ∉ last_lines.
Proof. rewrite diff_lines_filter, list_elem_of_filter. tauto. Qed.

Lemma start_row_cases out_fmt n :
  start_row out_fmt = Some n →
  (out_fmt = "csv" ∧ n = 1) ∨ (out_fmt = "shef" ∧ n = 2).
Proof.
  unfold start_row. intros H.
  destruct (decide (out_fmt = "csv")); [left; split; congruence|].
  destruct (decide (out_fmt = "shef")); [right; split; congruence|].
  discriminate.
Qed.

(** The last line of a bulletin snapshot has no line feed ([join] puts
    them between the lines only), so once a line follows it in the next
    snapshot its text has changed and the differ keeps it again. *)
Lemma last_line_kept_again :
  diff_lines
    (drop 2 (readlines (sample_snapshot [line_1300 +:+ lf; line_1400 +:+ lf; line_1500])))
    (drop 2 (readlines (sample_snapshot [line_1300 +:+ lf; line_1400])))
  = [line_1400 +:+ lf; line_1500].
Proof. by vm_compute. Qed.

(** ** Reading back what was written *)

Lemma append_cons c s t : String c s +:+ t = String c (s +:+ t).
Proof. reflexivity. Qed.

Lemma split_lines_cons_lf rest :
  split_lines (String newline rest) = lf :: split_lines rest.
Proof. reflexivity. Qed.

Lemma split_lines_cons_other c rest :
  c ≠ newline →
  split_lines (String c rest)
  = match split_lines rest with
    | [] => [String c EmptyString]
    | l :: ls => String c l :: ls
    end.
Proof. intros Hc. cbn [split_lines]. by rewrite decide_False. Qed.

Lemma has_cr_cons c s :
  has_cr (String c s) = false ↔ c ≠ cr ∧ has_cr s = false.
Proof.
  cbn [has_cr]. rewrite orb_false_iff, bool_decide_eq_false. tauto.
Qed.

Lemma has_eol_cons c s :
  has_eol (String c s) = false ↔ c ≠ newline ∧ c ≠ cr ∧ has_eol s = false.
Proof.
  cbn [has_eol]. rewrite !orb_false_iff, !bool_decide_eq_false. tauto.
Qed.

Lemma has_eol_has_cr s : has_eol s = false → has_cr s = false.
Proof.
  induction s as [|c s IH]; [done|].
  rewrite has_eol_cons, has_cr_cons. tauto.
Qed.

Lemma terminated_cons c s :
  c ≠ newline → c ≠ cr → terminated s → terminated (String c s).
Proof.
  intros Hc Hc' (body & -> & Hbody). exists (String c body).
  split; [reflexivity|]. by apply has_eol_cons.
Qed.

Lemma open_line_cons c s :
  c ≠ newline → c ≠ cr → has_eol s = false → open_line (String c s).
Proof. intros Hc Hc' Hs. split; [done|]. by apply has_eol_cons. Qed.

Lemma terminated_lf : terminated lf.
Proof. by exists "". Qed.

Lemma lines_ok_tail x rest : lines_ok (x :: rest) → lines_ok rest.
Proof. destruct rest as [|y rest]; [done|]. by intros [_ ?]. Qed.

Lemma lines_ok_cons x rest : terminated x → lines_ok rest → lines_ok (x :: rest).
Proof. intros Hx Hrest. destruct rest as [|y rest]; [by left|done]. Qed.

(** *** The translation of line ends *)

Lemma universal_newlines_cons_other c rest :
  c ≠ cr → universal_newlines (String c rest) = String c (universal_newlines rest).
Proof. intros Hc. cbn [universal_newlines]. by rewrite decide_False. Qed.

Lemma universal_newlines_crlf rest :
  universal_newlines (String cr (String newline rest))
  = String newline (universal_newlines rest).
Proof. reflexivity. Qed.

Lemma universal_newlines_cr c rest :
  c ≠ newline →
  universal_newlines (String cr (String c rest))
  = String newline (universal_newlines (String c rest)).
Proof.
  intros Hc. cbn [universal_newlines].
  rewrite (decide_True (P := cr = cr)) by done. by rewrite decide_False.
Qed.

Lemma universal_newlines_no_cr s : has_cr s = false → universal_newlines s = s.
Proof.
  induction s as [|c s IH]; [done|]. intros [Hc Hs]%has_cr_cons.
  rewrite universal_newlines_cons_other by done. by rewrite IH.
Qed.

Lemma universal_newlines_app a b :
  has_cr a = false → universal_newlines (a +:+ b) = a +:+ universal_newlines b.
Proof.
  induction a as [|c a IH]; [done|]. intros [Hc Ha]%has_cr_cons.
  rewrite !append_cons, universal_newlines_cons_other by done. by rewrite IH.
Qed.

Lemma has_cr_universal_newlines_cons s :
  has_cr (universal_newlines s) = false
  ∧ ∀ c, has_cr (universal_newlines (String c s)) = false.
Proof.
  induction s as [|c' s [IH1 IH2]].
  - split; [done|]. intros c. cbn [universal_newlines].
    destruct (decide (c = cr)); [done|]. by apply has_cr_cons.
  - split; [apply IH2|]. intros c.
    destruct (decide (c = cr)) as [->|Hc].
    + destruct (decide (c' = newline)) as [->|Hc'].
      * rewrite universal_newlines_crlf. by apply has_cr_cons.
      * rewrite universal_newlines_cr by done. by apply has_cr_cons.
    + rewrite universal_newlines_cons_other by done. by apply has_cr_cons.
Qed.

Lemma has_cr_universal_newlines s : has_cr (universal_newlines s) = false.
Proof. apply has_cr_universal_newlines_cons. Qed.

(** *** Lines of a text *)

Lemma split_lines_ok (s : string) : has_cr s = false → lines_ok (split_lines s).
Proof.
  induction s as [|c rest IH]; [done|]. intros [Hcr Hrest]%has_cr_cons.
  specialize (IH Hrest).
  destruct (decide (c = newline)) as [->|Hc].
  - rewrite split_lines_cons_lf. apply lines_ok_cons; [apply terminated_lf|done].
  - rewrite split_lines_cons_other by done.
    destruct (split_lines rest) as [|l [|l' ls]].
    + right. by apply open_line_cons.
    + destruct IH as [Hl|[_ Hl]].
      * left. by apply terminated_cons.
      * right. by apply open_line_cons.
    + destruct IH as [Hl Hls]. split; [by apply terminated_cons|done].
Qed.

Lemma readlines_ok (s : string) : lines_ok (readlines s).
Proof. apply split_lines_ok, has_cr_universal_newlines. Qed.

Lemma readlines_no_cr s : has_cr s = false → readlines s = split_lines s.
Proof. intros Hs. unfold readlines. by rewrite universal_newlines_no_cr. Qed.

Lemma split_lines_terminated body rest :
  has_eol body = false →
  split_lines ((body +:+ lf) +:+ rest) = (body +:+ lf) :: split_lines rest.
Proof.
  induction body as [|c body IH]; intros Hbody; [done|].
  apply has_eol_cons in Hbody as (Hc & _ & Hbody).
  rewrite !append_cons, split_lines_cons_other by done.
  by rewrite IH.
Qed.

Lemma has_cr_app (a b : string) : has_cr (a +:+ b) = has_cr a || has_cr b.
Proof.
  induction a as [|c a IH]; [done|].
  rewrite append_cons. cbn [has_cr]. by rewrite IH, orb_assoc.
Qed.

Lemma readlines_terminated body rest :
  has_eol body = false →
  readlines ((body +:+ lf) +:+ rest) = (body +:+ lf) :: readlines rest.
Proof.
  intros Hbody. unfold readlines.
  rewrite universal_newlines_app
    by (rewrite has_cr_app, (has_eol_has_cr body Hbody); reflexivity).
  by apply split_lines_terminated.
Qed.

Lemma readlines_open s : open_line s → readlines s = [s].
Proof.
  intros [Hne Hs]. rewrite readlines_no_cr by by apply has_eol_has_cr.
  induction s as [|c rest IH]; [done|].
  apply has_eol_cons in Hs as (Hc & _ & Hrest).
  rewrite split_lines_cons_other by done.
  destruct rest as [|c' rest']; [done|].
  by rewrite IH.
Qed.

Lemma append_empty_r (s : string) : s +:+ "" = s.
Proof.
  induction s as [|c s IH]; [done|]. rewrite append_cons. by rewrite IH.
Qed.

Lemma readlines_write_all (lines : list string) :
  lines_ok lines → readlines (write_all lines) = lines.
Proof.
  induction lines as [|x rest IH]; [done|]. intros Hok.
  destruct rest as [|y rest].
  - unfold write_all. simpl. rewrite append_empty_r.
    destruct Hok as [(body & -> & Hbody)|Hopen].
    + rewrite <- (append_empty_r (body +:+ lf)) at 1.
      by rewrite readlines_terminated.
    + by apply readlines_open.
  - destruct Hok as [(body & -> & Hbody) Hrest].
    change (write_all ((body +:+ lf) :: y :: rest))
      with ((body +:+ lf) +:+ write_all (y :: rest)).
    rewrite readlines_terminated by done. by rewrite IH.
Qed.

Lemma lines_ok_sublist (l1 l2 : list string) :
  l1 `sublist_of` l2 → lines_ok l2 → lines_ok l1.
Proof.
  induction 1 as [|x l1 l2 Hsub IH|x l1 l2 Hsub IH]; intros Hok.
  - done.
  - destruct l2 as [|y l2].
    + apply sublist_nil_r in Hsub as ->. done.
    + destruct Hok as [Hx Hrest]. apply lines_ok_cons; [done|by apply IH].
  - apply IH. by eapply lines_ok_tail.
Qed.

(** ** Deduplicator *)

Lemma dedup_loop_elem_of lines_seen lines x :
  x ∈ dedup_loop lines_seen lines ↔ x ∈ lines ∧ x ∉ lines_seen.
Proof.
  revert lines_seen. induction lines as [|line rest IH]; intros lines_seen; simpl.
  - set_solver.
  - destruct (decide (line ∉ lines_seen)) as [Hnew|Hold].
    + rewrite elem_of_cons, IH, elem_of_cons, not_elem_of_union, not_elem_of_singleton.
      destruct (decide (x = line)) as [->|Hne]; tauto.
    + rewrite IH, elem_of_cons. apply dec_stable in Hold.
      destruct (decide (x = line)) as [->|Hne]; tauto.
Qed.

Lemma dedup_loop_NoDup lines_seen lines : NoDup (dedup_loop lines_seen lines).
Proof.
  revert lines_seen. induction lines as [|line rest IH]; intros lines_seen; simpl.
  - constructor.
  - destruct (decide (line ∉ lines_seen)); [|apply IH].
    apply NoDup_cons. split; [|apply IH].
    rewrite dedup_loop_elem_of, not_elem_of_union, not_elem_of_singleton. tauto.
Qed.

Lemma dedup_loop_sublist lines_seen lines :
  dedup_loop lines_seen lines `sublist_of` lines.
Proof.
  revert lines_seen. induction lines as [|line rest IH]; intros lines_seen; simpl.
  - done.
  - destruct (decide (line ∉ lines_seen)).
    + apply sublist_skip, IH.
    + apply sublist_cons, IH.
Qed.

(** The loop invariant: [lines_seen] holds the lines read so far. *)
Lemma dedup_loop_first_occurrences lines_seen (before lines : list string) :
  (∀ x, x ∈ lines_seen ↔ x ∈ before) →
  dedup_loop lines_seen lines
  = concat (imap (λ i x, if decide (x ∈ before ++ take i lines) then [] else [x]) lines).
Proof.
  revert lines_seen before.
  induction lines as [|line rest IH]; intros lines_seen before Hseen; [done|].
  simpl. rewrite app_nil_r.
  assert (Hnext : ∀ x, x ∈ ({[line]} ∪ lines_seen : gset string) ↔ x ∈ before ++ [line]).
  { intros x. rewrite elem_of_union, elem_of_singleton, elem_of_app, list_elem_of_singleton, Hseen. tauto. }
  assert (Hext : ∀ seen', (∀ x, x ∈ seen' ↔ x ∈ before ++ [line]) ∨ line ∈ before ∧ (∀ x, x ∈ seen' ↔ x ∈ before) →
            dedup_loop seen' rest
            = concat (imap ((λ i x, if decide (x ∈ before ++ take i (line :: rest)) then [] else [x]) ∘ S) rest)).
  { intros seen' Hs.
    rewrite (IH seen' (before ++ [line])).
    - f_equal. apply imap_ext. intros i x _. simpl.
      by rewrite <- app_assoc.
    - destruct Hs as [Hs|[Hin Hs]]; [done|].
      intros x. rewrite Hs, elem_of_app, list_elem_of_singleton.
      split; [tauto|]. intros [?| ->]; done. }
  destruct (decide (line ∉ lines_seen)) as [Hnew|Hold].
  - rewrite decide_False by (by rewrite <- Hseen).
    simpl. f_equal. apply Hext. by left.
  - apply dec_stable in Hold.
    rewrite decide_True by (by rewrite <- Hseen).
    simpl. apply Hext. right. split; [by apply Hseen | done].
Qed.

(** ** TimeNormalizer *)

Lemma toUtc_Ok date tz u :
  toUtc date tz = Ok u → u = (date - tz * ns_per_hour)%Z.
Proof.
  unfold toUtc, to_datetime, to_timedelta_h, sub_timedelta.
  destruct (int64_ok date); [|discriminate].
  destruct (int64_ok (tz * ns_per_hour)); [|discriminate].
  destruct (int64_ok (date - tz * ns_per_hour)); [|discriminate].
  congruence.
Qed.

Lemma toUtc_representable r :
  representable r = true →
  toUtc (g_date r.1) (dataTimeZone r.2)
  = Ok (g_date r.1 - dataTimeZone r.2 * ns_per_hour)%Z.
Proof.
  unfold representable. rewrite !andb_true_iff. intros [[Hd Htz] Hu].
  unfold toUtc, to_datetime, to_timedelta_h, sub_timedelta.
  by rewrite Hd, Htz, Hu.
Qed.

Lemma mapR_Ok {A B} (f : A → result B) (g : A → B) (l : list A) :
  Forall (λ x, f x = Ok (g x)) l → mapR f l = Ok (g <$> l).
Proof.
  induction 1 as [|x l Hx _ IH]; [done|].
  simpl. by rewrite Hx, IH.
Qed.

Lemma add_utcTime_representable combined :
  Forall (λ r, representable r = true) combined →
  add_utcTime combined
  = Ok ((λ r, {| f_shefId := shefId r.2;
                 f_utcTime := g_date r.1 - dataTimeZone r.2 * ns_per_hour;
                 f_PE := g_PE r.1; f_value := g_value r.1 |}) <$> combined).
Proof.
  intros Hall. unfold add_utcTime.
  rewrite (mapR_Ok _ (λ r, g_date r.1)); last first.
  { eapply Forall_impl; [exact Hall|]. intros r. unfold representable, to_datetime.
    rewrite !andb_true_iff. by intros [[-> _] _]. }
  rewrite (mapR_Ok _ (λ r, (dataTimeZone r.2 * ns_per_hour)%Z)); last first.
  { eapply Forall_impl; [exact Hall|]. intros r. unfold representable, to_timedelta_h.
    rewrite !andb_true_iff. by intros [[_ ->] _]. }
  apply mapR_Ok. eapply Forall_impl; [exact Hall|].
  intros r Hr. by rewrite toUtc_representable.
Qed.

(** C5. The UTC time is the local time minus the offset hours: whatever
    [toUtc] returns is [date - offset] and adding the offset back gives
    the local time again; and for joined rows that fit the timestamp
    range the normalization of line 255 returns, row by row, exactly that
    difference. *)
Theorem utcTime_is_local_minus_offset :
  (∀ date tz u, toUtc date tz = Ok u →
     u = (date - tz * ns_per_hour)%Z ∧ (u + tz * ns_per_hour)%Z = date)
  ∧ (∀ combined, Forall (λ r, representable r = true) combined →
       ∃ final_df,
         add_utcTime combined = Ok final_df
         ∧ Forall2 (λ r f,
                      f_utcTime f = (g_date r.1 - dataTimeZone r.2 * ns_per_hour)%Z
                      ∧ (f_utcTime f + dataTimeZone r.2 * ns_per_hour)%Z = g_date r.1)
                   combined final_df).
Proof.
  split.
  - intros date tz u Hu. apply toUtc_Ok in Hu. lia.
  - intros combined Hall. eexists. split; [by apply add_utcTime_representable|].
    apply Forall2_fmap_r, Forall_Forall2_diag, Forall_forall.
    intros r _. simpl. lia.
Qed.

Lemma utcTime_is_local_minus_offset_witness :
  toUtc (timestamp 2024 11 1 5 0 0) (-8) = Ok (timestamp 2024 11 1 13 0 0)
  ∧ (timestamp 2024 11 1 13 0 0 + -8 * ns_per_hour)%Z = timestamp 2024 11 1 5 0 0
  ∧ ∃ final_df,
      add_utcTime [(sample_gage "WTEQ" "12.3" (timestamp 2024 11 1 5 0 0), sample_meta)]
      = Ok final_df
      ∧ f_utcTime <$> final_df = [timestamp 2024 11 1 13 0 0].
Proof.
  destruct utcTime_is_local_minus_offset as [Hcell Hcol].
  split; [reflexivity|].
  split; [apply (Hcell (timestamp 2024 11 1 5 0 0) (-8)%Z _ eq_refl)|].
  destruct (Hcol [(sample_gage "WTEQ" "12.3" (timestamp 2024 11 1 5 0 0), sample_meta)])
    as (final_df & Hrun & Hrows).
  { repeat constructor. }
  exists final_df. split; [exact Hrun|].
  inversion Hrows as [|r f l l' [Hf _] Htail]; subst.
  inversion Htail; subst. simpl. by rewrite Hf.
Defined.

(** ** MessageEncoder: the bulletin line *)

Lemma append_assoc (a b c : string) : (a +:+ b) +:+ c = a +:+ b +:+ c.
Proof.
  induction a as [|ch a IH]; [reflexivity|].
  change (String ch ((a +:+ b) +:+ c) = String ch (a +:+ b +:+ c)).
  by rewrite IH.
Qed.

Lemma out_line_Some (dur : string) (r : final_row) (pe : string) :
  f_PE r = Some pe →
  out_line dur r
  = Some (".AR " +:+ f_shefId r +:+ " " +:+ strftime_Ymd (f_utcTime r)
            +:+ " Z DH" +:+ strftime_HM (f_utcTime r) +:+ "/DUE /" +:+ pe
            +:+ (if decide (dur = "HOURLY") then "I" else "D") +:+ "RB"
            +:+ "ZZ " +:+ f_value r).
Proof.
  intros Hpe. unfold out_line, shef_dur, type_source. rewrite Hpe. cbn [str_add].
  by rewrite !append_assoc.
Qed.

(** C4. A record whose physical-element code is set is encoded as
    [.AR <shefId> <YYYYMMDD> Z DH<HHMM>/DUE /<PE><dur>RBZZ <value>], with
    [dur] = I for HOURLY and D otherwise; CLJW1 at 2024-11-01 13:00 UTC
    with SW, HOURLY and 12.3 gives the line of the specification, also as
    the third line of the new snapshot a whole run writes. *)
Theorem out_line_format (dur : string) (r : final_row) (pe : string) :
  f_PE r = Some pe →
  out_line dur r
  = Some (".AR " +:+ f_shefId r +:+ " " +:+ strftime_Ymd (f_utcTime r)
            +:+ " Z DH" +:+ strftime_HM (f_utcTime r) +:+ "/DUE /" +:+ pe
            +:+ (if decide (dur = "HOURLY") then "I" else "D") +:+ "RB"
            +:+ "ZZ " +:+ f_value r)
  ∧ calendar_of (f_utcTime sample_record)
    = {| cal_year := 2024; cal_month := 11; cal_day := 1;
         cal_hour := 13; cal_minute := 0; cal_second := 0 |}
  ∧ out_line "HOURLY" sample_record
    = Some ".AR CLJW1 20241101 Z DH1300/DUE /SWIRBZZ 12.3"
  ∧ code_dict !! "WTEQ" = Some "SW"
  ∧ (let e := sample_env "shef" "CLJW1" "WTEQ" sample_values (timestamp 2024 11 1 14 5 9) in
     (λ text, readlines text !! 2) <$> files (main e empty_world).2 !! new_fullfn e
     = Some (Some ".AR CLJW1 20241101 Z DH1300/DUE /SWIRBZZ 12.3")).
Proof.
  intros Hpe. split; [by apply out_line_Some | by vm_compute].
Qed.

Lemma out_line_format_witness :
  out_line "DAILY" sample_record
  = Some ".AR CLJW1 20241101 Z DH1300/DUE /SWDRBZZ 12.3".
Proof.
  destruct (out_line_format "DAILY" sample_record "SW" eq_refl) as [Hline _].
  rewrite Hline. reflexivity.
Defined.

(** ** Running monadic code *)

Lemma bind_Ok {A B} (m : M A) (f : A → M B) w a w' :
  m w = (Ok a, w') → (m ≫= f) w = f a w'.
Proof. intros H. unfold mbind, M_bind. by rewrite H. Qed.

Lemma bind_Err {A B} (m : M A) (f : A → M B) w e w' :
  m w = (Err e, w') → (m ≫= f) w = (Err e, w').
Proof. intros H. unfold mbind, M_bind. by rewrite H. Qed.

Lemma bind_unfold {A B} (m : M A) (f : A → M B) w :
  (m ≫= f) w
  = match m w with
    | (Ok a, w') => f a w'
    | (Err e, w') => (Err e, w')
    end.
Proof. reflexivity. Qed.

Lemma isfile_Some path w text :
  files w !! path = Some text → isfile path w = (Ok true, w).
Proof. intros H. unfold isfile. by rewrite bool_decide_eq_true_2. Qed.

Lemma isfile_None path w :
  files w !! path = None → isfile path w = (Ok false, w).
Proof.
  intros H. unfold isfile. rewrite bool_decide_eq_false_2; [done|].
  rewrite H. by intros [? ?].
Qed.

Lemma read_text_Some path w text :
  files w !! path = Some text → read_text path w = (Ok text, w).
Proof. intros H. unfold read_text. by rewrite H. Qed.

Lemma copyfile_Some src dst w text :
  files w !! src = Some text →
  copyfile src dst w
  = (Ok (), {| files := <[dst := text]> (files w); trace := trace w |}).
Proof. intros H. unfold copyfile. by erewrite bind_Ok by by apply read_text_Some. Qed.

(** ** Paths of the three snapshot roles are pairwise different *)

Lemma string_length_app (a b : string) :
  String.length (a +:+ b) = String.length a + String.length b.
Proof.
  induction a as [|c a IH]; [done|].
  rewrite append_cons. simpl. by rewrite IH.
Qed.

Lemma tmp_ne path : path +:+ ".tmp" ≠ path.
Proof.
  intros H. apply (f_equal String.length) in H.
  rewrite string_length_app in H. simpl in H. lia.
Qed.

Lemma final_ne_new e : final_out_fullfn e ≠ new_fullfn e.
Proof.
  unfold final_out_fullfn, new_fullfn, out_dir, log_dir.
  rewrite !append_cons. by intros [=].
Qed.

Lemma final_ne_last e : final_out_fullfn e ≠ last_fullfn e.
Proof.
  unfold final_out_fullfn, last_fullfn, out_dir, log_dir.
  rewrite !append_cons. by intros [=].
Qed.

Lemma new_ne_last e : new_fullfn e ≠ last_fullfn e.
Proof.
  unfold last_fullfn, new_fullfn, new_fn, last_fn, new_fn_pre, last_fn_pre, log_dir.
  rewrite !append_cons. by intros [=].
Qed.

Lemma tmp_ne_new e : final_out_fullfn e +:+ ".tmp" ≠ new_fullfn e.
Proof.
  unfold final_out_fullfn, new_fullfn, out_dir, log_dir.
  rewrite !append_cons. by intros [=].
Qed.

Lemma tmp_ne_last e : final_out_fullfn e +:+ ".tmp" ≠ last_fullfn e.
Proof.
  unfold final_out_fullfn, last_fullfn, out_dir, log_dir.
  rewrite !append_cons. by intros [=].
Qed.

(** ** What [write_new_lines] and [remove_dup_lines] do to the world *)

Lemma write_new_lines_run last new out fmt n w new_text last_text :
  start_row fmt = Some n →
  files w !! new = Some new_text →
  files w !! last = Some last_text →
  let diff := diff_lines (drop n (readlines new_text)) (drop n (readlines last_text)) in
  write_new_lines last new out fmt w
  = if decide (1 < length diff)
    then (Ok (), {| files := <[out := default "" (files w !! out) +:+ write_all diff]> (files w);
                    trace := trace w |})
    else os_remove out
           {| files := files w;
              trace := trace w ++ [Log ("no new lines of data observed, deleting " +:+ out)] |}.
Proof.
  intros Hfmt Hnew Hlast diff. unfold write_new_lines.
  erewrite bind_Ok by by apply read_text_Some.
  rewrite Hfmt.
  erewrite bind_Ok by by apply read_text_Some.
  fold diff. by destruct (decide (1 < length diff)).
Qed.

Lemma remove_dup_lines_run out w text :
  files w !! out = Some text →
  remove_dup_lines out w
  = (Ok (), {| files := delete (out +:+ ".tmp")
                          (<[out := write_all (dedup_lines (readlines text))]>
                             (<[out := ""]> (<[out +:+ ".tmp" := text]> (files w))));
               trace := trace w |}).
Proof.
  intros Hout. unfold remove_dup_lines.
  erewrite bind_Ok by by apply copyfile_Some.
  erewrite bind_Ok by reflexivity.
  erewrite bind_Ok; last first.
  { apply read_text_Some. simpl.
    rewrite lookup_insert_ne by (symmetry; apply tmp_ne). apply lookup_insert_eq. }
  erewrite bind_Ok by reflexivity.
  unfold os_remove. simpl.
  rewrite lookup_insert_ne by (symmetry; apply tmp_ne).
  rewrite lookup_insert_ne by (symmetry; apply tmp_ne).
  by rewrite lookup_insert_eq.
Qed.

(** The header [main] writes to the published file before the differ
    runs, for the two formats [write_new_lines] knows. *)
Lemma publish_header_run {A} e w n (rest : M A) :
  start_row (out_fmt e) = Some n →
  ((if decide (out_fmt e = "csv")
    then write_header (utc_now e) (final_out_fullfn e) (out_fmt e) csv_headers
    else mret ());;
   (if decide (out_fmt e = "shef")
    then write_header (utc_now e) (final_out_fullfn e) (out_fmt e) []
    else mret ());;
   rest) w
  = rest {| files := <[final_out_fullfn e :=
                         if decide (out_fmt e = "shef") then shef_header (utc_now e)
                         else csv_header]> (files w);
            trace := trace w |}.
Proof.
  intros Hfmt. apply start_row_cases in Hfmt as [[Hcsv _]|[Hshef _]].
  - rewrite Hcsv. reflexivity.
  - rewrite Hshef. reflexivity.
Qed.

Lemma main_publish_baseline e w n new_text last_text :
  start_row (out_fmt e) = Some n →
  files w !! new_fullfn e = Some new_text →
  files w !! last_fullfn e = Some last_text →
  let diff := diff_lines (drop n (readlines new_text)) (drop n (readlines last_text)) in
  let header := if decide (out_fmt e = "shef") then shef_header (utc_now e)
                else csv_header in
  let final := final_out_fullfn e in
  let done_logs :=
    [Log ("nrcs scraping complete with output to: " +:+ final);
     Log ("equivalent final output found in last file: " +:+ last_fullfn e)] in
  main_publish e w
  = if decide (1 < length diff)
    then (Ok (),
          {| files :=
               <[last_fullfn e := new_text]>
                 (delete (final +:+ ".tmp")
                    (<[final := write_all (dedup_lines (readlines (header +:+ write_all diff)))]>
                       (<[final := ""]>
                          (<[final +:+ ".tmp" := header +:+ write_all diff]>
                             (<[final := header +:+ write_all diff]>
                                (<[final := header]> (files w)))))));
             trace := trace w ++ done_logs |})
    else (Ok (),
          {| files := <[last_fullfn e := new_text]>
                        (delete final (<[final := header]> (files w)));
             trace := (trace w ++ [Log ("no new lines of data observed, deleting " +:+ final)])
                        ++ done_logs |}).
Proof.
  intros Hfmt Hnew Hlast diff header final done_logs.
  unfold main_publish.
  erewrite bind_Ok by by eapply isfile_Some.
  rewrite bind_unfold.
  erewrite publish_header_run by exact Hfmt.
  erewrite write_new_lines_run; [|exact Hfmt|..]; simpl; first last.
  { rewrite lookup_insert_ne by apply final_ne_last. exact Hlast. }
  { rewrite lookup_insert_ne by apply final_ne_new. exact Hnew. }
  fold diff header final. rewrite lookup_insert_eq. simpl.
  destruct (decide (1 < length diff)) as [Hmany|Hfew].
  - erewrite bind_Ok by (eapply isfile_Some; simpl; apply lookup_insert_eq).
    erewrite bind_Ok by (eapply remove_dup_lines_run; simpl; apply lookup_insert_eq).
    erewrite bind_Ok; last first.
    { eapply copyfile_Some. simpl.
      rewrite lookup_delete_ne by apply tmp_ne_new.
      rewrite !lookup_insert_ne by (apply final_ne_new || apply tmp_ne_new).
      exact Hnew. }
    simpl. unfold logging_info, emit, mbind, M_bind. simpl.
    by rewrite <- !app_assoc.
  - unfold os_remove. simpl. rewrite lookup_insert_eq.
    erewrite bind_Ok by (eapply isfile_None; simpl; apply lookup_delete_eq).
    erewrite bind_Ok by reflexivity.
    erewrite bind_Ok; last first.
    { eapply copyfile_Some. simpl.
      rewrite lookup_delete_ne by apply final_ne_new.
      rewrite lookup_insert_ne by apply final_ne_new. exact Hnew. }
    simpl. unfold logging_info, emit, mbind, M_bind. simpl.
    by rewrite <- !app_assoc.
Qed.

Lemma main_publish_no_baseline e w new_text :
  files w !! new_fullfn e = Some new_text →
  files w !! last_fullfn e = None →
  let final := final_out_fullfn e in
  main_publish e w
  = (Ok (),
     {| files :=
          <[last_fullfn e := new_text]>
            (delete (final +:+ ".tmp")
               (<[final := write_all (dedup_lines (readlines new_text))]>
                  (<[final := ""]>
                     (<[final +:+ ".tmp" := new_text]>
                        (<[final := new_text]> (files w))))));
        trace := trace w
                   ++ [Log ("nrcs scraping complete with output to: " +:+ final);
                       Log ("equivalent final output found in last file: " +:+ last_fullfn e)] |}).
Proof.
  intros Hnew Hlast final. unfold main_publish.
  erewrite bind_Ok by by eapply isfile_None.
  erewrite bind_Ok by by eapply copyfile_Some.
  erewrite bind_Ok by (eapply isfile_Some; simpl; apply lookup_insert_eq).
  erewrite bind_Ok by (eapply remove_dup_lines_run; simpl; apply lookup_insert_eq).
  erewrite bind_Ok; last first.
  { eapply copyfile_Some. simpl.
    rewrite lookup_delete_ne by apply tmp_ne_new.
    rewrite !lookup_insert_ne by (apply final_ne_new || apply tmp_ne_new).
    exact Hnew. }
  simpl. unfold logging_info, emit, mbind, M_bind. simpl.
  by rewrite <- !app_assoc.
Qed.

Lemma diff_lines_self (lines : list string) : diff_lines lines lines = [].
Proof.
  apply elem_of_nil_inv. intros x. rewrite elem_of_diff_lines. tauto.
Qed.

(** ** SnapshotDiffer: the guard on small deltas *)

(** C2. With a baseline present, a run whose kept-line count is at most 1
    deletes the published file it has just created and appends nothing,
    so that no published file is left; the kept lines are appended (after
    the header) only when there are at least two; a new snapshot equal to
    the baseline keeps no line and publishes nothing. *)
Theorem small_delta_not_published e w n new_text last_text :
  start_row (out_fmt e) = Some n →
  files w !! new_fullfn e = Some new_text →
  files w !! last_fullfn e = Some last_text →
  let diff := diff_lines (drop n (readlines new_text)) (drop n (readlines last_text)) in
  let header := if decide (out_fmt e = "shef") then shef_header (utc_now e)
                else csv_header in
  let final := final_out_fullfn e in
  (∃ w', main_publish e w = (Ok (), w')
         ∧ (length diff ≤ 1 → files w' !! final = None)
         ∧ (1 < length diff →
            files w' !! final
            = Some (write_all (dedup_lines (readlines (header +:+ write_all diff))))))
  ∧ (∀ w0 h,
       files w0 !! final = Some h →
       files w0 !! new_fullfn e = Some new_text →
       files w0 !! last_fullfn e = Some last_text →
       ∃ w1, write_new_lines (last_fullfn e) (new_fullfn e) final (out_fmt e) w0 = (Ok (), w1)
             ∧ (length diff ≤ 1 → files w1 !! final = None)
             ∧ (1 < length diff → files w1 !! final = Some (h +:+ write_all diff)))
  ∧ (new_text = last_text → diff = [] ∧ length diff ≤ 1).
Proof.
  intros Hfmt Hnew Hlast diff header final.
  split; [|split].
  - rewrite (main_publish_baseline e w n new_text last_text Hfmt Hnew Hlast).
    fold diff header final.
    destruct (decide (1 < length diff)) as [Hmany|Hfew]; eexists; (split; [reflexivity|]);
      simpl; (split; [intros; try lia | intros; try lia]).
    + rewrite lookup_insert_ne by (symmetry; apply final_ne_last).
      rewrite lookup_delete_ne by apply tmp_ne.
      apply lookup_insert_eq.
    + rewrite lookup_insert_ne by (symmetry; apply final_ne_last).
      apply lookup_delete_eq.
  - intros w0 h Hout Hnew0 Hlast0.
    rewrite (write_new_lines_run _ _ _ _ n w0 new_text last_text Hfmt Hnew0 Hlast0).
    fold diff. rewrite Hout.
    destruct (decide (1 < length diff)) as [Hmany|Hfew].
    + eexists. split; [reflexivity|]. simpl.
      split; [lia|]. intros _. apply lookup_insert_eq.
    + unfold os_remove. simpl. rewrite Hout.
      eexists. split; [reflexivity|]. simpl.
      split; [|lia]. intros _. apply lookup_delete_eq.
  - intros ->. subst diff. rewrite diff_lines_self. simpl. split; [done|lia].
Qed.

Lemma small_delta_not_published_witness :
  let body := [".AR CLJW1 20241101 Z DH1300/DUE /SWIRBZZ 12.3"] in
  ∃ w', main_publish sample_hourly_env (sample_world body body) = (Ok (), w')
        ∧ files w' !! final_out_fullfn sample_hourly_env = None.
Proof.
  intros body.
  destruct (small_delta_not_published sample_hourly_env (sample_world body body) 2
              (sample_snapshot body) (sample_snapshot body) eq_refl eq_refl eq_refl)
    as [(w' & Hrun & Hfew & _) [_ Hsame]].
  exists w'. split; [exact Hrun|].
  apply Hfew. by apply Hsame.
Defined.

(** ** MessageEncoder: a record without physical-element code *)

Lemma out_line_unset_PE dur r : f_PE r = None → out_line dur r = None.
Proof. intros H. unfold out_line. by rewrite H. Qed.

Lemma mapR_Err {A B} (f : A → result B) (e : exn) (l : list A) :
  (∀ x e', f x = Err e' → e' = e) →
  (∃ x, x ∈ l ∧ f x = Err e) →
  mapR f l = Err e.
Proof.
  intros Honly (x & Hin & Hx).
  induction l as [|a rest IH]; [by apply elem_of_nil in Hin|].
  cbn [mapR]. destruct (f a) as [b|e'] eqn:Ha.
  - apply elem_of_cons in Hin as [->|Hin]; [congruence|].
    by rewrite (IH Hin).
  - f_equal. by eapply Honly.
Qed.

Lemma join_out_lines_None (out_lines : list (option string)) :
  None ∈ out_lines →
  join_out_lines out_lines
  = Err (TypeError "sequence item: expected str instance, float found").
Proof.
  intros Hin. unfold join_out_lines.
  erewrite mapR_Err; [reflexivity| |by exists None].
  intros [s|] e' [=]. done.
Qed.

(** C7 (the code does otherwise). An element code outside [code_dict]
    leaves the record's PE unset, and the encoder does not skip such a
    record.  On the bulletin branch the sum of line 289 is a missing
    value and the join of line 291 raises [TypeError], which ends the run
    with only the header in the new snapshot and the last snapshot
    untouched; on the csv branch the record is written, its PE field
    empty. *)
Theorem unset_PE_not_skipped e w (g : gage_row) (final_df : list final_row) (r : final_row) :
  code_dict !! g_elementCode g = None →
  f_PE r = g_PE (add_PE g) →
  r ∈ final_df →
  (out_fmt e ≠ "csv" →
   ∃ w',
     (main_encode e final_df;; main_publish e) w
     = (Err (TypeError "sequence item: expected str instance, float found"), w')
     ∧ files w' !! new_fullfn e
       = Some (if decide (out_fmt e = "shef") then shef_header (utc_now e) else "")
     ∧ files w' !! last_fullfn e = files w !! last_fullfn e)
  ∧ (out_fmt e = "csv" →
     ∃ w',
       main_encode e final_df w = (Ok (), w')
       ∧ files w' !! new_fullfn e
         = Some (csv_header +:+ write_all (csv_row (duration (arg_vals e)) <$> final_df))
       ∧ csv_row (duration (arg_vals e)) r
           ∈ csv_row (duration (arg_vals e)) <$> final_df
       ∧ csv_row (duration (arg_vals e)) r
         = join_comma [f_shefId r; isoformat (f_utcTime r); ""; f_value r;
                       duration (arg_vals e)] +:+ lf).
Proof.
  intros Hcode HPE Hin. simpl in HPE. rewrite Hcode in HPE. split.
  - intros Hfmt. eexists. split.
    + apply bind_Err. unfold main_encode.
      rewrite decide_False by done.
      erewrite bind_Ok by reflexivity.
      apply bind_Err. unfold lift. rewrite join_out_lines_None; [reflexivity|].
      apply list_elem_of_fmap. exists r. by rewrite out_line_unset_PE.
    + simpl. split.
      * rewrite lookup_insert_eq. destruct (decide (out_fmt e = "shef")); [done|].
        by rewrite decide_False by done.
      * by rewrite lookup_insert_ne by apply new_ne_last.
  - intros Hfmt. eexists. split.
    + unfold main_encode. rewrite decide_True by done. reflexivity.
    + simpl. split; [apply lookup_insert_eq|].
      split; [by apply list_elem_of_fmap_2|].
      unfold csv_row. by rewrite HPE.
Qed.

Lemma unset_PE_not_skipped_witness :
  let e := sample_env "shef" "CLJW1" "TAVG" sample_values (timestamp 2024 11 1 14 5 9) in
  ∃ w', main e empty_world
        = (Err (TypeError "sequence item: expected str instance, float found"), w')
        ∧ files w' !! new_fullfn e = Some (shef_header (utc_now e)).
Proof.
  intros e.
  destruct (unset_PE_not_skipped e
              {| files := ∅;
                 trace := [Log "scraping started";
                           GetData "1107:WA:SNTL" "TAVG" "HOURLY" "-3";
                           GetMeta "1107:WA:SNTL"; Log "scraping completed"] |}
              {| g_date := timestamp 2024 11 1 5 0 0; g_value := "12.3";
                 g_elementCode := "TAVG"; g_stationTriplet := "1107:WA:SNTL";
                 g_PE := None |}
              [ {| f_shefId := "CLJW1"; f_utcTime := timestamp 2024 11 1 13 0 0;
                   f_PE := None; f_value := "12.3" |} ]
              {| f_shefId := "CLJW1"; f_utcTime := timestamp 2024 11 1 13 0 0;
                 f_PE := None; f_value := "12.3" |})
    as [Hshef _].
  - reflexivity.
  - reflexivity.
  - apply list_elem_of_singleton. reflexivity.
  - destruct Hshef as (w' & Hrun & Hnew & _); [discriminate|].
    exists w'. split; [exact Hrun | exact Hnew].
Defined.

(** ** Single-station selector that matches no station *)

Lemma filter_none {A} (P : A → Prop) `{!∀ x, Decision (P x)} (l : list A) :
  Forall (λ x, ¬ P x) l → filter P l = [].
Proof.
  induction 1 as [|x l Hx _ IH]; [done|].
  by rewrite filter_cons_False.
Qed.

(** The request that names no station raises inside [get_data] unless
    the service answers it with station objects. *)
Lemma get_data_no_station e params_str dur back_str w :
  match service_data e "" params_str dur ("-" +:+ back_str) with
  | Ok (_ :: _) => False
  | _ => True
  end →
  ∃ err, get_data e [] params_str dur back_str w
         = (Err err, {| files := files w;
                        trace := trace w ++ [GetData "" params_str dur ("-" +:+ back_str)] |}).
Proof.
  intros Hreply. unfold get_data. simpl.
  erewrite bind_Ok by reflexivity.
  unfold lift, mbind, M_bind.
  destruct (service_data e "" params_str dur ("-" +:+ back_str)) as [[|js rest]|err].
  - by eexists.
  - done.
  - by eexists.
Qed.

(** C8 (the code does otherwise). A single-station selector that matches
    no row of the reference table sends a request naming no station; the
    exception this raises is caught and logged, but the frames stay
    unbound, and line 253 ends the run with [UnboundLocalError].  No file
    is touched. *)
Theorem lookup_miss_aborts_run e w :
  locid (arg_vals e) ≠ "all" →
  Forall (λ r, ShefId r ≠ locid (arg_vals e)) (snotel_meta_df e) →
  match service_data e "" (params (arg_vals e)) (duration (arg_vals e))
          ("-" +:+ back (arg_vals e)) with
  | Ok (_ :: _) => False
  | _ => True
  end →
  main e w
  = (Err (UnboundLocalError "all_data_df"),
     {| files := files w;
        trace := trace w
                   ++ [Log "scraping started";
                       GetData "" (params (arg_vals e)) (duration (arg_vals e))
                         ("-" +:+ back (arg_vals e));
                       Log "improper character length for LID";
                       Log "scraping completed"] |}).
Proof.
  intros Hloc Hmiss Hreply. unfold main.
  erewrite bind_Ok; last first.
  { unfold main_fetch. erewrite bind_Ok by reflexivity.
    rewrite decide_False by done.
    erewrite bind_Ok; last first.
    { unfold fetch_one. rewrite (filter_none _ _ Hmiss). simpl.
      erewrite bind_Ok; last first.
      { unfold try_step.
        destruct (get_data_no_station e _ _ _
                    {| files := files w; trace := trace w ++ [Log "scraping started"] |}
                    Hreply) as [err ->]. reflexivity. }
      reflexivity. }
    reflexivity. }
  simpl. rewrite <- !app_assoc. reflexivity.
Qed.

Lemma lookup_miss_aborts_run_witness :
  let e := sample_env "shef" "XXXXX" "WTEQ" sample_values (timestamp 2024 11 1 14 5 9) in
  main e empty_world
  = (Err (UnboundLocalError "all_data_df"),
     {| files := ∅;
        trace := [Log "scraping started"; GetData "" "WTEQ" "HOURLY" "-3";
                  Log "improper character length for LID";
                  Log "scraping completed"] |}).
Proof.
  intros e. apply (lookup_miss_aborts_run e empty_world).
  - discriminate.
  - repeat constructor. discriminate.
  - exact I.
Defined.

(** ** Promotion of the new snapshot *)

(** C10, as stated, fails: in the second of four runs the guard discards
    the one new line (the reading of 14:00 UTC), which enters the
    baseline; the third reply lacks it; the fourth run publishes it. *)
Lemma suppressed_line_published_later :
  (main env_run2 world_after1).1 = Ok ()
  ∧ (readlines <$> files world_after1 !! last_fullfn env_run2)
    = Some (readlines (shef_header (utc_now env_run1)) ++ [line_1300 +:+ lf; line_1500])
  ∧ (readlines <$> files world_after2 !! new_fullfn env_run2)
    = Some (readlines (shef_header (utc_now env_run2)) ++ [line_1300 +:+ lf; line_1400])
  ∧ diff_lines [line_1300 +:+ lf; line_1400] [line_1300 +:+ lf; line_1500] = [line_1400]
  ∧ files world_after2 !! final_out_fullfn env_run2 = None
  ∧ (main env_run3 world_after2).1 = Ok ()
  ∧ (main env_run4 world_after3).1 = Ok ()
  ∧ (readlines <$> files world_after4 !! final_out_fullfn env_run4)
    = Some (readlines (shef_header (utc_now env_run4)) ++ [line_1600 +:+ lf; line_1400]).
Proof. by vm_compute. Qed.

(** ** A format other than csv and shef *)

Lemma join_out_lines_Some dur (final_df : list final_row) :
  Forall (λ r, is_Some (f_PE r)) final_df →
  ∃ lines, out_line dur <$> final_df = Some <$> lines
           ∧ join_out_lines (out_line dur <$> final_df) = Ok (join_lines lines).
Proof.
  intros Hall.
  assert (∃ lines, out_line dur <$> final_df = Some <$> lines) as [lines Hlines].
  { induction Hall as [|r rest [pe Hpe] _ [lines IH]]; [by exists []|].
    eexists (_ :: lines). rewrite !fmap_cons, IH.
    by rewrite (out_line_Some dur r pe Hpe). }
  exists lines. split; [done|].
  rewrite Hlines. unfold join_out_lines.
  rewrite (mapR_Ok _ (default "")) by by apply Forall_fmap, Forall_forall.
  rewrite <- list_fmap_compose.
  by rewrite (list_fmap_ext _ id lines), list_fmap_id by done.
Qed.

(** C9 (amended). For a format other than csv and shef nothing is checked
    and no error names the format: the fetch phase, with all its network
    calls, is the one of a supported format; [write_header] accepts the
    format and writes an empty file; the encoder takes the bulletin
    branch; and with no last snapshot on disk the rest of the run
    completes, leaving the header-less body in the new and the last
    snapshot and, deduplicated, in the published file. *)
Theorem unsupported_format_unchecked e w :
  out_fmt e ≠ "csv" →
  out_fmt e ≠ "shef" →
  main_fetch e w = main_fetch (set_out_fmt e "shef") w
  ∧ (∀ path header,
       write_header (utc_now e) path (out_fmt e) header w
       = (Ok (), {| files := <[path := ""]> (files w); trace := trace w |}))
  ∧ (∀ final_df,
       Forall (λ r, is_Some (f_PE r)) final_df →
       files w !! last_fullfn e = None →
       ∃ lines w',
         out_line (duration (arg_vals e)) <$> final_df = Some <$> lines
         ∧ (main_encode e final_df;; main_publish e) w = (Ok (), w')
         ∧ files w' !! new_fullfn e = Some (join_lines lines)
         ∧ files w' !! last_fullfn e = Some (join_lines lines)
         ∧ files w' !! final_out_fullfn e
           = Some (write_all (dedup_lines (readlines (join_lines lines))))
         ∧ filter is_network_call (trace w') = filter is_network_call (trace w)).
Proof.
  intros Hcsv Hshef. split; [reflexivity|]. split.
  - intros path header. unfold write_header.
    by rewrite !decide_False by done.
  - intros final_df Hall Hlast.
    destruct (join_out_lines_Some (duration (arg_vals e)) final_df Hall)
      as (lines & Hlines & Hjoin).
    exists lines. eexists. split; [exact Hlines|].
    split.
    { erewrite bind_Ok; last first.
      { unfold main_encode. rewrite decide_False by done.
        unfold write_header. rewrite !decide_False by done.
        erewrite bind_Ok by reflexivity.
        erewrite bind_Ok by (unfold lift; by rewrite Hjoin).
        unfold append_text. simpl. rewrite lookup_insert_eq. simpl.
        rewrite insert_insert_eq. reflexivity. }
      apply main_publish_no_baseline; simpl.
      - apply lookup_insert_eq.
      - by rewrite lookup_insert_ne by apply new_ne_last. }
    simpl. split; [|split; [|split]].
    + rewrite lookup_insert_ne by (symmetry; apply new_ne_last).
      rewrite lookup_delete_ne by apply tmp_ne_new.
      rewrite !lookup_insert_ne by (apply final_ne_new || apply tmp_ne_new).
      apply lookup_insert_eq.
    + apply lookup_insert_eq.
    + rewrite lookup_insert_ne by (symmetry; apply final_ne_last).
      rewrite lookup_delete_ne by apply tmp_ne.
      apply lookup_insert_eq.
    + rewrite filter_app. simpl. apply app_nil_r.
Qed.

Lemma unsupported_format_unchecked_witness :
  ∃ w',
    (main_encode env_xml [sample_record];; main_publish env_xml) empty_world = (Ok (), w')
    ∧ files w' !! final_out_fullfn env_xml = Some line_1300.
Proof.
  destruct (unsupported_format_unchecked env_xml empty_world) as (_ & _ & Hrest);
    [discriminate | discriminate |].
  destruct (Hrest [sample_record]) as (lines & w' & Hlines & Hrun & _ & _ & Hfinal & _).
  - repeat constructor. by eexists.
  - reflexivity.
  - exists w'. split; [exact Hrun|].
    rewrite Hfinal.
    destruct lines as [|l [|? ?]]; try discriminate Hlines.
    injection Hlines as <-. reflexivity.
Defined.

(** C9, as stated, fails: configured with "xml", a first run makes its
    network calls, raises nothing and publishes the bulletin lines. *)
Lemma unsupported_format_run_completes :
  out_fmt env_xml ≠ "csv"
  ∧ out_fmt env_xml ≠ "shef"
  ∧ (main env_xml empty_world).1 = Ok ()
  ∧ filter is_network_call (trace (main env_xml empty_world).2)
    = [GetData "1107:WA:SNTL" "WTEQ" "HOURLY" "-3"; GetMeta "1107:WA:SNTL"]
  ∧ (readlines <$> files (main env_xml empty_world).2 !! final_out_fullfn env_xml)
    = Some [line_1300 +:+ lf; line_1400].
Proof. repeat split; (discriminate || by vm_compute). Qed.

(** ** Deduplicator: the rewritten file *)

(** X22. The loop of [remove_dup_lines] compares lines as texts, line
    ends included.  It computes the first occurrences of the
    specification ([first_occurrences]): its output has no two equal
    texts, holds the same texts as the input and is a subsequence of it;
    [a; b; a; c; b] becomes [a; b; c]; and [remove_dup_lines] leaves a
    file whose lines, as read, are that output, no temporary copy, and
    every other file and the log as they were. *)
Theorem dedup_lines_spec (lines : list string) :
  dedup_lines lines = first_occurrences lines
  ∧ NoDup (dedup_lines lines)
  ∧ (∀ x, x ∈ dedup_lines lines ↔ x ∈ lines)
  ∧ dedup_lines lines `sublist_of` lines
  ∧ (∀ a b c, lines = [a; b; a; c; b] → a ≠ b → a ≠ c → b ≠ c →
       dedup_lines lines = [a; b; c])
  ∧ (∀ w out_fullfn text,
       files w !! out_fullfn = Some text →
       lines = readlines text →
       ∃ w', remove_dup_lines out_fullfn w = (Ok (), w')
             ∧ (readlines <$> files w' !! out_fullfn) = Some (dedup_lines lines)
             ∧ files w' !! (out_fullfn +:+ ".tmp") = None
             ∧ (∀ path, path ≠ out_fullfn → path ≠ out_fullfn +:+ ".tmp" →
                  files w' !! path = files w !! path)
             ∧ trace w' = trace w).
Proof.
  split; [apply (dedup_loop_first_occurrences ∅ []); set_solver|].
  split; [apply dedup_loop_NoDup|].
  split; [intros x; unfold dedup_lines; rewrite dedup_loop_elem_of; set_solver|].
  split; [apply dedup_loop_sublist|].
  split.
  - intros a b c -> Hab Hac Hbc. unfold dedup_lines. simpl.
    rewrite decide_True by set_solver.
    rewrite decide_True by set_solver.
    rewrite decide_False by set_solver.
    rewrite decide_True by set_solver.
    by rewrite decide_False by set_solver.
  - intros w out_fullfn text Hout ->.
    rewrite (remove_dup_lines_run out_fullfn w text Hout).
    eexists. split; [reflexivity|]. simpl.
    split; [|split; [|split]].
    + rewrite lookup_delete_ne by apply tmp_ne.
      rewrite lookup_insert_eq. simpl. f_equal.
      apply readlines_write_all.
      eapply lines_ok_sublist; [apply dedup_loop_sublist|apply readlines_ok].
    + apply lookup_delete_eq.
    + intros path Hne Htmp.
      rewrite lookup_delete_ne by done.
      by rewrite !lookup_insert_ne by done.
    + done.
Qed.

Lemma dedup_lines_spec_witness :
  dedup_lines ["a"; "b"; "a"; "c"; "b"] = ["a"; "b"; "c"]
  ∧ ∃ w', remove_dup_lines "delta.csv" sample_terminated_world = (Ok (), w')
          ∧ (readlines <$> files w' !! "delta.csv")
            = Some ["a" +:+ lf; "b" +:+ lf; "c" +:+ lf].
Proof.
  split.
  - destruct (dedup_lines_spec ["a"; "b"; "a"; "c"; "b"]) as (_ & _ & _ & _ & Hex & _).
    apply Hex; [reflexivity | discriminate..].
  - destruct (dedup_lines_spec (readlines sample_terminated_text))
      as (_ & _ & _ & _ & _ & Hfile).
    destruct (Hfile sample_terminated_world "delta.csv" sample_terminated_text
                eq_refl eq_refl)
      as (w' & Hrun & Hlines & _).
    exists w'. split; [exact Hrun | exact Hlines].
Defined.

(** * Further properties of the code *)

(** ** Batching: shape and edge cases *)

Lemma ceil_div_bounds (n limit : Z) :
  (0 < limit)%Z →
  (n ≤ (n - 0 + limit - 1) / limit * limit < n + limit)%Z.
Proof.
  intros Hpos.
  assert (H := Z.div_mod (n - 0 + limit - 1) limit ltac:(lia)).
  assert (H' := Z.mod_pos_bound (n - 0 + limit - 1) limit Hpos). nia.
Qed.

(** X1. For a positive limit the number of groups is the length of the
    table divided by the limit, rounded up; group [i] is the slice that
    starts at row [i * limit]; no group is empty and every group but the
    last has exactly [limit] rows. *)
Theorem batches_shape {A} (df : list A) (limit : Z) :
  (0 < limit)%Z →
  ∃ groups,
    batches df limit = Ok groups
    ∧ Z.of_nat (length groups) = ((Z.of_nat (length df) + limit - 1) / limit)%Z
    ∧ ∀ i g, groups !! i = Some g →
        g = take (Z.to_nat limit) (drop (i * Z.to_nat limit) df)
        ∧ g ≠ []
        ∧ (S i < length groups → Z.of_nat (length g) = limit).
Proof.
  intros Hpos. rewrite batches_positive by done.
  set (n := Z.of_nat (length df)).
  assert (Hk := ceil_div_bounds n limit Hpos).
  assert (0 ≤ (n - 0 + limit - 1) / limit)%Z
    by (apply Z.div_pos; unfold n; lia).
  eexists. split; [reflexivity|].
  rewrite length_fmap, length_seq.
  split; [rewrite Z2Nat.id by done; f_equal; lia|].
  intros i g Hg. apply list_lookup_fmap_Some in Hg as (j & -> & Hj).
  apply lookup_seq in Hj as [-> Hi]. simpl in *.
  split; [done|].
  assert (i * Z.to_nat limit < length df) by (unfold n in *; nia).
  split.
  - intros Hnil. apply (f_equal length) in Hnil.
    rewrite length_take, length_drop in Hnil. simpl in Hnil. lia.
  - intros Hnext. rewrite length_take, length_drop.
    assert (S i * Z.to_nat limit < length df) by (unfold n in *; nia).
    lia.
Qed.

Lemma batches_shape_witness :
  ∃ groups,
    batches ["a"; "b"; "c"; "d"; "e"] 2 = Ok groups
    ∧ length groups = 3
    ∧ groups !! 2 = Some ["e"].
Proof.
  destruct (batches_shape ["a"; "b"; "c"; "d"; "e"] 2 ltac:(lia))
    as (groups & Hrun & Hlen & _).
  exists groups. split; [exact Hrun|].
  injection Hrun as <-. split; reflexivity.
Defined.

(** X2. A limit of zero makes [range] raise [ValueError]; a negative
    limit gives no group at all, whatever the table holds. *)
Theorem batches_nonpositive {A} (df : list A) (limit : Z) :
  (limit ≤ 0)%Z →
  (limit = 0%Z →
   batches df limit = Err (ValueError "range() arg 3 must not be zero"))
  ∧ ((limit < 0)%Z → batches df limit = Ok []).
Proof.
  intros Hle. unfold batches, py_range. split.
  - intros ->. done.
  - intros Hneg. rewrite decide_False by lia. rewrite decide_False by lia.
    replace (Z.to_nat _) with 0; [done|].
    assert (H := Z.div_mod (0 - Z.of_nat (length df) - limit - 1) (- limit) ltac:(lia)).
    assert (H' := Z.mod_pos_bound (0 - Z.of_nat (length df) - limit - 1) (- limit) ltac:(lia)).
    assert ((0 - Z.of_nat (length df) - limit - 1) / - limit ≤ 0)%Z by nia.
    lia.
Qed.

Lemma batches_nonpositive_witness :
  batches ["a"; "b"; "c"] (-2) = Ok [].
Proof. by apply (batches_nonpositive ["a"; "b"; "c"] (-2)). Defined.

(** ** Lines and text: round trips *)

Lemma split_lines_nil s : split_lines s = [] → s = "".
Proof.
  destruct s as [|c rest]; [done|]. cbn [split_lines].
  destruct (decide (c = newline)); [done|].
  by destruct (split_lines rest).
Qed.

Lemma write_all_cons x rest : write_all (x :: rest) = x +:+ write_all rest.
Proof. reflexivity. Qed.

Lemma write_all_split_lines (s : string) : write_all (split_lines s) = s.
Proof.
  induction s as [|c rest IH]; [done|].
  destruct (decide (c = newline)) as [->|Hc].
  - rewrite split_lines_cons_lf, write_all_cons. unfold lf.
    by rewrite append_cons, IH.
  - rewrite split_lines_cons_other by done.
    destruct (split_lines rest) as [|l ls] eqn:Hrest.
    + by rewrite (split_lines_nil rest Hrest).
    + rewrite write_all_cons, append_cons. f_equal.
      by rewrite <- write_all_cons.
Qed.

(** The lines read from a file, written one after the other, are the
    file's text with its line ends translated. *)
Lemma write_all_readlines (s : string) :
  write_all (readlines s) = universal_newlines s.
Proof. apply write_all_split_lines. Qed.

(** ** Deduplicator: fixed points *)

Lemma dedup_loop_NoDup_id lines_seen lines :
  NoDup lines → (∀ x, x ∈ lines → x ∉ lines_seen) →
  dedup_loop lines_seen lines = lines.
Proof.
  intros Hnd. revert lines_seen.
  induction Hnd as [|x rest Hx _ IH]; intros lines_seen Hfresh; [done|].
  simpl. rewrite decide_True by (apply Hfresh; by left).
  f_equal. apply IH. intros y Hy.
  rewrite not_elem_of_union, not_elem_of_singleton.
  split; [by intros ->|]. apply Hfresh. by right.
Qed.

Lemma dedup_lines_NoDup_id lines : NoDup lines → dedup_lines lines = lines.
Proof.
  intros Hnd. apply dedup_loop_NoDup_id; [done|]. intros x _.
  apply not_elem_of_empty.
Qed.

Lemma dedup_lines_idemp lines : dedup_lines (dedup_lines lines) = dedup_lines lines.
Proof. apply dedup_lines_NoDup_id, dedup_loop_NoDup. Qed.

(** X4. Running the deduplicator a second time changes nothing at all:
    the file system after two runs is the one after the first.  A file
    whose lines, as read, are all different is rewritten as its text with
    line ends translated to line feeds, so it keeps its exact text when it
    holds no carriage return. *)
Theorem remove_dup_lines_idempotent w out_fullfn text :
  files w !! out_fullfn = Some text →
  ∃ w1 w2,
    remove_dup_lines out_fullfn w = (Ok (), w1)
    ∧ remove_dup_lines out_fullfn w1 = (Ok (), w2)
    ∧ files w2 = files w1
    ∧ (NoDup (readlines text) →
       files w1 !! out_fullfn = Some (universal_newlines text)
       ∧ (has_cr text = false → files w1 !! out_fullfn = Some text)).
Proof.
  intros Hout.
  rewrite (remove_dup_lines_run out_fullfn w text Hout).
  eexists. eexists. split; [reflexivity|].
  set (kept := dedup_lines (readlines text)).
  assert (Hok : lines_ok kept).
  { eapply lines_ok_sublist; [apply dedup_loop_sublist|apply readlines_ok]. }
  assert (Hfirst : ∀ m : gmap string string,
            delete (out_fullfn +:+ ".tmp") (<[out_fullfn := write_all kept]> m)
              !! out_fullfn = Some (write_all kept)).
  { intros m. rewrite lookup_delete_ne by apply tmp_ne. apply lookup_insert_eq. }
  split; [|split].
  - erewrite remove_dup_lines_run by (cbn [files]; apply Hfirst). reflexivity.
  - cbn [files]. fold kept. rewrite (readlines_write_all kept Hok).
    unfold kept at 1. rewrite dedup_lines_idemp. fold kept.
    apply map_eq. intros path.
    destruct (decide (path = out_fullfn +:+ ".tmp")) as [->|Htmp].
    { by rewrite !lookup_delete_eq. }
    rewrite !(lookup_delete_ne _ _ path) by done.
    destruct (decide (path = out_fullfn)) as [->|Hout'].
    { by rewrite !lookup_insert_eq. }
    rewrite !lookup_insert_ne by done.
    rewrite lookup_delete_ne by done.
    by rewrite !lookup_insert_ne by done.
  - intros Hnd. cbn [files]. rewrite Hfirst. unfold kept.
    rewrite dedup_lines_NoDup_id, write_all_readlines by done.
    split; [done|]. intros Hcr. by rewrite universal_newlines_no_cr.
Qed.

(** A carriage return ends a line when the file is read, and the line is
    written back with a line feed. *)
Lemma remove_dup_lines_carriage_return :
  ∃ w',
    remove_dup_lines "delta.shef" sample_cr_world = (Ok (), w')
    ∧ files w' !! "delta.shef" = Some ("x" +:+ lf +:+ "y" +:+ lf).
Proof.
  exists (remove_dup_lines "delta.shef" sample_cr_world).2. split; by vm_compute.
Qed.

Lemma remove_dup_lines_idempotent_witness :
  ∃ w1 w2,
    remove_dup_lines "delta.shef" sample_delta_world = (Ok (), w1)
    ∧ remove_dup_lines "delta.shef" w1 = (Ok (), w2)
    ∧ files w2 = files w1.
Proof.
  destruct (remove_dup_lines_idempotent sample_delta_world "delta.shef"
              sample_delta_text eq_refl) as (w1 & w2 & H1 & H2 & Heq & _).
  exists w1, w2. split; [exact H1|]. split; [exact H2 | exact Heq].
Defined.

(** ** SnapshotDiffer: how the kept lines depend on the two bodies *)

(** X5. Against an empty baseline body every new line is kept; the kept
    lines of a concatenation are the kept lines of its parts; a second
    pass against the same baseline removes nothing more; and a baseline
    that holds more lines never keeps more. *)
Theorem diff_lines_algebra (new_lines more_lines last_lines : list string) :
  diff_lines new_lines [] = new_lines
  ∧ diff_lines (new_lines ++ more_lines) last_lines
    = diff_lines new_lines last_lines ++ diff_lines more_lines last_lines
  ∧ diff_lines (diff_lines new_lines last_lines) last_lines
    = diff_lines new_lines last_lines
  ∧ diff_lines new_lines (last_lines ++ more_lines)
      `sublist_of` diff_lines new_lines last_lines
  ∧ length (diff_lines new_lines last_lines)
      + length (filter (λ x, x ∈ last_lines) new_lines)
    = length new_lines.
Proof.
  rewrite !diff_lines_filter. repeat split.
  - induction new_lines as [|x rest IH]; [done|].
    rewrite filter_cons_True by apply not_elem_of_nil. by rewrite IH.
  - apply filter_app.
  - induction new_lines as [|x rest IH]; [done|].
    destruct (decide (x ∈ last_lines)).
    + by rewrite filter_cons_False by tauto.
    + rewrite filter_cons_True by done.
      rewrite filter_cons_True by done. by rewrite IH.
  - induction new_lines as [|x rest IH]; [done|].
    destruct (decide (x ∈ last_lines)) as [Hin|Hout].
    + rewrite filter_cons_False by (intros H; apply H, elem_of_app; by left).
      by rewrite filter_cons_False by tauto.
    + rewrite (filter_cons_True (λ x, x ∉ last_lines)) by done.
      destruct (decide (x ∈ more_lines)).
      * rewrite filter_cons_False by (intros H; apply H, elem_of_app; by right).
        by apply sublist_cons.
      * rewrite filter_cons_True by (rewrite elem_of_app; tauto).
        by apply sublist_skip.
  - induction new_lines as [|x rest IH]; [done|].
    destruct (decide (x ∈ last_lines)).
    + rewrite filter_cons_False by tauto.
      rewrite filter_cons_True by done. simpl. lia.
    + rewrite filter_cons_True by done.
      rewrite filter_cons_False by done. simpl. lia.
Qed.

(** ** RecordJoiner: the merge of line 253 *)

Lemma filter_unique_key (meta : list meta_row) (k : string) :
  NoDup (m_stationTriplet <$> meta) →
  length (filter (λ m, m_stationTriplet m = k) meta)
  = if decide (k ∈ m_stationTriplet <$> meta) then 1 else 0.
Proof.
  induction meta as [|m rest IH]; intros Hnd.
  { rewrite decide_False by apply not_elem_of_nil. done. }
  rewrite fmap_cons in Hnd. apply NoDup_cons in Hnd as [Hm Hnd].
  specialize (IH Hnd). rewrite fmap_cons.
  destruct (decide (m_stationTriplet m = k)) as [<-|Hne].
  - rewrite filter_cons_True by done. simpl. rewrite IH.
    rewrite decide_False by done.
    by rewrite decide_True by (by left).
  - rewrite filter_cons_False by done. rewrite IH.
    destruct (decide (k ∈ m_stationTriplet <$> rest)) as [Hin|Hout].
    + by rewrite decide_True by (by right).
    + rewrite decide_False; [done|].
      intros [?|?]%elem_of_cons; [congruence|done].
Qed.

(** X6. The merge is an inner join on the station triplet: a pair is in
    the result exactly when its two rows carry the same triplet; and when
    no triplet occurs twice in the metadata, the data rows of the result
    are the data rows that have a metadata row, each once and in their
    original order (the others are dropped without a word). *)
Theorem merge_inner_join (data : list gage_row) (meta : list meta_row) :
  (∀ d m, (d, m) ∈ merge data meta
          ↔ d ∈ data ∧ m ∈ meta ∧ m_stationTriplet m = g_stationTriplet d)
  ∧ (NoDup (m_stationTriplet <$> meta) →
     (merge data meta).*1
     = filter (λ d, g_stationTriplet d ∈ m_stationTriplet <$> meta) data).
Proof.
  split.
  - intros d m. unfold merge. rewrite list_elem_of_bind. split.
    + intros (d' & Hin & Hd').
      apply list_elem_of_bind in Hin as (m' & Hpair & Hm').
      apply list_elem_of_singleton in Hpair as [= -> ->].
      apply list_elem_of_filter in Hm' as [Hkey Hm']. done.
    + intros (Hd & Hm & Hkey). exists d. split; [|done].
      apply list_elem_of_bind. exists m. split; [by apply list_elem_of_singleton|].
      by apply list_elem_of_filter.
  - intros Hnd. unfold merge.
    induction data as [|d rest IH]; [done|].
    rewrite bind_cons, fmap_app, IH.
    assert (Hlen := filter_unique_key meta (g_stationTriplet d) Hnd).
    destruct (decide (g_stationTriplet d ∈ m_stationTriplet <$> meta)).
    + rewrite filter_cons_True by done.
      destruct (filter _ meta) as [|m [|m' ms]]; try discriminate Hlen.
      reflexivity.
    + rewrite filter_cons_False by done.
      destruct (filter _ meta) as [|m ms]; try discriminate Hlen.
      reflexivity.
Qed.

Lemma merge_inner_join_witness :
  (merge [sample_gage "WTEQ" "12.3" 0;
          {| g_date := 0; g_value := "1.0"; g_elementCode := "WTEQ";
             g_stationTriplet := "302:OR:SNTL"; g_PE := Some "SW" |}]
         [sample_meta]).*1
  = [sample_gage "WTEQ" "12.3" 0].
Proof.
  destruct (merge_inner_join
              [sample_gage "WTEQ" "12.3" 0;
               {| g_date := 0; g_value := "1.0"; g_elementCode := "WTEQ";
                  g_stationTriplet := "302:OR:SNTL"; g_PE := Some "SW" |}]
              [sample_meta]) as [_ Hdata].
  rewrite Hdata; [reflexivity|].
  apply NoDup_singleton.
Defined.

(** ** TimeNormalizer: when line 255 returns *)

(** X7. When both frames are bound, the data frame has a row and every
    joined row has its local time, its offset and their difference inside
    the 64-bit nanosecond range, lines 253-257 return without touching
    the world: one record per joined row, in the same order, with the
    publish id, the PE and the value copied unchanged and, as UTC time,
    the local time minus the offset, inside the range. *)
Theorem add_utcTime_returns (data : list gage_row) (meta : list meta_row) w :
  data ≠ [] →
  Forall (λ r, representable r = true) (merge data meta) →
  ∃ final_df,
    main_join (Some data) (Some meta) w = (Ok final_df, w)
    ∧ add_utcTime (merge data meta) = Ok final_df
    ∧ Forall2 (λ r f, f_shefId f = shefId r.2 ∧ f_PE f = g_PE r.1
                      ∧ f_value f = g_value r.1
                      ∧ f_utcTime f = (g_date r.1 - dataTimeZone r.2 * ns_per_hour)%Z
                      ∧ int64_ok (f_utcTime f) = true)
              (merge data meta) final_df.
Proof.
  intros Hdata Hall.
  assert (Hrun := add_utcTime_representable (merge data meta) Hall).
  eexists. split; [|split; [exact Hrun|]].
  - unfold main_join. destruct data as [|g data]; [done|].
    unfold lift. by rewrite Hrun.
  - apply Forall2_fmap_r, Forall_Forall2_diag.
    eapply Forall_impl; [exact Hall|]. intros r Hr. simpl.
    repeat split. unfold representable in Hr.
    by apply andb_true_iff in Hr as [_ ?].
Qed.

Lemma add_utcTime_returns_witness :
  ∃ final_df,
    main_join (Some [sample_gage "WTEQ" "12.3" (timestamp 2024 11 1 5 0 0)])
              (Some [sample_meta]) empty_world = (Ok final_df, empty_world)
    ∧ final_df = [record_at 13 "12.3"].
Proof.
  destruct (add_utcTime_returns [sample_gage "WTEQ" "12.3" (timestamp 2024 11 1 5 0 0)]
              [sample_meta] empty_world) as (final_df & Hrun & Hcol & _).
  - discriminate.
  - repeat constructor.
  - exists final_df. split; [exact Hrun|].
    vm_compute in Hcol. by injection Hcol as <-.
Defined.

(** ** get_data: one request, no retry *)

Lemma code_dict_known (code : string) :
  is_Some (code_dict !! code) ↔ code ∈ ["PREC"; "TOBS"; "WTEQ"; "SNWD"].
Proof.
  unfold code_dict. rewrite !elem_of_cons, elem_of_nil.
  destruct (decide (code = "PREC")) as [->|?];
    [rewrite lookup_insert_eq; split; eauto|rewrite lookup_insert_ne by done].
  destruct (decide (code = "TOBS")) as [->|?];
    [rewrite lookup_insert_eq; split; eauto|rewrite lookup_insert_ne by done].
  destruct (decide (code = "WTEQ")) as [->|?];
    [rewrite lookup_insert_eq; split; eauto|rewrite lookup_insert_ne by done].
  destruct (decide (code = "SNWD")) as [->|?];
    [rewrite lookup_insert_eq; split; eauto 6|rewrite lookup_insert_ne by done].
  rewrite lookup_empty. split; [by intros [? ?]|]. intros [?|[?|[?|[?|[]]]]]; done.
Qed.

(** X8. One call of [get_data] sends exactly one request and touches no
    file, whatever comes back: a failed request is passed on as it is, a
    reply without stations ends in [ValueError] (nothing to concatenate),
    and the rows of a good reply are the reply's values in order, each
    with a PE exactly when its element code is one of the four of
    [code_dict]. *)
Theorem get_data_one_request e (triplet_str : list string) (params_str dur back_str : string) w :
  let request := GetData (join_comma triplet_str) params_str dur ("-" +:+ back_str) in
  let reply := service_data e (join_comma triplet_str) params_str dur ("-" +:+ back_str) in
  ∃ r,
    get_data e triplet_str params_str dur back_str w
    = (r, {| files := files w; trace := trace w ++ [request] |})
    ∧ (∀ err, reply = Err err → r = Err err)
    ∧ (reply = Ok [] → r = Err (ValueError "No objects to concatenate"))
    ∧ (∀ rows, r = Ok rows →
         ∃ stations,
           reply = Ok stations
           ∧ rows = add_PE <$> concat (normalize_station <$> stations)
           ∧ Forall (λ g, is_Some (g_PE g)
                          ↔ g_elementCode g ∈ ["PREC"; "TOBS"; "WTEQ"; "SNWD"]) rows).
Proof.
  intros request reply. unfold get_data. fold request.
  erewrite bind_Ok by reflexivity.
  unfold lift, mbind, M_bind. fold reply.
  destruct reply as [[|js stations]|err] eqn:Hreply.
  - eexists. split; [reflexivity|]. by repeat split.
  - cbn [pd_concat fmap list_fmap].
    destruct (forallb _ (js :: stations)); eexists; (split; [reflexivity|]).
    + by repeat split.
    + split; [done|]. split; [done|]. intros rows [= <-].
      eexists. split; [reflexivity|]. split; [done|].
      apply Forall_fmap, Forall_forall. intros g _. simpl. apply code_dict_known.
  - eexists. split; [reflexivity|]. repeat split; try done. by intros ? [= ->].
Qed.

(** ** Fetching never touches a file *)

Lemma trace_only_ret {A} (a : A) : trace_only (mret a).
Proof. by intros w. Qed.

Lemma trace_only_raise {A} (e : exn) : trace_only (raise (A:=A) e).
Proof. by intros w. Qed.

Lemma trace_only_lift {A} (r : result A) : trace_only (lift r).
Proof. by intros w. Qed.

Lemma trace_only_emit ev : trace_only (emit ev).
Proof. by intros w. Qed.

Lemma trace_only_bind {A B} (m : M A) (f : A → M B) :
  trace_only m → (∀ a, trace_only (f a)) → trace_only (m ≫= f).
Proof.
  intros Hm Hf w. rewrite bind_unfold. specialize (Hm w).
  destruct (m w) as [[a|err] w']; simpl in *; [|done].
  by rewrite Hf.
Qed.

Lemma trace_only_try_step {A} (m : M A) : trace_only m → trace_only (try_step m).
Proof.
  intros Hm w. unfold try_step. specialize (Hm w).
  by destruct (m w) as [[a|err] w'].
Qed.

Lemma trace_only_forM {A B} (f : A → M B) (l : list A) :
  (∀ x, trace_only (f x)) → trace_only (forM f l).
Proof.
  intros Hf. induction l as [|x rest IH]; [apply trace_only_ret|].
  cbn [forM]. apply trace_only_bind; [done|]. intros y.
  apply trace_only_bind; [done|]. intros ys. apply trace_only_ret.
Qed.

Lemma trace_only_get_data e ts p d b : trace_only (get_data e ts p d b).
Proof.
  unfold get_data. apply trace_only_bind; [apply trace_only_emit|]. intros _.
  apply trace_only_bind; [apply trace_only_lift|]. intros json_strings.
  apply trace_only_bind; [apply trace_only_lift|]. intros gages_df.
  destruct (forallb _ _); [apply trace_only_raise|apply trace_only_ret].
Qed.

Lemma trace_only_get_meta e ts : trace_only (get_meta e ts).
Proof.
  unfold get_meta. apply trace_only_bind; [apply trace_only_emit|]. intros _.
  apply trace_only_bind; [apply trace_only_lift|]. intros [|m rest];
    [apply trace_only_raise|apply trace_only_ret].
Qed.

Lemma trace_only_main_fetch e : trace_only (main_fetch e).
Proof.
  unfold main_fetch. apply trace_only_bind; [apply trace_only_emit|]. intros _.
  apply trace_only_bind.
  - destruct (decide _).
    + apply trace_only_bind; [|intros; apply trace_only_ret].
      unfold fetch_all.
      apply trace_only_bind; [apply trace_only_lift|]. intros subsets.
      apply trace_only_bind.
      { apply trace_only_forM. intros subset_df.
        apply trace_only_bind; [apply trace_only_get_data|]. intros ?.
        apply trace_only_bind; [apply trace_only_get_meta|]. intros ?.
        apply trace_only_ret. }
      intros calls.
      apply trace_only_bind; [apply trace_only_lift|]. intros ?.
      apply trace_only_bind; [apply trace_only_lift|]. intros ?.
      apply trace_only_ret.
    + unfold fetch_one.
      apply trace_only_bind; [apply trace_only_try_step, trace_only_get_data|].
      intros [d|].
      * apply trace_only_bind; [apply trace_only_try_step, trace_only_get_meta|].
        intros [m|]; [apply trace_only_ret|].
        apply trace_only_bind; [apply trace_only_emit|]. intros; apply trace_only_ret.
      * apply trace_only_bind; [apply trace_only_emit|]. intros; apply trace_only_ret.
  - intros r. apply trace_only_bind; [apply trace_only_emit|]. intros; apply trace_only_ret.
Qed.

Lemma trace_only_main_join d m : trace_only (main_join d m).
Proof.
  unfold main_join. destruct d as [data|]; [|apply trace_only_raise].
  destruct m as [meta|]; [|apply trace_only_raise].
  destruct data; [apply trace_only_raise|apply trace_only_lift].
Qed.

(** X9. Nothing is written before the encoder starts: the fetch and the
    join leave every file as it was, so a run that ends with an error
    raised while fetching or joining has changed no snapshot and
    published nothing. *)
Theorem failed_fetch_leaves_files e w :
  files (main_fetch e w).2 = files w
  ∧ (∀ err, (main_fetch e w).1 = Err err →
       (main e w).1 = Err err ∧ files (main e w).2 = files w)
  ∧ (∀ fetched err,
       (main_fetch e w).1 = Ok fetched →
       (main_join fetched.1 fetched.2 (main_fetch e w).2).1 = Err err →
       (main e w).1 = Err err ∧ files (main e w).2 = files w).
Proof.
  assert (Hfetch := trace_only_main_fetch e w).
  split; [done|]. unfold main. rewrite bind_unfold.
  destruct (main_fetch e w) as [[fetched|err'] w1]; simpl in *; split.
  - done.
  - intros ? err [= <-] Hjoin. rewrite bind_unfold.
    assert (Hfiles := trace_only_main_join fetched.1 fetched.2 w1).
    destruct (main_join fetched.1 fetched.2 w1) as [[final_df|err''] w2];
      simpl in *; [done|].
    injection Hjoin as ->. split; [done|congruence].
  - by intros err [= ->].
  - done.
Qed.

Lemma failed_fetch_leaves_files_witness :
  let e := sample_env "shef" "XXXXX" "WTEQ" sample_values 0 in
  let w := sample_world [line_1300] [line_1300] in
  (main e w).1 = Err (UnboundLocalError "all_data_df")
  ∧ files (main e w).2 = files w.
Proof.
  intros e w.
  destruct (failed_fetch_leaves_files e w) as (_ & _ & Hjoin).
  apply (Hjoin (None, None)); reflexivity.
Defined.

(** ** The requests of a run over all stations *)

Lemma world_eta w : {| files := files w; trace := trace w |} = w.
Proof. by destruct w. Qed.

Lemma get_data_world e ts p d b w :
  (get_data e ts p d b w).2
  = {| files := files w;
       trace := trace w ++ [GetData (join_comma ts) p d ("-" +:+ b)] |}.
Proof.
  unfold get_data. erewrite bind_Ok by reflexivity.
  unfold lift, mbind, M_bind.
  destruct (service_data e _ _ _ _) as [[|js stations]|err]; [done| |done].
  cbn [pd_concat fmap list_fmap]. by destruct (forallb _ _).
Qed.

Lemma get_meta_world e ts w :
  (get_meta e ts w).2
  = {| files := files w; trace := trace w ++ [GetMeta (join_comma ts)] |}.
Proof.
  unfold get_meta. erewrite bind_Ok by reflexivity.
  unfold lift, mbind, M_bind.
  by destruct (service_meta e _) as [[|m rest]|err].
Qed.

Lemma fetch_batch_calls e subset_df w :
  ∃ r evs,
    (call_data_df ← get_data e (triplet_of <$> subset_df) (params (arg_vals e))
                      (duration (arg_vals e)) (back (arg_vals e));
     call_meta_df ← get_meta e (triplet_of <$> subset_df);
     mret (call_data_df, call_meta_df)) w
    = (r, {| files := files w; trace := trace w ++ evs |})
    ∧ evs `prefix_of` batch_calls e subset_df
    ∧ (∀ x, r = Ok x → evs = batch_calls e subset_df).
Proof.
  rewrite bind_unfold.
  assert (Hd := get_data_world e (triplet_of <$> subset_df) (params (arg_vals e))
                  (duration (arg_vals e)) (back (arg_vals e)) w).
  destruct (get_data _ _ _ _ _ w) as [[d|err] w1]; simpl in Hd; subst w1.
  - rewrite bind_unfold.
    assert (Hm := get_meta_world e (triplet_of <$> subset_df)
                    {| files := files w;
                       trace := trace w ++ [GetData (join_comma (triplet_of <$> subset_df))
                                              (params (arg_vals e)) (duration (arg_vals e))
                                              ("-" +:+ back (arg_vals e))] |}).
    destruct (get_meta _ _ _) as [[m|err] w2]; simpl in Hm; subst w2;
      rewrite <- app_assoc; do 2 eexists; (split; [reflexivity|]); by split.
  - do 2 eexists. split; [reflexivity|]. split; [|done].
    by eexists [_].
Qed.

Lemma forM_batch_calls e (subsets : list (list station_row)) w :
  ∃ r evs,
    forM (λ subset_df,
            call_data_df ← get_data e (triplet_of <$> subset_df) (params (arg_vals e))
                             (duration (arg_vals e)) (back (arg_vals e));
            call_meta_df ← get_meta e (triplet_of <$> subset_df);
            mret (call_data_df, call_meta_df)) subsets w
    = (r, {| files := files w; trace := trace w ++ evs |})
    ∧ evs `prefix_of` (subsets ≫= batch_calls e)
    ∧ (∀ x, r = Ok x → evs = subsets ≫= batch_calls e).
Proof.
  revert w. induction subsets as [|subset_df rest IH]; intros w.
  { exists (Ok []), []. rewrite app_nil_r, world_eta. by repeat split. }
  cbn [forM]. rewrite bind_unfold, bind_cons.
  destruct (fetch_batch_calls e subset_df w) as (r1 & evs1 & -> & Hpre1 & Hok1).
  destruct r1 as [y|err].
  - rewrite (Hok1 y eq_refl). rewrite bind_unfold.
    destruct (IH {| files := files w; trace := trace w ++ batch_calls e subset_df |})
      as (r2 & evs2 & -> & Hpre2 & Hok2). cbn [files trace].
    rewrite <- app_assoc.
    destruct r2 as [ys|err]; do 2 eexists; (split; [reflexivity|]).
    + split; [by apply prefix_app|]. intros _ _. f_equal. by eapply Hok2.
    + split; [by apply prefix_app|]. done.
  - do 2 eexists. split; [reflexivity|]. split; [|done].
    by apply prefix_app_r.
Qed.

(** X10. A run over all stations sends, batch after batch and in the
    order of the table, one data request and then one metadata request
    for the batch's triplets; it sends nothing else, stops at the first
    request that fails (no retry, no later batch), touches no file, and
    when it returns its frames every batch has had both requests. *)
Theorem fetch_all_requests e w subsets :
  batches (snotel_meta_df e) (max_call_ids e) = Ok subsets →
  ∃ r evs,
    fetch_all e w = (r, {| files := files w; trace := trace w ++ evs |})
    ∧ evs `prefix_of` (subsets ≫= batch_calls e)
    ∧ (∀ frames, r = Ok frames → evs = subsets ≫= batch_calls e).
Proof.
  intros Hbatches. unfold fetch_all.
  erewrite bind_Ok by (unfold lift; by rewrite Hbatches).
  rewrite bind_unfold.
  destruct (forM_batch_calls e subsets w) as (r & evs & -> & Hpre & Hok).
  destruct r as [calls|err].
  - specialize (Hok calls eq_refl).
    unfold lift, mbind, M_bind.
    destruct (pd_concat (calls.*1)); [destruct (pd_concat (calls.*2))|];
      do 2 eexists; (split; [reflexivity|]); by split.
  - do 2 eexists. split; [reflexivity|]. by split.
Qed.

Lemma fetch_all_requests_witness :
  ∃ r,
    fetch_all sample_hourly_env empty_world
    = (r, {| files := ∅;
             trace := [GetData "1107:WA:SNTL" "WTEQ" "HOURLY" "-3";
                       GetMeta "1107:WA:SNTL"] |})
    ∧ ∃ frames, r = Ok frames.
Proof.
  destruct (fetch_all_requests sample_hourly_env empty_world [[sample_station]] eq_refl)
    as (r & evs & Hrun & _ & Hok).
  exists r. assert (Hr : ∃ frames, r = Ok frames).
  { vm_compute in Hrun. injection Hrun as <- _. by eexists. }
  split; [|exact Hr]. destruct Hr as [frames ->].
  rewrite Hrun, (Hok frames eq_refl). reflexivity.
Defined.

(** ** Failures while fetching *)

(** X11. When the loop over the station table has nothing to iterate (an
    empty table, or a negative batch limit), a run over all stations
    sends no request at all and ends with the [ValueError] of
    [pd.concat] on an empty list. *)
Theorem no_batches_no_requests e w :
  locid (arg_vals e) = "all" →
  batches (snotel_meta_df e) (max_call_ids e) = Ok [] →
  main e w
  = (Err (ValueError "No objects to concatenate"),
     {| files := files w; trace := trace w ++ [Log "scraping started"] |}).
Proof.
  intros Hall Hbatches. unfold main.
  erewrite bind_Err; [reflexivity|].
  unfold main_fetch. erewrite bind_Ok by reflexivity.
  rewrite decide_True by done.
  apply bind_Err, bind_Err. unfold fetch_all.
  erewrite bind_Ok by (unfold lift; by rewrite Hbatches).
  reflexivity.
Qed.

Lemma no_batches_no_requests_witness :
  main (env_with "all" [] (Ok (sample_reply "WTEQ" sample_values)) (Ok [sample_meta]))
       empty_world
  = (Err (ValueError "No objects to concatenate"),
     {| files := ∅; trace := [Log "scraping started"] |}).
Proof.
  apply (no_batches_no_requests
           (env_with "all" [] (Ok (sample_reply "WTEQ" sample_values)) (Ok [sample_meta]))
           empty_world); reflexivity.
Defined.

Lemma get_data_result e ts p d b w w0 :
  (get_data e ts p d b w).1 = (get_data e ts p d b w0).1.
Proof.
  unfold get_data.
  erewrite (bind_Ok _ _ w) by reflexivity. erewrite (bind_Ok _ _ w0) by reflexivity.
  unfold lift, mbind, M_bind.
  destruct (service_data e _ _ _ _) as [[|js stations]|err]; [done| |done].
  cbn [pd_concat fmap list_fmap]. by destruct (forallb _ _).
Qed.

Lemma fetch_batch_world e subset_df w :
  ∃ r evs,
    fetch_batch e subset_df w = (r, {| files := files w; trace := trace w ++ evs |})
    ∧ (∀ x, r = Ok x → evs = batch_calls e subset_df).
Proof.
  destruct (fetch_batch_calls e subset_df w) as (r & evs & Hrun & _ & Hok).
  by exists r, evs.
Qed.

Lemma forM_fetch_batch_fails e (earlier : list (list station_row)) subset_df rest
    err evs w :
  Forall (batch_answered e) earlier →
  (∀ w0, fetch_batch e subset_df w0
         = (Err err, {| files := files w0; trace := trace w0 ++ evs |})) →
  forM (fetch_batch e) (earlier ++ subset_df :: rest) w
  = (Err err, {| files := files w;
                 trace := trace w ++ (earlier ≫= batch_calls e) ++ evs |}).
Proof.
  intros Hearlier Hfail. revert w.
  induction Hearlier as [|s earlier Hs _ IH]; intros w.
  - cbn [app forM]. apply bind_Err. by rewrite Hfail.
  - cbn [app forM]. rewrite bind_unfold, bind_cons.
    destruct (fetch_batch_world e s w) as (r & evs1 & Hrun & Hok).
    destruct (Hs w) as [frames Hframes]. rewrite Hrun in Hframes. simpl in Hframes.
    subst r. rewrite Hrun, (Hok frames eq_refl).
    erewrite bind_Err; [|apply IH]. cbn [files trace].
    by rewrite <- !app_assoc.
Qed.

(** X12. Over all stations a failed request is not handled, in whatever
    batch it happens: when the batches before it were answered, the run
    ends with the very error that the data request, or the metadata
    request after an answered data request, raised; the requests sent are
    those of the earlier batches and the ones of this batch up to the
    failure, and no file is touched. *)
Theorem all_stations_failure_propagates e w earlier subset_df rest err :
  locid (arg_vals e) = "all" →
  batches (snotel_meta_df e) (max_call_ids e) = Ok (earlier ++ subset_df :: rest) →
  Forall (batch_answered e) earlier →
  let a := arg_vals e in
  let stationTriplets := join_comma (triplet_of <$> subset_df) in
  let data_request := GetData stationTriplets (params a) (duration a) ("-" +:+ back a) in
  let sent := Log "scraping started" :: (earlier ≫= batch_calls e) in
  (service_data e stationTriplets (params a) (duration a) ("-" +:+ back a) = Err err →
   main e w
   = (Err err, {| files := files w; trace := trace w ++ sent ++ [data_request] |}))
  ∧ (∀ frames,
       (get_data e (triplet_of <$> subset_df) (params a) (duration a) (back a) w).1
         = Ok frames →
       service_meta e stationTriplets = Err err →
       main e w
       = (Err err, {| files := files w;
                      trace := trace w ++ sent ++ [data_request; GetMeta stationTriplets] |})).
Proof.
  intros Hall Hbatches Hearlier a stationTriplets data_request sent.
  assert (Hmain : ∀ evs,
            (∀ w0, fetch_batch e subset_df w0
                   = (Err err, {| files := files w0; trace := trace w0 ++ evs |})) →
            main e w
            = (Err err, {| files := files w; trace := trace w ++ sent ++ evs |})).
  { intros evs Hfail. unfold main.
    erewrite bind_Err; [reflexivity|].
    unfold main_fetch. erewrite bind_Ok by reflexivity.
    rewrite decide_True by done.
    apply bind_Err, bind_Err. unfold fetch_all.
    erewrite bind_Ok by (unfold lift; by rewrite Hbatches).
    apply bind_Err.
    change (forM _ (earlier ++ subset_df :: rest))
      with (forM (fetch_batch e) (earlier ++ subset_df :: rest)).
    rewrite (forM_fetch_batch_fails e earlier subset_df rest err evs _ Hearlier Hfail).
    cbn [files trace]. unfold sent. by rewrite <- !app_assoc. }
  split.
  - intros Hdown. apply (Hmain [data_request]). intros w0.
    unfold fetch_batch. apply bind_Err.
    unfold get_data. erewrite bind_Ok by reflexivity.
    apply bind_Err. unfold lift. fold a stationTriplets. by rewrite Hdown.
  - intros frames Hdata Hdown. apply (Hmain [data_request; GetMeta stationTriplets]).
    intros w0. unfold fetch_batch. cbn zeta. rewrite bind_unfold.
    assert (Hd := get_data_world e (triplet_of <$> subset_df) (params a) (duration a)
                    (back a) w0).
    assert (Hres := get_data_result e (triplet_of <$> subset_df) (params a) (duration a)
                      (back a) w0 w).
    rewrite Hdata in Hres. unfold a in *.
    destruct (get_data e _ _ _ _ w0) as [r w1]. simpl in Hd, Hres. subst r w1.
    apply bind_Err. unfold get_meta. erewrite bind_Ok by reflexivity.
    apply bind_Err. unfold lift. unfold stationTriplets in Hdown. rewrite Hdown.
    cbn [files trace]. by rewrite <- app_assoc.
Qed.

Lemma all_stations_failure_propagates_witness :
  main env_second_down empty_world
  = (Err outage,
     {| files := ∅;
        trace := [Log "scraping started";
                  GetData "1107:WA:SNTL" "WTEQ" "HOURLY" "-3"; GetMeta "1107:WA:SNTL";
                  GetData "515:ID:SNTL" "WTEQ" "HOURLY" "-3"] |}).
Proof.
  destruct (all_stations_failure_propagates env_second_down empty_world
              [[sample_station]] [second_station] [] outage) as [Hdata _].
  - reflexivity.
  - reflexivity.
  - constructor; [|constructor]. intros w. eexists. reflexivity.
  - by apply Hdata.
Defined.

(** X13. For a single station every error raised inside the [try] is
    swallowed, whatever it is and whether or not the selector matches a
    station: the message about the LID is logged, and the run then ends
    with [UnboundLocalError] for the first frame that was not bound, not
    with the error that was raised. *)
Theorem single_station_failure_masked e w :
  locid (arg_vals e) ≠ "all" →
  let a := arg_vals e in
  let triplet_str :=
    triplet_of <$> filter (λ r, ShefId r = locid a) (snotel_meta_df e) in
  let started := {| files := files w; trace := trace w ++ [Log "scraping started"] |} in
  let logged w' :=
    {| files := files w';
       trace := trace w' ++ [Log "improper character length for LID";
                             Log "scraping completed"] |} in
  (∀ err w1,
     get_data e triplet_str (params a) (duration a) (back a) started = (Err err, w1) →
     main e w = (Err (UnboundLocalError "all_data_df"), logged w1))
  ∧ (∀ d w1 err w2,
       get_data e triplet_str (params a) (duration a) (back a) started = (Ok d, w1) →
       get_meta e triplet_str w1 = (Err err, w2) →
       main e w = (Err (UnboundLocalError "all_meta_df"), logged w2)).
Proof.
  intros Hloc a triplet_str started logged. split.
  - intros err w1 Hdata. unfold main.
    erewrite bind_Ok; last first.
    { unfold main_fetch. erewrite bind_Ok by reflexivity.
      rewrite decide_False by done.
      erewrite bind_Ok; last first.
      { unfold fetch_one. fold a triplet_str.
        erewrite bind_Ok by (unfold try_step; fold started; by rewrite Hdata).
        reflexivity. }
      reflexivity. }
    unfold logged. simpl. by rewrite <- !app_assoc.
  - intros d w1 err w2 Hdata Hmeta. unfold main.
    erewrite bind_Ok; last first.
    { unfold main_fetch. erewrite bind_Ok by reflexivity.
      rewrite decide_False by done.
      erewrite bind_Ok; last first.
      { unfold fetch_one. fold a triplet_str.
        erewrite bind_Ok by (unfold try_step; fold started; by rewrite Hdata).
        cbv beta iota.
        erewrite bind_Ok by (unfold try_step; by rewrite Hmeta).
        reflexivity. }
      reflexivity. }
    unfold logged. simpl. by rewrite <- !app_assoc.
Qed.

Lemma single_station_failure_masked_witness :
  main (env_with "CLJW1" [sample_station] (Ok (sample_reply "WTEQ" sample_values))
          (Err outage)) empty_world
  = (Err (UnboundLocalError "all_meta_df"),
     {| files := ∅;
        trace := [Log "scraping started"; GetData "1107:WA:SNTL" "WTEQ" "HOURLY" "-3";
                  GetMeta "1107:WA:SNTL"; Log "improper character length for LID";
                  Log "scraping completed"] |}).
Proof.
  destruct (single_station_failure_masked
              (env_with "CLJW1" [sample_station] (Ok (sample_reply "WTEQ" sample_values))
                 (Err outage)) empty_world) as [_ Hmeta]; [discriminate|].
  apply (Hmeta _ _ outage _ eq_refl eq_refl).
Defined.

(** ** The header rows *)

Lemma has_eol_app (a b : string) : has_eol (a +:+ b) = has_eol a || has_eol b.
Proof.
  induction a as [|c a IH]; [done|].
  rewrite append_cons. cbn [has_eol]. by rewrite IH, orb_assoc.
Qed.

Lemma pretty_N_char_not_lf (x : N) : pretty_N_char x ≠ newline.
Proof. unfold pretty_N_char. by repeat case_match. Qed.

Lemma pretty_N_char_not_cr (x : N) : pretty_N_char x ≠ cr.
Proof. unfold pretty_N_char. by repeat case_match. Qed.

Lemma has_eol_pretty_N_go (x : N) (s : string) :
  has_eol (pretty_N_go x s) = has_eol s.
Proof.
  revert s. induction (N.lt_wf_0 x) as [x _ IH]. intros s.
  destruct (decide (x = 0)%N) as [->|Hx]; [by rewrite pretty_N_go_0|].
  rewrite pretty_N_go_step by lia.
  rewrite IH by (apply N.div_lt; lia).
  cbn [has_eol].
  rewrite (bool_decide_eq_false_2 (_ = newline)) by apply pretty_N_char_not_lf.
  by rewrite (bool_decide_eq_false_2 (_ = cr)) by apply pretty_N_char_not_cr.
Qed.

Lemma has_eol_pretty_N (x : N) : has_eol (pretty x) = false.
Proof.
  unfold pretty, pretty_N. destruct (decide (x = 0)%N); [done|].
  apply has_eol_pretty_N_go.
Qed.

Lemma has_eol_pretty_Z (z : Z) : has_eol (pretty z) = false.
Proof.
  destruct z as [|p|p]; [done|apply (has_eol_pretty_N (N.pos p))|].
  change (pretty (Z.neg p)) with ("-" +:+ pretty (N.pos p)).
  rewrite has_eol_app. apply (has_eol_pretty_N (N.pos p)).
Qed.

Lemma has_eol_pad2 (n : Z) : has_eol (pad2 n) = false.
Proof.
  unfold pad2. destruct (decide _); [|apply has_eol_pretty_Z].
  rewrite has_eol_app. apply has_eol_pretty_Z.
Qed.

Lemma has_eol_strftime_dHM (t : Z) : has_eol (strftime_dHM t) = false.
Proof. unfold strftime_dHM. by rewrite !has_eol_app, !has_eol_pad2. Qed.

Lemma readlines_shef_header (t : Z) (rest : string) :
  readlines (shef_header t +:+ rest)
  = [("TTAA00 KPTR " +:+ strftime_dHM t) +:+ lf; product_id +:+ lf] ++ readlines rest.
Proof.
  unfold shef_header.
  replace (("TTAA00 KPTR " +:+ strftime_dHM t +:+ lf +:+ product_id +:+ lf) +:+ rest)
    with ((("TTAA00 KPTR " +:+ strftime_dHM t) +:+ lf)
            +:+ ((product_id +:+ lf) +:+ rest))
    by (by rewrite !append_assoc).
  rewrite readlines_terminated
    by (rewrite has_eol_app, has_eol_strftime_dHM; reflexivity).
  by rewrite readlines_terminated by reflexivity.
Qed.

Lemma readlines_csv_header (rest : string) :
  readlines (csv_header +:+ rest) = [csv_header] ++ readlines rest.
Proof.
  change csv_header with ("shefId,utcTime,PE,value,duration" +:+ lf).
  by rewrite readlines_terminated by reflexivity.
Qed.

(** The header that [main] writes for a supported format has exactly the
    rows that [write_new_lines] skips, all different. *)
Lemma header_rows out_fmt n (t : Z) :
  start_row out_fmt = Some n →
  ∃ rows,
    (∀ rest, readlines ((if decide (out_fmt = "shef") then shef_header t else csv_header)
                          +:+ rest) = rows ++ readlines rest)
    ∧ length rows = n
    ∧ NoDup rows.
Proof.
  intros [[-> ->]|[-> ->]]%start_row_cases.
  - rewrite decide_False by done. exists [csv_header].
    split; [apply readlines_csv_header|]. split; [done|apply NoDup_singleton].
  - rewrite decide_True by done. eexists.
    split; [apply readlines_shef_header|]. split; [done|].
    apply NoDup_cons. split; [|apply NoDup_singleton].
    rewrite list_elem_of_singleton. by intros [=].
Qed.

(** ** What the encoder does to the world *)

Lemma main_encode_world e final_df w :
  main_encode e final_df w
  = if decide (out_fmt e = "csv")
    then (Ok (), {| files := <[new_fullfn e := to_csv (duration (arg_vals e)) final_df]> (files w);
                    trace := trace w |})
    else
      let header := if decide (out_fmt e = "shef") then shef_header (utc_now e) else "" in
      match join_out_lines (out_line (duration (arg_vals e)) <$> final_df) with
      | Ok text => (Ok (), {| files := <[new_fullfn e := header +:+ text]> (files w);
                              trace := trace w |})
      | Err err => (Err err, {| files := <[new_fullfn e := header]> (files w);
                                trace := trace w |})
      end.
Proof.
  unfold main_encode. destruct (decide (out_fmt e = "csv")); [done|].
  unfold write_header. erewrite bind_Ok by reflexivity.
  unfold lift. rewrite bind_unfold.
  destruct (join_out_lines _) as [text|err]; cbn [files trace].
  - unfold append_text. cbn [files trace].
    rewrite lookup_insert_eq, insert_insert_eq. cbn [default].
    destruct (decide (out_fmt e = "shef")); [done|].
    by rewrite decide_False by done.
  - destruct (decide (out_fmt e = "shef")); [done|].
    by rewrite decide_False by done.
Qed.

(** X14. The encoder touches no file but the new snapshot and logs
    nothing.  On the csv branch it returns.  On the bulletin branch a
    record without PE makes it raise [TypeError] with only the header in
    the new snapshot; when every record has its line, it returns, and for
    shef the snapshot is then the header followed by the lines joined
    with line feeds, so that the last line has none. *)
Theorem main_encode_outcome e final_df w :
  (∀ path, path ≠ new_fullfn e →
     files (main_encode e final_df w).2 !! path = files w !! path)
  ∧ trace (main_encode e final_df w).2 = trace w
  ∧ (out_fmt e = "csv" → (main_encode e final_df w).1 = Ok ())
  ∧ (out_fmt e ≠ "csv" →
     ∀ r, r ∈ final_df → f_PE r = None →
       (main_encode e final_df w).1
       = Err (TypeError "sequence item: expected str instance, float found")
       ∧ files (main_encode e final_df w).2 !! new_fullfn e
         = Some (if decide (out_fmt e = "shef") then shef_header (utc_now e) else ""))
  ∧ (out_fmt e = "shef" →
     ∀ lines, out_line (duration (arg_vals e)) <$> final_df = Some <$> lines →
       (main_encode e final_df w).1 = Ok ()
       ∧ files (main_encode e final_df w).2 !! new_fullfn e
         = Some (shef_header (utc_now e) +:+ join_lines lines)).
Proof.
  rewrite main_encode_world.
  destruct (decide (out_fmt e = "csv")) as [Hcsv|Hcsv].
  { split; [intros path Hne; cbn [files snd]; by rewrite lookup_insert_ne|].
    split; [done|]. split; [done|]. split; [done|]. intros Hshef. congruence. }
  cbn zeta.
  split.
  { intros path Hne. destruct (join_out_lines _); cbn [files snd];
      by rewrite lookup_insert_ne. }
  split; [by destruct (join_out_lines _)|].
  split; [done|]. split.
  - intros _ r Hin HPE. rewrite join_out_lines_None.
    + cbn [fst snd files]. by rewrite lookup_insert_eq.
    + apply list_elem_of_fmap. exists r. by rewrite out_line_unset_PE.
  - intros Hshef lines Hlines. rewrite Hlines. unfold join_out_lines.
    rewrite (mapR_Ok _ (default "")) by by apply Forall_fmap, Forall_forall.
    rewrite <- list_fmap_compose, (list_fmap_ext _ id lines), list_fmap_id by done.
    cbn [fst snd files]. by rewrite lookup_insert_eq, decide_True.
Qed.

Lemma main_encode_outcome_witness :
  (main_encode sample_hourly_env [sample_record] empty_world).1 = Ok ()
  ∧ files (main_encode sample_hourly_env [sample_record] empty_world).2
      !! new_fullfn sample_hourly_env
    = Some (shef_header (utc_now sample_hourly_env) +:+ line_1300).
Proof.
  destruct (main_encode_outcome sample_hourly_env [sample_record] empty_world)
    as (_ & _ & _ & _ & Htext).
  apply (Htext eq_refl [line_1300]). reflexivity.
Defined.

(** ** What gets published *)

Lemma dedup_loop_agree (seen seen' : gset string) (lines : list string) :
  (∀ x, x ∈ lines → x ∈ seen ↔ x ∈ seen') →
  dedup_loop seen lines = dedup_loop seen' lines.
Proof.
  revert seen seen'. induction lines as [|line rest IH]; intros seen seen' Hagree; [done|].
  cbn [dedup_loop].
  assert (Hline : line ∈ seen ↔ line ∈ seen') by (apply Hagree; by left).
  assert (Hrest : ∀ s s' : gset string,
            (∀ x, x ∈ rest → x ∈ s ↔ x ∈ s') → dedup_loop s rest = dedup_loop s' rest)
    by (intros; by apply IH).
  destruct (decide (line ∉ seen)) as [Hnew|Hold].
  - rewrite decide_True by (by rewrite <- Hline).
    f_equal. apply Hrest. intros x Hx.
    rewrite !elem_of_union, !elem_of_singleton.
    assert (x ∈ seen ↔ x ∈ seen') by (apply Hagree; by right). tauto.
  - rewrite decide_False by (by rewrite <- Hline).
    apply Hrest. intros x Hx. apply Hagree. by right.
Qed.

Lemma dedup_lines_fresh_prefix (rows lines : list string) :
  NoDup rows → Forall (λ h, h ∉ lines) rows →
  dedup_lines (rows ++ lines) = rows ++ dedup_lines lines.
Proof.
  intros Hnd Hfresh. unfold dedup_lines.
  cut (∀ seen : gset string,
         (∀ x, x ∈ rows ++ lines → x ∉ seen) →
         dedup_loop seen (rows ++ lines) = rows ++ dedup_loop ∅ lines).
  { intros Hcut. apply Hcut. intros x _. apply not_elem_of_empty. }
  induction Hnd as [|h rows Hh Hnd IH]; intros seen Hseen.
  - simpl. apply dedup_loop_agree. intros x Hx.
    split; [by intros ?%Hseen|by intros ?%not_elem_of_empty].
  - apply Forall_cons in Hfresh as [Hhl Hfresh].
    cbn [app dedup_loop]. rewrite decide_True by (apply Hseen; by left).
    f_equal. apply IH; [done|]. intros x Hx.
    rewrite not_elem_of_union, not_elem_of_singleton. split.
    + intros ->. apply elem_of_app in Hx as [?|?]; done.
    + apply Hseen. by right.
Qed.

(** X15. With no last snapshot the published file is the new snapshot,
    header included, less its repeated lines.  When no line occurs twice
    in the new snapshot the published file is its text with line ends
    translated to line feeds, hence the new snapshot itself, byte for
    byte, when it holds no carriage return.  The new snapshot also becomes
    the last one.  This holds for every format. *)
Theorem first_run_publishes_snapshot e w new_text :
  files w !! new_fullfn e = Some new_text →
  files w !! last_fullfn e = None →
  ∃ w',
    main_publish e w = (Ok (), w')
    ∧ (readlines <$> files w' !! final_out_fullfn e)
      = Some (dedup_lines (readlines new_text))
    ∧ (NoDup (readlines new_text) →
       files w' !! final_out_fullfn e = Some (universal_newlines new_text)
       ∧ (has_cr new_text = false → files w' !! final_out_fullfn e = Some new_text))
    ∧ files w' !! last_fullfn e = Some new_text.
Proof.
  intros Hnew Hlast.
  rewrite (main_publish_no_baseline e w new_text Hnew Hlast).
  eexists. split; [reflexivity|]. cbn [files].
  assert (Hpub : ∀ m : gmap string string,
            <[last_fullfn e := new_text]>
              (delete (final_out_fullfn e +:+ ".tmp")
                 (<[final_out_fullfn e := write_all (dedup_lines (readlines new_text))]> m))
              !! final_out_fullfn e
            = Some (write_all (dedup_lines (readlines new_text)))).
  { intros m. rewrite lookup_insert_ne by (symmetry; apply final_ne_last).
    rewrite lookup_delete_ne by apply tmp_ne. apply lookup_insert_eq. }
  rewrite Hpub. split; [|split].
  - simpl. f_equal. apply readlines_write_all.
    eapply lines_ok_sublist; [apply dedup_loop_sublist|apply readlines_ok].
  - intros Hnd. rewrite dedup_lines_NoDup_id, write_all_readlines by done.
    split; [done|]. intros Hcr. by rewrite universal_newlines_no_cr.
  - apply lookup_insert_eq.
Qed.

Lemma first_run_publishes_snapshot_witness :
  ∃ w',
    main_publish sample_hourly_env
      {| files := {[new_fullfn sample_hourly_env := sample_snapshot [line_1300]]};
         trace := [] |} = (Ok (), w')
    ∧ files w' !! final_out_fullfn sample_hourly_env = Some (sample_snapshot [line_1300]).
Proof.
  destruct (first_run_publishes_snapshot sample_hourly_env
              {| files := {[new_fullfn sample_hourly_env := sample_snapshot [line_1300]]};
                 trace := [] |}
              (sample_snapshot [line_1300]))
    as (w' & Hrun & _ & Hsame & _); [by vm_compute..|].
  exists w'. split; [exact Hrun|]. apply Hsame; [|reflexivity].
  apply (bool_decide_unpack _). by vm_compute.
Defined.

(** X16. With a baseline and at least two kept lines, the published file
    holds the header rows of the format (as many as the differ skips)
    and then the kept lines, each once and in their order, provided no
    kept line is the text of a header row. *)
Theorem published_delta_lines e w n new_text last_text :
  start_row (out_fmt e) = Some n →
  files w !! new_fullfn e = Some new_text →
  files w !! last_fullfn e = Some last_text →
  let diff := diff_lines (drop n (readlines new_text)) (drop n (readlines last_text)) in
  let header := if decide (out_fmt e = "shef") then shef_header (utc_now e)
                else csv_header in
  1 < length diff →
  Forall (λ h, h ∉ diff) (readlines header) →
  length (readlines header) = n
  ∧ ∃ w',
      main_publish e w = (Ok (), w')
      ∧ (readlines <$> files w' !! final_out_fullfn e)
        = Some (readlines header ++ dedup_lines diff).
Proof.
  intros Hfmt Hnew Hlast diff header Hmany Hfresh.
  destruct (header_rows (out_fmt e) n (utc_now e) Hfmt) as (rows & Hrows & Hlen & Hnd).
  fold header in Hrows.
  assert (Hheader : readlines header = rows).
  { specialize (Hrows ""). by rewrite append_empty_r, app_nil_r in Hrows. }
  rewrite Hheader in *. split; [done|].
  rewrite (main_publish_baseline e w n new_text last_text Hfmt Hnew Hlast).
  fold diff header. rewrite decide_True by done.
  eexists. split; [reflexivity|]. cbn [files].
  rewrite lookup_insert_ne by (symmetry; apply final_ne_last).
  rewrite lookup_delete_ne by apply tmp_ne.
  rewrite lookup_insert_eq. simpl. f_equal.
  assert (Hdiff : lines_ok diff).
  { eapply lines_ok_sublist; [|apply (readlines_ok new_text)].
    etrans; [apply sublist_filter|apply sublist_drop]. }
  rewrite readlines_write_all
    by (eapply lines_ok_sublist; [apply dedup_loop_sublist|apply readlines_ok]).
  rewrite Hrows, (readlines_write_all diff Hdiff).
  by apply dedup_lines_fresh_prefix.
Qed.

Lemma published_delta_lines_witness :
  ∃ w',
    main_publish sample_hourly_env
      (sample_world [line_1300 +:+ lf; line_1400 +:+ lf; line_1500] [line_1300]) = (Ok (), w')
    ∧ (readlines <$> files w' !! final_out_fullfn sample_hourly_env)
      = Some (readlines (shef_header (utc_now sample_hourly_env))
                ++ [line_1300 +:+ lf; line_1400 +:+ lf; line_1500]).
Proof.
  destruct (published_delta_lines sample_hourly_env
              (sample_world [line_1300 +:+ lf; line_1400 +:+ lf; line_1500] [line_1300]) 2
              (sample_snapshot [line_1300 +:+ lf; line_1400 +:+ lf; line_1500])
              (sample_snapshot [line_1300]) eq_refl eq_refl eq_refl)
    as (_ & w' & Hrun & Hlines).
  - vm_compute. lia.
  - apply (bool_decide_unpack _). by vm_compute.
  - exists w'. split; [exact Hrun | exact Hlines].
Defined.

(** ** Two runs in a row *)

Lemma main_publish_promotes e w n new_text :
  start_row (out_fmt e) = Some n →
  files w !! new_fullfn e = Some new_text →
  ∃ w', main_publish e w = (Ok (), w')
        ∧ files w' !! last_fullfn e = Some new_text
        ∧ files w' !! new_fullfn e = Some new_text.
Proof.
  intros Hfmt Hnew.
  destruct (files w !! last_fullfn e) as [last_text|] eqn:Hlast.
  - rewrite (main_publish_baseline e w n new_text last_text Hfmt Hnew Hlast).
    destruct (decide (1 < length _)); eexists; (split; [reflexivity|]); cbn [files];
      (split; [apply lookup_insert_eq|]);
      rewrite lookup_insert_ne by (symmetry; apply new_ne_last).
    + rewrite lookup_delete_ne by apply tmp_ne_new.
      by rewrite !lookup_insert_ne by (apply final_ne_new || apply tmp_ne_new).
    + rewrite lookup_delete_ne by apply final_ne_new.
      by rewrite lookup_insert_ne by apply final_ne_new.
  - rewrite (main_publish_no_baseline e w new_text Hnew Hlast).
    eexists. split; [reflexivity|]. cbn [files].
    split; [apply lookup_insert_eq|].
    rewrite lookup_insert_ne by (symmetry; apply new_ne_last).
    rewrite lookup_delete_ne by apply tmp_ne_new.
    by rewrite !lookup_insert_ne by (apply final_ne_new || apply tmp_ne_new).
Qed.

Lemma main_encode_supported e final_df w n :
  start_row (out_fmt e) = Some n →
  let header := if decide (out_fmt e = "shef") then shef_header (utc_now e)
                else csv_header in
  let body := if decide (out_fmt e = "csv")
              then Ok (write_all (csv_row (duration (arg_vals e)) <$> final_df))
              else join_out_lines (out_line (duration (arg_vals e)) <$> final_df) in
  main_encode e final_df w
  = match body with
    | Ok text => (Ok (), {| files := <[new_fullfn e := header +:+ text]> (files w);
                            trace := trace w |})
    | Err err => (Err err, {| files := <[new_fullfn e := header]> (files w);
                              trace := trace w |})
    end.
Proof.
  intros Hfmt header body. rewrite main_encode_world. subst header body.
  apply start_row_cases in Hfmt as [[Hcsv _]|[Hshef _]].
  - rewrite Hcsv. rewrite !(decide_True (P := "csv" = "csv")) by done.
    by rewrite !(decide_False (P := "csv" = "shef")) by done.
  - rewrite Hshef. rewrite !(decide_False (P := "shef" = "csv")) by done.
    by rewrite !(decide_True (P := "shef" = "shef")) by done.
Qed.

Lemma body_after_header out_fmt n (t : Z) (body : string) :
  start_row out_fmt = Some n →
  drop n (readlines ((if decide (out_fmt = "shef") then shef_header t else csv_header)
                       +:+ body))
  = readlines body.
Proof.
  intros Hfmt. destruct (header_rows out_fmt n t Hfmt) as (rows & -> & <- & _).
  by rewrite drop_app_length.
Qed.

(** X17. Encoding the same records twice in a row publishes nothing the
    second time: after a run that completed, a run with the same format
    and duration class over the same records (at whatever time) keeps no
    line, leaves no published file, and ends with the last snapshot
    equal to the new one. *)
Theorem unchanged_records_publish_nothing e1 e2 final_df w w1 n :
  start_row (out_fmt e1) = Some n →
  out_fmt e2 = out_fmt e1 →
  duration (arg_vals e2) = duration (arg_vals e1) →
  (main_encode e1 final_df;; main_publish e1) w = (Ok (), w1) →
  ∃ w2,
    (main_encode e2 final_df;; main_publish e2) w1 = (Ok (), w2)
    ∧ files w2 !! final_out_fullfn e2 = None
    ∧ files w2 !! last_fullfn e2 = files w2 !! new_fullfn e2
    ∧ is_Some (files w2 !! new_fullfn e2).
Proof.
  intros Hfmt1 Hfmt Hdur Hrun1.
  assert (Hfmt2 : start_row (out_fmt e2) = Some n) by by rewrite Hfmt.
  assert (Hnewfn : new_fullfn e2 = new_fullfn e1)
    by (unfold new_fullfn, new_fn; by rewrite Hfmt, Hdur).
  assert (Hlastfn : last_fullfn e2 = last_fullfn e1)
    by (unfold last_fullfn, last_fn; by rewrite Hfmt, Hdur).
  rewrite bind_unfold, (main_encode_supported e1 final_df w n Hfmt1) in Hrun1.
  rewrite bind_unfold, (main_encode_supported e2 final_df w1 n Hfmt2).
  rewrite Hfmt, Hdur. cbn zeta in *.
  destruct (if decide (out_fmt e1 = "csv") then _ else _) as [body|err]; [|done].
  set (header1 := if decide (out_fmt e1 = "shef") then shef_header (utc_now e1)
                  else csv_header) in *.
  set (header2 := if decide (out_fmt e1 = "shef") then shef_header (utc_now e2)
                  else csv_header).
  destruct (main_publish_promotes e1
              {| files := <[new_fullfn e1 := header1 +:+ body]> (files w);
                 trace := trace w |} n (header1 +:+ body) Hfmt1)
    as (w1' & Hpub1 & Hlast1 & _); [apply lookup_insert_eq|].
  rewrite Hpub1 in Hrun1. injection Hrun1 as ->.
  erewrite (main_publish_baseline e2 _ n (header2 +:+ body) (header1 +:+ body) Hfmt2);
    cbn [files]; first last.
  { rewrite lookup_insert_ne by (rewrite Hnewfn, Hlastfn; apply new_ne_last).
    by rewrite Hlastfn. }
  { apply lookup_insert_eq. }
  unfold header1, header2.
  rewrite (body_after_header (out_fmt e1) n (utc_now e2) body Hfmt1).
  rewrite (body_after_header (out_fmt e1) n (utc_now e1) body Hfmt1).
  rewrite diff_lines_self. rewrite decide_False by (simpl; lia).
  eexists. split; [reflexivity|]. cbn [files].
  split; [|split].
  - rewrite lookup_insert_ne by (symmetry; apply final_ne_last).
    apply lookup_delete_eq.
  - rewrite lookup_insert_eq.
    rewrite lookup_insert_ne by (symmetry; apply new_ne_last).
    rewrite lookup_delete_ne by apply final_ne_new.
    rewrite lookup_insert_ne by apply final_ne_new.
    by rewrite lookup_insert_eq.
  - rewrite lookup_insert_ne by (symmetry; apply new_ne_last).
    rewrite lookup_delete_ne by apply final_ne_new.
    rewrite lookup_insert_ne by apply final_ne_new.
    rewrite lookup_insert_eq. by eexists.
Qed.

Lemma unchanged_records_publish_nothing_witness :
  let w1 := ((main_encode env_run1 [sample_record];; main_publish env_run1) empty_world).2 in
  ∃ w2,
    (main_encode env_run2 [sample_record];; main_publish env_run2) w1 = (Ok (), w2)
    ∧ files w2 !! final_out_fullfn env_run2 = None.
Proof.
  intros w1.
  destruct (unchanged_records_publish_nothing env_run1 env_run2 [sample_record]
              empty_world w1 2 eq_refl eq_refl eq_refl) as (w2 & Hrun2 & Hnone & _).
  - by vm_compute.
  - exists w2. split; [exact Hrun2 | exact Hnone].
Defined.

(** ** The last line of a bulletin snapshot *)

Lemma join_lines_cons x y rest :
  join_lines (x :: y :: rest) = (x +:+ lf) +:+ join_lines (y :: rest).
Proof. cbn [join_lines]. by rewrite append_assoc. Qed.

Lemma readlines_join_lines (init : list string) (l : string) :
  Forall (λ s, has_eol s = false) init → open_line l →
  readlines (join_lines (init ++ [l])) = ((λ s, s +:+ lf) <$> init) ++ [l].
Proof.
  intros Hinit Hl. induction Hinit as [|x init Hx _ IH].
  - by apply readlines_open.
  - destruct init as [|y init].
    + cbn [app]. rewrite join_lines_cons, readlines_terminated by done.
      cbn [join_lines]. by rewrite readlines_open.
    + cbn [app] in *. rewrite join_lines_cons, readlines_terminated by done.
      by rewrite IH.
Qed.

Lemma append_lf_inj (s s' : string) : s +:+ lf = s' +:+ lf → s = s'.
Proof.
  revert s'. induction s as [|c s IH]; intros [|c' s']; rewrite ?append_cons.
  - done.
  - intros [= _ H]. by destruct s'.
  - intros [= _ H]. by destruct s.
  - intros [= -> H]. f_equal. by apply IH.
Qed.

Lemma has_eol_append_lf (s : string) : has_eol (s +:+ lf) = true.
Proof. rewrite has_eol_app. apply orb_true_r. Qed.

(** ** The lines the differ keeps between two bulletin snapshots *)

Lemma filter_all {A} (P : A → Prop) `{!∀ x, Decision (P x)} (l : list A) :
  Forall P l → filter P l = l.
Proof.
  induction 1 as [|x l Hx _ IH]; [done|].
  by rewrite filter_cons_True, IH.
Qed.

Lemma append_lf_open (s x : string) : has_eol x = false → s +:+ lf ≠ x.
Proof. intros Hx <-. by rewrite has_eol_append_lf in Hx. Qed.

Lemma append_lf_Inj : Inj (=) (=) (λ s : string, s +:+ lf).
Proof. intros s s'. apply append_lf_inj. Qed.

Lemma dedup_loop_app (seen : gset string) (a b : list string) :
  dedup_loop seen (a ++ b)
  = dedup_loop seen a ++ dedup_loop (list_to_set a ∪ seen) b.
Proof.
  revert seen. induction a as [|x a IH]; intros seen.
  - cbn [app dedup_loop]. apply dedup_loop_agree. intros y _. set_solver.
  - cbn [app dedup_loop]. destruct (decide (x ∉ seen)) as [Hnew|Hold].
    + cbn [app]. f_equal. rewrite IH. f_equal.
      apply dedup_loop_agree. intros y _. set_solver.
    + rewrite IH. f_equal. apply dec_stable in Hold.
      apply dedup_loop_agree. intros y _. set_solver.
Qed.

Lemma join_out_lines_fmap_Some (lines : list string) :
  join_out_lines (Some <$> lines) = Ok (join_lines lines).
Proof.
  unfold join_out_lines.
  rewrite (mapR_Ok _ (default "")) by by apply Forall_fmap, Forall_forall.
  rewrite <- list_fmap_compose.
  by rewrite (list_fmap_ext _ id lines), list_fmap_id by done.
Qed.

Lemma out_line_dotted dur r s : out_line dur r = Some s → dotted s.
Proof.
  destruct (f_PE r) as [pe|] eqn:Hpe.
  - rewrite (out_line_Some dur r pe Hpe). intros [= <-]. by eexists.
  - by rewrite out_line_unset_PE.
Qed.

Lemma out_lines_dotted dur (final_df : list final_row) (lines : list string) :
  out_line dur <$> final_df = Some <$> lines → Forall dotted lines.
Proof.
  revert final_df. induction lines as [|s lines IH]; intros [|r final_df]; try done.
  rewrite !fmap_cons. intros [= Hs Hrest].
  constructor; [by eapply out_line_dotted|by eapply IH].
Qed.

Lemma dotted_append s t : dotted s → dotted (s +:+ t).
Proof. intros [rest ->]. by eexists. Qed.

Lemma shef_header_rows_not_dotted (t : Z) :
  Forall (λ h, ¬ dotted h) (readlines (shef_header t)).
Proof.
  rewrite <- (append_empty_r (shef_header t)), readlines_shef_header.
  repeat constructor; by intros [rest [=]].
Qed.

(** The lines kept when the new bulletin body is the last one and more
    lines after it: the last line of the baseline, which the join of line
    291 left without a line feed, is in the new body with one. *)
Lemma diff_lines_extended_body (init more : list string) (l m : string) :
  Forall open_line (init ++ l :: more ++ [m]) →
  NoDup (init ++ l :: more ++ [m]) →
  diff_lines (readlines (join_lines (init ++ l :: more ++ [m])))
             (readlines (join_lines (init ++ [l])))
  = (l +:+ lf) :: ((λ s, s +:+ lf) <$> more) ++ [m].
Proof.
  intros Hopen Hnd.
  assert (Heol : Forall (λ s, has_eol s = false) (init ++ l :: more ++ [m]))
    by (eapply Forall_impl; [exact Hopen|]; by intros s [_ ?]).
  apply Forall_app in Hopen as [_ Hopen]. apply Forall_cons in Hopen as [Hl Hopen].
  apply Forall_app in Hopen as [_ Hm]. apply Forall_cons in Hm as [Hm _].
  apply Forall_app in Heol as [Hinit Heol]. apply Forall_cons in Heol as [Hl' Heol].
  apply Forall_app in Heol as [Hmore _].
  apply NoDup_app in Hnd as (_ & Hsep & Hnd). apply NoDup_cons in Hnd as [Hl_rest _].
  replace (init ++ l :: more ++ [m]) with ((init ++ l :: more) ++ [m])
    by (by rewrite <- app_assoc).
  assert (Hinit' : Forall (λ s, has_eol s = false) (init ++ l :: more))
    by (apply Forall_app; split; [done|by constructor]).
  rewrite (readlines_join_lines (init ++ l :: more) m Hinit' Hm).
  rewrite (readlines_join_lines init l Hinit Hl).
  rewrite fmap_app, fmap_cons, <- app_assoc. cbn [app].
  rewrite diff_lines_filter, filter_app.
  rewrite (filter_none (λ y, y ∉ ((λ s, s +:+ lf) <$> init) ++ [l])); last first.
  { apply Forall_fmap, Forall_forall. intros s Hs. simpl. intros Hout. apply Hout.
    apply elem_of_app. left. apply list_elem_of_fmap. by exists s. }
  cbn [app]. apply filter_all.
  assert (Hfresh : ∀ s, s ∈ l :: more →
            s +:+ lf ∉ ((λ s, s +:+ lf) <$> init) ++ [l]).
  { intros s Hs. rewrite elem_of_app, list_elem_of_singleton. intros [Hin|Heq].
    - apply list_elem_of_fmap in Hin as (s' & ->%append_lf_inj & Hin).
      apply (Hsep s' Hin). apply elem_of_cons in Hs as [->|Hs]; [by left|].
      right. apply elem_of_app. by left.
    - by apply (append_lf_open s l). }
  constructor; [apply Hfresh; by left|].
  apply Forall_app. split.
  - apply Forall_fmap, Forall_forall. intros s Hs. apply Hfresh. by right.
  - constructor; [|done].
    rewrite elem_of_app, list_elem_of_singleton. intros [Hin|Heq].
    + apply list_elem_of_fmap in Hin as (s & -> & _).
      destruct Hm as [_ Hm]. by rewrite has_eol_append_lf in Hm.
    + subst m. apply Hl_rest. apply elem_of_app. right. by left.
Qed.

Lemma kept_lines_NoDup (more : list string) (l m : string) :
  NoDup (l :: more ++ [m]) → has_eol m = false →
  NoDup ((l +:+ lf) :: ((λ s, s +:+ lf) <$> more) ++ [m]).
Proof.
  intros Hnd Hm.
  change ((l +:+ lf) :: ((λ s, s +:+ lf) <$> more) ++ [m])
    with (((λ s, s +:+ lf) <$> (l :: more)) ++ [m]).
  apply NoDup_app. split; [|split].
  - apply (@NoDup_fmap_2 _ _ _ append_lf_Inj). rewrite app_comm_cons in Hnd.
    by apply NoDup_app in Hnd as [? _].
  - intros x (s & -> & _)%list_elem_of_fmap Hin%list_elem_of_singleton.
    by apply (append_lf_open s m).
  - apply NoDup_singleton.
Qed.

Lemma body_after_shef_header (t : Z) (body : string) :
  drop 2 (readlines (shef_header t +:+ body)) = readlines body.
Proof. apply (body_after_header "shef" 2 t body eq_refl). Qed.

(** What a run with a baseline and at least two kept lines publishes. *)
Lemma main_publish_lines e w n new_text last_text :
  start_row (out_fmt e) = Some n →
  files w !! new_fullfn e = Some new_text →
  files w !! last_fullfn e = Some last_text →
  let diff := diff_lines (drop n (readlines new_text)) (drop n (readlines last_text)) in
  let header := if decide (out_fmt e = "shef") then shef_header (utc_now e)
                else csv_header in
  1 < length diff →
  ∃ w',
    main_publish e w = (Ok (), w')
    ∧ (readlines <$> files w' !! final_out_fullfn e)
      = Some (readlines header ++ dedup_loop (list_to_set (readlines header)) diff)
    ∧ files w' !! last_fullfn e = Some new_text.
Proof.
  intros Hfmt Hnew Hlast diff header Hmany.
  destruct (header_rows (out_fmt e) n (utc_now e) Hfmt) as (rows & Hrows & Hlen & Hnd).
  fold header in Hrows.
  assert (Hheader : readlines header = rows).
  { specialize (Hrows ""). by rewrite append_empty_r, app_nil_r in Hrows. }
  rewrite Hheader.
  rewrite (main_publish_baseline e w n new_text last_text Hfmt Hnew Hlast).
  fold diff header. rewrite decide_True by done.
  eexists. split; [reflexivity|]. cbn [files].
  split; [|apply lookup_insert_eq].
  rewrite lookup_insert_ne by (symmetry; apply final_ne_last).
  rewrite lookup_delete_ne by apply tmp_ne.
  rewrite lookup_insert_eq. simpl. f_equal.
  assert (Hdiff : lines_ok diff).
  { eapply lines_ok_sublist; [|apply (readlines_ok new_text)].
    etrans; [apply sublist_filter|apply sublist_drop]. }
  rewrite readlines_write_all
    by (eapply lines_ok_sublist; [apply dedup_loop_sublist|apply readlines_ok]).
  rewrite Hrows, (readlines_write_all diff Hdiff).
  unfold dedup_lines. rewrite dedup_loop_app. f_equal.
  - by apply dedup_lines_NoDup_id.
  - apply dedup_loop_agree. intros y _. set_solver.
Qed.

(** C1 (the code does otherwise). [write_new_lines] keeps the lines of
    the new body whose text, line end included, is not a line of the last
    body, in their order.  The encoder joins the bulletin lines with line
    feeds (line 291), so the last line of a snapshot has no line end.
    When the last snapshot holds the lines [init ++ [l]] and the records
    of this run encode to the same lines and more after them, the differ
    therefore keeps the former last line [l] again, now with its line
    feed, before the added lines, and the run publishes it a second time:
    baseline A, B against new A, B, C, D keeps B, C, D. *)
Theorem write_new_lines_keeps_former_last_line e w (t1 : Z) final_df
    (init more : list string) (l m : string) :
  out_fmt e = "shef" →
  files w !! last_fullfn e = Some (shef_header t1 +:+ join_lines (init ++ [l])) →
  out_line (duration (arg_vals e)) <$> final_df = Some <$> (init ++ l :: more ++ [m]) →
  Forall open_line (init ++ l :: more ++ [m]) →
  NoDup (init ++ l :: more ++ [m]) →
  let header := shef_header (utc_now e) in
  let kept := (l +:+ lf) :: ((λ s, s +:+ lf) <$> more) ++ [m] in
  ∃ w_new w',
    main_encode e final_df w = (Ok (), w_new)
    ∧ files w_new !! new_fullfn e
      = Some (header +:+ join_lines (init ++ l :: more ++ [m]))
    ∧ files w_new !! last_fullfn e
      = Some (shef_header t1 +:+ join_lines (init ++ [l]))
    ∧ (∀ w0 h,
         files w0 !! final_out_fullfn e = Some h →
         files w0 !! new_fullfn e = files w_new !! new_fullfn e →
         files w0 !! last_fullfn e = files w_new !! last_fullfn e →
         write_new_lines (last_fullfn e) (new_fullfn e) (final_out_fullfn e) (out_fmt e) w0
         = (Ok (), {| files := <[final_out_fullfn e := h +:+ write_all kept]> (files w0);
                      trace := trace w0 |}))
    ∧ (main_encode e final_df;; main_publish e) w = (Ok (), w')
    ∧ (readlines <$> files w' !! final_out_fullfn e) = Some (readlines header ++ kept).
Proof.
  intros Hshef Hlast Hlines Hopen Hnd header kept.
  assert (Hfmt : start_row (out_fmt e) = Some 2) by by rewrite Hshef.
  set (lines := init ++ l :: more ++ [m]) in *.
  set (last_text := shef_header t1 +:+ join_lines (init ++ [l])) in *.
  assert (Hdiff : diff_lines (drop 2 (readlines (header +:+ join_lines lines)))
                             (drop 2 (readlines last_text)) = kept).
  { unfold header, last_text. rewrite !body_after_shef_header.
    by apply diff_lines_extended_body. }
  assert (Hkept : NoDup kept).
  { apply kept_lines_NoDup.
    - by apply NoDup_app in Hnd as (_ & _ & ?).
    - apply Forall_app in Hopen as [_ Hopen]. apply Forall_cons in Hopen as [_ Hopen].
      apply Forall_app in Hopen as [_ Hm]. apply Forall_cons in Hm as [[_ Hm] _]. done. }
  assert (Hdot : Forall dotted kept).
  { apply out_lines_dotted in Hlines. unfold lines in Hlines.
    apply Forall_app in Hlines as [_ Hlines]. apply Forall_cons in Hlines as [Hl Hlines].
    apply Forall_app in Hlines as [Hmore Hm].
    constructor; [by apply dotted_append|]. apply Forall_app. split; [|done].
    apply Forall_fmap. eapply Forall_impl; [exact Hmore|].
    intros s Hs. by apply dotted_append. }
  assert (Henc : main_encode e final_df w
                 = (Ok (), {| files := <[new_fullfn e := header +:+ join_lines lines]> (files w);
                              trace := trace w |})).
  { rewrite (main_encode_supported e final_df w 2 Hfmt). cbn zeta.
    rewrite Hshef, decide_False, decide_True by done.
    by rewrite Hlines, join_out_lines_fmap_Some. }
  set (w_new := {| files := <[new_fullfn e := header +:+ join_lines lines]> (files w);
                   trace := trace w |}) in *.
  assert (Hnew' : files w_new !! new_fullfn e = Some (header +:+ join_lines lines))
    by apply lookup_insert_eq.
  assert (Hlast' : files w_new !! last_fullfn e = Some last_text)
    by (cbn [files w_new]; by rewrite lookup_insert_ne by apply new_ne_last).
  destruct (main_publish_lines e w_new 2 _ _ Hfmt Hnew' Hlast') as (w' & Hpub & Hread & _).
  { rewrite Hdiff. unfold kept. simpl. rewrite length_app. simpl. lia. }
  exists w_new, w'.
  split; [done|]. split; [done|]. split; [done|]. split; [|split].
  - intros w0 h Hout Hnew0 Hlast0. rewrite Hnew' in Hnew0. rewrite Hlast' in Hlast0.
    rewrite (write_new_lines_run _ _ _ _ 2 w0 _ _ Hfmt Hnew0 Hlast0).
    rewrite Hdiff, Hout.
    rewrite decide_True by (unfold kept; simpl; rewrite length_app; simpl; lia).
    done.
  - by erewrite bind_Ok by exact Henc.
  - rewrite Hread, Hdiff. rewrite Hshef, decide_True by done.
    fold header. do 2 f_equal.
    apply dedup_loop_NoDup_id; [done|]. intros x Hx.
    rewrite elem_of_list_to_set. intros Hrow.
    assert (Hnot := shef_header_rows_not_dotted (utc_now e)).
    rewrite Forall_forall in Hnot, Hdot. by apply (Hnot x Hrow), Hdot.
Qed.

Lemma write_new_lines_keeps_former_last_line_witness :
  (readlines <$> files world_ab !! last_fullfn env_abcd)
  = Some (readlines (shef_header (utc_now env_ab)) ++ [line_1300 +:+ lf; line_1400])
  ∧ ∃ w',
      main env_abcd world_ab = (Ok (), w')
      ∧ (readlines <$> files w' !! final_out_fullfn env_abcd)
        = Some (readlines (shef_header (utc_now env_abcd))
                  ++ [line_1400 +:+ lf; line_1500 +:+ lf; line_1600]).
Proof.
  split; [by vm_compute|].
  destruct (write_new_lines_keeps_former_last_line env_abcd
              {| files := files world_ab;
                 trace := trace world_ab
                            ++ [Log "scraping started";
                                GetData "1107:WA:SNTL" "WTEQ" "HOURLY" "-3";
                                GetMeta "1107:WA:SNTL"; Log "scraping completed"] |}
              (utc_now env_ab)
              [record_at 13 "12.3"; record_at 14 "12.4"; record_at 15 "12.5";
               record_at 16 "12.6"]
              [line_1300] [line_1500] line_1400 line_1600)
    as (w_new & w' & _ & _ & _ & _ & Hrun & Hlines).
  - reflexivity.
  - by vm_compute.
  - by vm_compute.
  - repeat constructor; discriminate.
  - apply (bool_decide_unpack _). by vm_compute.
  - exists w'. split; [exact Hrun | exact Hlines].
Defined.

(** ** Deduplicator: a last line without line feed *)

Lemma write_all_app (a b : list string) : write_all (a ++ b) = write_all a +:+ write_all b.
Proof.
  induction a as [|x a IH]; [done|].
  cbn [app]. by rewrite !write_all_cons, IH, append_assoc.
Qed.

Lemma lines_ok_snoc (lines : list string) (l : string) :
  Forall terminated lines → open_line l → lines_ok (lines ++ [l]).
Proof.
  intros Hlines Hl. induction Hlines as [|x lines Hx _ IH]; [by right|].
  cbn [app]. by apply lines_ok_cons.
Qed.

Lemma terminated_not_open (x : string) : terminated x → open_line x → False.
Proof. intros (body & -> & _) [_ Hx]. by rewrite has_eol_append_lf in Hx. Qed.

(** C6 (the code does otherwise). The loop of [remove_dup_lines]
    compares lines with their line ends.  In a file whose last line has
    no line feed and repeats an earlier line, the two are different texts
    and both stay: the rewritten file ends with that line a second time.
    The published file of the bulletin format is such a file (line 291
    joins the lines and line 300 copies the snapshot): a first run whose
    reply holds the same reading twice publishes its line twice. *)
Theorem remove_dup_lines_keeps_unterminated_repeat w out_fullfn
    (lines : list string) (l : string) :
  files w !! out_fullfn = Some (write_all lines +:+ l) →
  Forall terminated lines →
  open_line l →
  l +:+ lf ∈ lines →
  (∃ w',
     remove_dup_lines out_fullfn w = (Ok (), w')
     ∧ files w' !! out_fullfn = Some (write_all (dedup_lines lines) +:+ l)
     ∧ (readlines <$> files w' !! out_fullfn) = Some (dedup_lines lines ++ [l])
     ∧ l +:+ lf ∈ dedup_lines lines)
  ∧ (main env_twice empty_world).1 = Ok ()
  ∧ (readlines <$> files (main env_twice empty_world).2 !! final_out_fullfn env_twice)
    = Some (readlines (shef_header (utc_now env_twice)) ++ [line_1300 +:+ lf; line_1300]).
Proof.
  intros Hout Hlines Hl Hin. split; [|by vm_compute].
  assert (Hok : lines_ok (lines ++ [l])) by by apply lines_ok_snoc.
  assert (Htext : write_all lines +:+ l = write_all (lines ++ [l])).
  { rewrite write_all_app. f_equal. unfold write_all. simpl. by rewrite append_empty_r. }
  assert (Hdedup : dedup_lines (lines ++ [l]) = dedup_lines lines ++ [l]).
  { unfold dedup_lines. rewrite dedup_loop_app. f_equal.
    cbn [dedup_loop]. rewrite decide_True; [done|].
    rewrite not_elem_of_union, elem_of_list_to_set. split; [|apply not_elem_of_empty].
    intros Hl'. rewrite Forall_forall in Hlines.
    by apply (terminated_not_open l); [apply Hlines|]. }
  rewrite (remove_dup_lines_run out_fullfn w _ Hout).
  eexists. split; [reflexivity|]. cbn [files].
  rewrite lookup_delete_ne by apply tmp_ne. rewrite lookup_insert_eq.
  rewrite Htext, (readlines_write_all _ Hok), Hdedup.
  assert (Hok' : lines_ok (dedup_lines lines ++ [l])).
  { rewrite <- Hdedup. eapply lines_ok_sublist; [apply dedup_loop_sublist|done]. }
  split; [|split].
  - rewrite write_all_app. do 2 f_equal. unfold write_all. simpl. by rewrite append_empty_r.
  - simpl. f_equal. by apply readlines_write_all.
  - unfold dedup_lines. rewrite dedup_loop_elem_of. split; [done|apply not_elem_of_empty].
Qed.

Lemma remove_dup_lines_keeps_unterminated_repeat_witness :
  ∃ w',
    remove_dup_lines "delta.shef" sample_repeat_world = (Ok (), w')
    ∧ files w' !! "delta.shef"
      = Some ("a" +:+ lf +:+ "b" +:+ lf +:+ "c" +:+ lf +:+ "b").
Proof.
  destruct (remove_dup_lines_keeps_unterminated_repeat sample_repeat_world "delta.shef"
              ["a" +:+ lf; "b" +:+ lf; "a" +:+ lf; "c" +:+ lf] "b")
    as [(w' & Hrun & Htext & _) _].
  - reflexivity.
  - repeat constructor; by eexists.
  - split; [discriminate|reflexivity].
  - apply (bool_decide_unpack _). by vm_compute.
  - exists w'. split; [exact Hrun | exact Htext].
Defined.

(** ** Promotion of the new snapshot: the run that follows *)

Lemma main_publish_unknown_format e w last_text new_text :
  start_row (out_fmt e) = None →
  files w !! last_fullfn e = Some last_text →
  files w !! new_fullfn e = Some new_text →
  (main_publish e w).1 = Err (UnboundLocalError "start_row").
Proof.
  intros Hfmt Hlast Hnew. unfold main_publish.
  erewrite bind_Ok by by eapply isfile_Some.
  erewrite bind_Err; [done|].
  assert (out_fmt e ≠ "csv" ∧ out_fmt e ≠ "shef") as [??].
  { unfold start_row in Hfmt. by repeat case_decide. }
  rewrite !decide_False by done.
  erewrite bind_Ok by reflexivity. erewrite bind_Ok by reflexivity.
  unfold write_new_lines.
  erewrite bind_Ok by by apply read_text_Some.
  by rewrite Hfmt.
Qed.

Lemma main_publish_Ok_promotes e w w' new_text :
  files w !! new_fullfn e = Some new_text →
  main_publish e w = (Ok (), w') →
  files w' !! last_fullfn e = Some new_text
  ∧ files w' !! new_fullfn e = Some new_text.
Proof.
  intros Hnew Hrun.
  destruct (files w !! last_fullfn e) as [last_text|] eqn:Hlast.
  - destruct (start_row (out_fmt e)) as [n|] eqn:Hfmt.
    + destruct (main_publish_promotes e w n new_text Hfmt Hnew) as (w'' & Hrun' & ?).
      rewrite Hrun in Hrun'. by injection Hrun' as <-.
    + assert (H := main_publish_unknown_format e w last_text new_text Hfmt Hlast Hnew).
      by rewrite Hrun in H.
  - rewrite (main_publish_no_baseline e w new_text Hnew Hlast) in Hrun.
    injection Hrun as <-. cbn [files].
    split; [apply lookup_insert_eq|].
    rewrite lookup_insert_ne by (symmetry; apply new_ne_last).
    rewrite lookup_delete_ne by apply tmp_ne_new.
    by rewrite !lookup_insert_ne by (apply final_ne_new || apply tmp_ne_new).
Qed.

(** C10 (amended). Whenever the publish phase of a run completes, the
    last-snapshot file holds the new snapshot's text, whatever the differ
    did.  With a last snapshot and a format the differ knows the phase
    always completes, also when the guard discards the delta, and every
    line the differ kept, published or discarded, is a body line of the
    baseline it leaves.  The run that follows, with the same format and
    duration class and that baseline, completes and either publishes no
    file or publishes its header rows followed by lines of its own new
    body, none of which has the text, line end included, of a body line
    of the baseline. *)
Theorem new_snapshot_promoted e w new_text :
  files w !! new_fullfn e = Some new_text →
  (∀ w', main_publish e w = (Ok (), w') →
     files w' !! last_fullfn e = Some new_text
     ∧ files w' !! new_fullfn e = Some new_text)
  ∧ (∀ n, start_row (out_fmt e) = Some n →
     ∃ w',
       main_publish e w = (Ok (), w')
       ∧ (∀ last_text line,
            files w !! last_fullfn e = Some last_text →
            line ∈ diff_lines (drop n (readlines new_text)) (drop n (readlines last_text)) →
            line ∈ drop n (readlines new_text))
       ∧ (∀ e2 w2 next_text,
            out_fmt e2 = out_fmt e →
            duration (arg_vals e2) = duration (arg_vals e) →
            files w2 !! last_fullfn e = files w' !! last_fullfn e →
            files w2 !! new_fullfn e2 = Some next_text →
            let header2 := if decide (out_fmt e2 = "shef") then shef_header (utc_now e2)
                           else csv_header in
            ∃ w3,
              main_publish e2 w2 = (Ok (), w3)
              ∧ (files w3 !! final_out_fullfn e2 = None
                 ∨ ∃ body,
                     (readlines <$> files w3 !! final_out_fullfn e2)
                     = Some (readlines header2 ++ body)
                     ∧ body `sublist_of` drop n (readlines next_text)
                     ∧ ∀ line, line ∈ drop n (readlines new_text) → line ∉ body))).
Proof.
  intros Hnew. split; [intros w'; by apply main_publish_Ok_promotes|].
  intros n Hfmt.
  destruct (main_publish_promotes e w n new_text Hfmt Hnew) as (w' & Hrun & Hlast & Hnew').
  exists w'. split; [done|]. split.
  { by intros last_text line _ [Hin _]%elem_of_diff_lines. }
  intros e2 w2 next_text Hfmt2 Hdur2 Hlast2 Hnew2 header2.
  assert (Hfmt2' : start_row (out_fmt e2) = Some n) by by rewrite Hfmt2.
  assert (Hlastfn : last_fullfn e2 = last_fullfn e)
    by (unfold last_fullfn, last_fn; by rewrite Hfmt2, Hdur2).
  rewrite Hlast, <- Hlastfn in Hlast2.
  set (diff := diff_lines (drop n (readlines next_text)) (drop n (readlines new_text))).
  destruct (decide (1 < length diff)) as [Hmany|Hfew].
  - destruct (main_publish_lines e2 w2 n next_text new_text Hfmt2' Hnew2 Hlast2 Hmany)
      as (w3 & Hrun3 & Hread & _).
    exists w3. split; [done|]. right. eexists. split; [exact Hread|]. split.
    + etrans; [apply dedup_loop_sublist|]. unfold diff_lines. apply sublist_filter.
    + intros line Hline [[_ Hout]%elem_of_diff_lines _]%dedup_loop_elem_of. done.
  - rewrite (main_publish_baseline e2 w2 n next_text new_text Hfmt2' Hnew2 Hlast2).
    fold diff. rewrite decide_False by done.
    eexists. split; [reflexivity|]. left. cbn [files].
    rewrite lookup_insert_ne by (symmetry; apply final_ne_last).
    apply lookup_delete_eq.
Qed.

Lemma new_snapshot_promoted_witness :
  ∃ w',
    main_publish sample_hourly_env
      (sample_world [line_1300 +:+ lf; line_1400] [line_1300 +:+ lf; line_1500])
    = (Ok (), w')
    ∧ files w' !! final_out_fullfn sample_hourly_env = None
    ∧ files w' !! last_fullfn sample_hourly_env
      = Some (sample_snapshot [line_1300 +:+ lf; line_1400])
    ∧ ∃ w3,
        main_publish sample_hourly_env
          (sample_world [line_1300 +:+ lf; line_1500 +:+ lf; line_1600]
                        [line_1300 +:+ lf; line_1400])
        = (Ok (), w3)
        ∧ (readlines <$> files w3 !! final_out_fullfn sample_hourly_env)
          = Some (readlines (shef_header (utc_now sample_hourly_env))
                    ++ [line_1500 +:+ lf; line_1600]).
Proof.
  destruct (new_snapshot_promoted sample_hourly_env
              (sample_world [line_1300 +:+ lf; line_1400] [line_1300 +:+ lf; line_1500])
              (sample_snapshot [line_1300 +:+ lf; line_1400]) eq_refl)
    as [Hpromote Hguard].
  destruct (Hguard 2 eq_refl) as (w' & Hrun & _ & Hnext).
  destruct (Hpromote w' Hrun) as [Hlast _].
  exists w'. split; [exact Hrun|].
  split; [vm_compute in Hrun; injection Hrun as <-; by vm_compute|].
  split; [exact Hlast|].
  destruct (Hnext sample_hourly_env
              (sample_world [line_1300 +:+ lf; line_1500 +:+ lf; line_1600]
                            [line_1300 +:+ lf; line_1400])
              (sample_snapshot [line_1300 +:+ lf; line_1500 +:+ lf; line_1600])
              eq_refl eq_refl)
    as (w3 & Hrun3 & _).
  - rewrite Hlast. reflexivity.
  - reflexivity.
  - exists w3. split; [exact Hrun3|].
    vm_compute in Hrun3. injection Hrun3 as <-. by vm_compute.
Defined.

(** The line end is part of the text: a line that the guard discarded
    while it was the last line of the snapshot has no line feed in the
    baseline, and the run that follows, in which a line comes after it,
    publishes it with its line feed. *)
Lemma discarded_last_line_published_next_run :
  files world_next1 !! final_out_fullfn env_next1 = None
  ∧ (readlines <$> files world_next1 !! last_fullfn env_next1)
    = Some (readlines (shef_header (utc_now env_next1)) ++ [line_1300 +:+ lf; line_1500])
  ∧ (main env_next2 world_next1).1 = Ok ()
  ∧ (readlines <$> files world_next2 !! final_out_fullfn env_next2)
    = Some (readlines (shef_header (utc_now env_next2)) ++ [line_1500 +:+ lf; line_1600]).
Proof. by vm_compute. Qed.

(** ** A format the differ does not know, with a baseline on disk *)

Lemma start_row_None out_fmt :
  out_fmt ≠ "csv" → out_fmt ≠ "shef" → start_row out_fmt = None.
Proof. intros ??. unfold start_row. by rewrite !decide_False. Qed.

(** X19. With a format other than csv and shef and a last snapshot on
    disk, the run writes the header-less new snapshot and then ends in
    [write_new_lines] with [UnboundLocalError] for [start_row]: nothing
    is published, nothing is logged and the last snapshot stays as it
    was, so the next run meets the same baseline. *)
Theorem unknown_format_with_baseline e w final_df last_text :
  out_fmt e ≠ "csv" →
  out_fmt e ≠ "shef" →
  files w !! last_fullfn e = Some last_text →
  Forall (λ r, is_Some (f_PE r)) final_df →
  ∃ lines w',
    out_line (duration (arg_vals e)) <$> final_df = Some <$> lines
    ∧ (main_encode e final_df;; main_publish e) w
      = (Err (UnboundLocalError "start_row"), w')
    ∧ files w' !! new_fullfn e = Some (join_lines lines)
    ∧ files w' !! last_fullfn e = Some last_text
    ∧ files w' !! final_out_fullfn e = files w !! final_out_fullfn e
    ∧ trace w' = trace w.
Proof.
  intros Hcsv Hshef Hlast Hall.
  destruct (join_out_lines_Some (duration (arg_vals e)) final_df Hall)
    as (lines & Hlines & Hjoin).
  exists lines. eexists. split; [done|]. split.
  - rewrite bind_unfold, main_encode_world.
    rewrite decide_False by done. cbn zeta. rewrite Hjoin.
    rewrite decide_False by done.
    unfold main_publish.
    erewrite bind_Ok; last first.
    { eapply isfile_Some. cbn [files].
      rewrite lookup_insert_ne by apply new_ne_last. exact Hlast. }
    apply bind_Err. rewrite !decide_False by done.
    erewrite bind_Ok by reflexivity. erewrite bind_Ok by reflexivity.
    unfold write_new_lines.
    erewrite bind_Ok by (apply read_text_Some; cbn [files]; apply lookup_insert_eq).
    by rewrite start_row_None.
  - cbn [files trace]. split; [apply lookup_insert_eq|].
    split; [by rewrite lookup_insert_ne by apply new_ne_last|].
    split; [|done].
    by rewrite lookup_insert_ne by (symmetry; apply final_ne_new).
Qed.

Lemma unknown_format_with_baseline_witness :
  ∃ w',
    main env_xml (main env_xml empty_world).2 = (Err (UnboundLocalError "start_row"), w')
    ∧ files w' !! last_fullfn env_xml
      = files (main env_xml empty_world).2 !! last_fullfn env_xml.
Proof.
  destruct (unknown_format_with_baseline env_xml
              {| files := files (main env_xml empty_world).2;
                 trace := trace (main env_xml empty_world).2
                            ++ [Log "scraping started";
                                GetData "1107:WA:SNTL" "WTEQ" "HOURLY" "-3";
                                GetMeta "1107:WA:SNTL"; Log "scraping completed"] |}
              [ {| f_shefId := "CLJW1"; f_utcTime := timestamp 2024 11 1 13 0 0;
                   f_PE := Some "SW"; f_value := "12.3" |};
                {| f_shefId := "CLJW1"; f_utcTime := timestamp 2024 11 1 14 0 0;
                   f_PE := Some "SW"; f_value := "12.4" |} ]
              (line_1300 +:+ lf +:+ line_1400))
    as (lines & w' & _ & Hrun & _ & Hlast & _).
  - discriminate.
  - discriminate.
  - by vm_compute.
  - repeat constructor; by eexists.
  - exists w'. split; [exact Hrun|]. rewrite Hlast. by vm_compute.
Defined.

(** ** The files of a run *)

(** X20. Whatever the duration class, the format and the time of the
    run, the new snapshot, the last snapshot, the published file and the
    deduplicator's temporary copy are four different paths: no step of a
    run overwrites the file of another role. *)
Theorem snapshot_paths_distinct e :
  NoDup [new_fullfn e; last_fullfn e; final_out_fullfn e;
         final_out_fullfn e +:+ ".tmp"].
Proof.
  assert (Hnl := new_ne_last e). assert (Hfn := final_ne_new e).
  assert (Hfl := final_ne_last e). assert (Htn := tmp_ne_new e).
  assert (Htl := tmp_ne_last e). assert (Ht := tmp_ne (final_out_fullfn e)).
  repeat (apply NoDup_cons; split;
          [rewrite ?elem_of_cons, elem_of_nil; intros H;
           repeat (destruct H as [H|H]; [congruence|]); done|]).
  apply NoDup_nil_2.
Qed.

(** X21. A run that completes, in whatever format and with or without a
    baseline, ends with the last snapshot holding the text of the new
    snapshot, and its last two log entries name the published file and
    the last snapshot. *)
Theorem completed_run_promotes e w w' :
  main e w = (Ok (), w') →
  is_Some (files w' !! new_fullfn e)
  ∧ files w' !! last_fullfn e = files w' !! new_fullfn e
  ∧ ∃ earlier,
      trace w'
      = earlier ++ [Log ("nrcs scraping complete with output to: " +:+ final_out_fullfn e);
                    Log ("equivalent final output found in last file: " +:+ last_fullfn e)].
Proof.
  unfold main. rewrite bind_unfold.
  destruct (main_fetch e w) as [[fetched|err] w1]; [|done].
  rewrite bind_unfold.
  destruct (main_join fetched.1 fetched.2 w1) as [[final_df|err] w2]; [|done].
  rewrite bind_unfold.
  assert (∃ new_text, (main_encode e final_df w2).1 = Ok () →
            files (main_encode e final_df w2).2 !! new_fullfn e = Some new_text)
    as [new_text Hnew].
  { rewrite main_encode_world. destruct (decide _).
    - eexists. intros _. cbn [files snd]. apply lookup_insert_eq.
    - cbn zeta. destruct (join_out_lines _); [|by exists ""].
      eexists. intros _. cbn [files snd]. apply lookup_insert_eq. }
  destruct (main_encode e final_df w2) as [[[]|err] w3]; [|done].
  specialize (Hnew eq_refl). cbn [snd] in Hnew. intros Hpub.
  assert (Hdone : ∀ (m : gmap string string) tr,
            (Ok (), {| files := <[last_fullfn e := new_text]> m; trace := tr |}) = (Ok (), w') →
            m !! new_fullfn e = Some new_text →
            is_Some (files w' !! new_fullfn e)
            ∧ files w' !! last_fullfn e = files w' !! new_fullfn e).
  { intros m tr [= <-] Hm. cbn [files].
    rewrite lookup_insert_eq, lookup_insert_ne by (symmetry; apply new_ne_last).
    rewrite Hm. split; [by eexists|done]. }
  destruct (files w3 !! last_fullfn e) as [last_text|] eqn:Hlast.
  - destruct (start_row (out_fmt e)) as [n|] eqn:Hfmt.
    + rewrite (main_publish_baseline e w3 n new_text last_text Hfmt Hnew Hlast) in Hpub.
      destruct (decide (1 < length _)).
      * split_and!; [eapply Hdone; [exact Hpub|]..|].
        1,2: rewrite lookup_delete_ne by apply tmp_ne_new;
          by rewrite !lookup_insert_ne by (apply final_ne_new || apply tmp_ne_new).
        injection Hpub as <-. by eexists.
      * split_and!; [eapply Hdone; [exact Hpub|]..|].
        1,2: rewrite lookup_delete_ne by apply final_ne_new;
          by rewrite lookup_insert_ne by apply final_ne_new.
        injection Hpub as <-. cbn [trace]. by eexists.
    + exfalso. unfold main_publish in Hpub.
      erewrite bind_Ok in Hpub by by eapply isfile_Some.
      erewrite bind_Err in Hpub; [done|].
      assert (out_fmt e ≠ "csv" ∧ out_fmt e ≠ "shef") as [??].
      { unfold start_row in Hfmt. by repeat case_decide. }
      rewrite !decide_False by done.
      erewrite bind_Ok by reflexivity. erewrite bind_Ok by reflexivity.
      unfold write_new_lines.
      erewrite bind_Ok by by apply read_text_Some.
      by rewrite Hfmt.
  - rewrite (main_publish_no_baseline e w3 new_text Hnew Hlast) in Hpub.
    split_and!; [eapply Hdone; [exact Hpub|]..|].
    1,2: rewrite lookup_delete_ne by apply tmp_ne_new;
      by rewrite !lookup_insert_ne by (apply final_ne_new || apply tmp_ne_new).
    injection Hpub as <-. by eexists.
Qed.

Lemma completed_run_promotes_witness :
  files world_after1 !! last_fullfn env_run1 = files world_after1 !! new_fullfn env_run1.
Proof.
  destruct (completed_run_promotes env_run1 empty_world world_after1) as (_ & Heq & _).
  - by vm_compute.
  - exact Heq.
Defined.

Lemma get_data_one_request_witness :
  ∃ r,
    get_data (env_with "all" [sample_station] (Ok []) (Ok [sample_meta]))
      ["1107:WA:SNTL"] "WTEQ" "HOURLY" "3" empty_world
    = (r, {| files := ∅; trace := [GetData "1107:WA:SNTL" "WTEQ" "HOURLY" "-3"] |})
    ∧ r = Err (ValueError "No objects to concatenate").
Proof.
  destruct (get_data_one_request (env_with "all" [sample_station] (Ok []) (Ok [sample_meta]))
              ["1107:WA:SNTL"] "WTEQ" "HOURLY" "3" empty_world)
    as (r & Hrun & _ & Hempty & _).
  exists r. split; [exact Hrun|]. by apply Hempty.
Defined.
